(** * A storage node of the sample distributed file system

    Shallow embedding of [utilities.py], [storage_node.py] and the
    directory part of [cleanup.py]: the node-identity naming functions, the
    integrity verifier, the chunked transfer loops and the request
    dispatcher, followed by the properties of the specification that were
    checked against them.

    Conventions.
    - A Python [bytes] value is a [string]: one [ascii] per byte.
    - A Python [str] is represented by its UTF-8 encoding, again a [string];
      a [str] that names a file is represented by the bytes of that name,
      which need not be well-formed UTF-8 (the [str] then carries surrogate
      escapes).  [bytes.decode()] is the identity on well-formed UTF-8 and
      raises otherwise, and so does [str.encode()]; [bytes(s, "utf-8")] in
      the handler is applied to texts built from decoded ones and is the
      identity.
      Splitting on the ASCII separators used by the sources gives the same
      fields on the encoding as on the code points.
    - Effects (file system, socket) are threaded through a state and
      exception monad [M]. *)

From Stdlib Require Import ZArith String Ascii List Lia Bool.
From stdpp Require Import base gmap strings list.

Local Open Scope string_scope.
Local Open Scope Z_scope.

(** ** Python built-ins used by the sources *)

Module Py.

(** Exceptions; every one of them is a subclass of [Exception]. *)
Inductive exception : Type :=
| ValueError (msg : string)
| TypeError (msg : string)
| IndexError (msg : string)
| UnicodeDecodeError (msg : string)
| UnicodeEncodeError (msg : string)
| UnboundLocalError (msg : string)
| OverflowError (msg : string)
| OSError (errno : Z) (strerror : string) (filename : string)
| Exception (msg : string).

(** Decimal rendering of an integer, as [str(n)] and [f"{n}"] give it. *)
Definition digit_char (d : Z) : ascii := ascii_of_N (Z.to_N (48 + d)).

Fixpoint str_of_pos_go (fuel : nat) (n : Z) (acc : string) : string :=
  match fuel with
  | O => acc
  | S k =>
      let acc' := String (digit_char (n mod 10)) acc in
      if n / 10 =? 0 then acc' else str_of_pos_go k (n / 10) acc'
  end.

Definition str_of_int (n : Z) : string :=
  if n <? 0
  then String "-" (str_of_pos_go (Z.to_nat (Z.log2 (- n)) + 1) (- n) "")
  else str_of_pos_go (Z.to_nat (Z.log2 n) + 1) n "".

(** [repr] of a string, for strings without quotes, backslashes or
    non-printable characters (the only ones the examples below use). *)
Definition repr (s : string) : string := "'" ++ s ++ "'".

(** [str(e)]. *)
Definition str_of_exception (e : exception) : string :=
  match e with
  | ValueError m | TypeError m | IndexError m | UnicodeDecodeError m
  | UnicodeEncodeError m | UnboundLocalError m | OverflowError m | Exception m => m
  | OSError n msg f => "[Errno " ++ str_of_int n ++ "] " ++ msg ++ ": " ++ repr f
  end.

(** [len(s)] *)
Definition len (s : string) : Z := Z.of_nat (String.length s).

(** [sys.maxsize] of a 64-bit CPython. *)
Definition sys_maxsize : Z := 2 ^ 63 - 1.

(** [len(range(n))]: the number of elements, which must fit a C ssize_t. *)
Definition len_range (n : Z) : exception + nat :=
  if sys_maxsize <? n
  then inl (OverflowError "Python int too large to convert to C ssize_t")
  else inr (Z.to_nat n).

(** [tqdm.tqdm(range(n), ...)]: the progress bar takes the length of its
    iterable when it is built, and iterating it yields the elements of the
    range while it displays.  The result is the number of iterations of a
    [for] loop over it. *)
Definition tqdm_range (n : Z) : exception + nat := len_range n.

(** The first [n] characters of a string, and the rest: what
    [f.read(n)] returns and what it leaves unread. *)
Fixpoint take (n : nat) (s : string) : string :=
  match n, s with
  | S k, String c s' => String c (take k s')
  | _, _ => ""
  end.

Fixpoint drop (n : nat) (s : string) : string :=
  match n, s with
  | S k, String _ s' => drop k s'
  | _, _ => s
  end.

(** [s.startswith(p)] *)
Fixpoint startswith (p s : string) : bool :=
  match p, s with
  | EmptyString, _ => true
  | String a p', String b s' => Ascii.eqb a b && startswith p' s'
  | String _ _, EmptyString => false
  end.

(** [s.split(sep)] for a non-empty [sep]: a left-to-right scan for
    non-overlapping occurrences.  [skip] counts the characters of a matched
    separator still to be dropped, [cur] is the field being read. *)
Fixpoint split_go (sep : string) (skip : nat) (cur : string) (s : string)
  : list string :=
  match s with
  | EmptyString => [cur]
  | String c s' =>
      match skip with
      | S k => split_go sep k cur s'
      | O =>
          if startswith sep s
          then cur :: split_go sep (String.length sep - 1) "" s'
          else split_go sep O (cur ++ String c "") s'
      end
  end.

Definition split (sep : string) (s : string) : list string :=
  split_go sep O "" s.

(** [sep.join(l)] *)
Fixpoint join (sep : string) (l : list string) : string :=
  match l with
  | [] => ""
  | [x] => x
  | x :: l' => x ++ sep ++ join sep l'
  end.

(** [s.replace(old, new)] for a non-empty [old]. *)
Definition replace (old new s : string) : string := join new (split old s).

(** [os.path.basename] (posixpath): what follows the last slash. *)
Fixpoint basename_from (tail p : string) : string :=
  match p with
  | EmptyString => tail
  | String c p' =>
      if Ascii.eqb c "/" then basename_from p' p' else basename_from tail p'
  end.

Definition basename (p : string) : string := basename_from p p.

(** [s.rstrip('/')] *)
Fixpoint rstrip_slash (s : string) : string :=
  match s with
  | EmptyString => ""
  | String c s' =>
      match rstrip_slash s' with
      | EmptyString => if Ascii.eqb c "/" then "" else String c ""
      | r => String c r
      end
  end.

(** [os.path.dirname] (posixpath): the head up to the last slash, with its
    trailing slashes removed unless it consists of slashes only. *)
Definition dirname (p : string) : string :=
  let b := basename p in
  let head := take (String.length p - String.length b) p in
  match rstrip_slash head with
  | EmptyString => head
  | r => r
  end.

(** [int(s)] on ASCII input: optional surrounding white space, an optional
    sign, then decimal digits in which single underscores may separate
    digits.  Non-ASCII decimal digits and white space, which Python also
    accepts, are not modelled: such input is rejected here. *)
Definition is_space (c : ascii) : bool :=
  let n := Z.of_N (N_of_ascii c) in
  ((9 <=? n) && (n <=? 13)) || (n =? 32).

Fixpoint lstrip (s : string) : string :=
  match s with
  | String c s' => if is_space c then lstrip s' else s
  | EmptyString => ""
  end.

Fixpoint rstrip (s : string) : string :=
  match s with
  | EmptyString => ""
  | String c s' =>
      match rstrip s' with
      | EmptyString => if is_space c then "" else String c ""
      | r => String c r
      end
  end.

Definition digit_of (c : ascii) : option Z :=
  let n := Z.of_N (N_of_ascii c) in
  if (48 <=? n) && (n <=? 57) then Some (n - 48) else None.

(** [after_digit] tells whether the previous character was a digit, which
    is where an underscore or the end of the literal is allowed. *)
Fixpoint digits_go (after_digit : bool) (acc : Z) (s : string) : option Z :=
  match s with
  | EmptyString => if after_digit then Some acc else None
  | String c s' =>
      match digit_of c with
      | Some d => digits_go true (10 * acc + d) s'
      | None =>
          if Ascii.eqb c "_" && after_digit
          then digits_go false acc s'
          else None
      end
  end.

Definition int (s : string) : exception + Z :=
  let bad := ValueError ("invalid literal for int() with base 10: " ++ repr s) in
  match rstrip (lstrip s) with
  | String "-" d => match digits_go false 0 d with
                    | Some n => inr (- n) | None => inl bad end
  | String "+" d => match digits_go false 0 d with
                    | Some n => inr n | None => inl bad end
  | d => match digits_go false 0 d with
         | Some n => inr n | None => inl bad end
  end.

(** The bytes of a string as numbers. *)
Definition byte_values (s : string) : list Z :=
  map (fun c => Z.of_N (N_of_ascii c)) (list_ascii_of_string s).

(** Well-formed UTF-8 (Unicode table 3-7), which is what the strict decoder
    of [bytes.decode()] accepts. *)
Definition between (lo hi b : Z) : bool := (lo <=? b) && (b <=? hi).
Definition cont (b : Z) : bool := between 128 191 b.

Fixpoint utf8_valid (l : list Z) : bool :=
  match l with
  | [] => true
  | b0 :: l1 =>
      if b0 <=? 127 then utf8_valid l1
      else if between 194 223 b0 then
        match l1 with
        | b1 :: l2 => cont b1 && utf8_valid l2
        | _ => false
        end
      else if between 224 239 b0 then
        match l1 with
        | b1 :: b2 :: l3 =>
            (if b0 =? 224 then between 160 191 b1
             else if b0 =? 237 then between 128 159 b1
             else cont b1)
            && cont b2 && utf8_valid l3
        | _ => false
        end
      else if between 240 244 b0 then
        match l1 with
        | b1 :: b2 :: b3 :: l4 =>
            (if b0 =? 240 then between 144 191 b1
             else if b0 =? 244 then between 128 143 b1
             else cont b1)
            && cont b2 && cont b3 && utf8_valid l4
        | _ => false
        end
      else false
  end.

(** [b.decode()] *)
Definition decode (b : string) : exception + string :=
  if utf8_valid (byte_values b) then inr b
  else inl (UnicodeDecodeError "'utf-8' codec can't decode bytes").

(** [s.encode()].  A text that names a file is held as the bytes the file
    system knows it by; where these are not well-formed UTF-8 the [str] of
    the program carries surrogate escapes, which the strict encoder
    refuses. *)
Definition encode (s : string) : exception + string :=
  if utf8_valid (byte_values s) then inr s
  else inl (UnicodeEncodeError
              "'utf-8' codec can't encode characters: surrogates not allowed").

End Py.

(** ** hashlib.md5 (RFC 1321) *)

Module MD5.

Definition mask32 (x : Z) : Z := Z.land x 0xffffffff.

Definition rotl32 (x c : Z) : Z :=
  mask32 (Z.lor (Z.shiftl x c) (Z.shiftr x (32 - c))).

Definition K : list Z :=
  [ 3614090360; 3905402710; 606105819; 3250441966;
    4118548399; 1200080426; 2821735955; 4249261313;
    1770035416; 2336552879; 4294925233; 2304563134;
    1804603682; 4254626195; 2792965006; 1236535329;
    4129170786; 3225465664; 643717713; 3921069994;
    3593408605; 38016083; 3634488961; 3889429448;
    568446438; 3275163606; 4107603335; 1163531501;
    2850285829; 4243563512; 1735328473; 2368359562;
    4294588738; 2272392833; 1839030562; 4259657740;
    2763975236; 1272893353; 4139469664; 3200236656;
    681279174; 3936430074; 3572445317; 76029189;
    3654602809; 3873151461; 530742520; 3299628645;
    4096336452; 1126891415; 2878612391; 4237533241;
    1700485571; 2399980690; 4293915773; 2240044497;
    1873313359; 4264355552; 2734768916; 1309151649;
    4149444226; 3174756917; 718787259; 3951481745 ].

Definition shifts : list Z :=
  [ 7; 12; 17; 22; 7; 12; 17; 22; 7; 12; 17; 22; 7; 12; 17; 22;
    5; 9; 14; 20; 5; 9; 14; 20; 5; 9; 14; 20; 5; 9; 14; 20;
    4; 11; 16; 23; 4; 11; 16; 23; 4; 11; 16; 23; 4; 11; 16; 23;
    6; 10; 15; 21; 6; 10; 15; 21; 6; 10; 15; 21; 6; 10; 15; 21 ].

(** Little-endian bytes of a word. *)
Fixpoint le_bytes (n : nat) (x : Z) : list Z :=
  match n with
  | O => []
  | S k => Z.land x 255 :: le_bytes k (Z.shiftr x 8)
  end.

Fixpoint le_word (l : list Z) : Z :=
  match l with
  | [] => 0
  | b :: l' => Z.lor b (Z.shiftl (le_word l') 8)
  end.

Definition pad (msg : list Z) : list Z :=
  let n := Z.of_nat (length msg) in
  msg ++ [128] ++ repeat 0 (Z.to_nat ((55 - n) mod 64)) ++ le_bytes 8 (8 * n).

(** The sixteen words of each 64-byte block. *)
Fixpoint words_of (nwords : nat) (l : list Z) : list Z :=
  match nwords with
  | O => []
  | S k => le_word (firstn 4 l) :: words_of k (skipn 4 l)
  end.

Fixpoint blocks_of (nblocks : nat) (l : list Z) : list (list Z) :=
  match nblocks with
  | O => []
  | S k => words_of 16 (firstn 64 l) :: blocks_of k (skipn 64 l)
  end.

Record state := { sa : Z; sb : Z; sc : Z; sd : Z }.

Definition init : state :=
  {| sa := 0x67452301; sb := 0xefcdab89; sc := 0x98badcfe; sd := 0x10325476 |}.

Definition step (M : list Z) (st : state) (i : nat) : state :=
  let '(Build_state A B C D) := st in
  let iz := Z.of_nat i in
  let '(F, g) :=
    if iz <? 16 then (Z.lor (Z.land B C) (Z.land (Z.lxor B 0xffffffff) D), iz)
    else if iz <? 32
    then (Z.lor (Z.land D B) (Z.land (Z.lxor D 0xffffffff) C), (5 * iz + 1) mod 16)
    else if iz <? 48 then (Z.lxor B (Z.lxor C D), (3 * iz + 5) mod 16)
    else (Z.lxor C (Z.lor B (Z.lxor D 0xffffffff)), (7 * iz) mod 16) in
  let F' := mask32 (F + A + nth i K 0 + nth (Z.to_nat g) M 0) in
  {| sa := D; sb := mask32 (B + rotl32 F' (nth i shifts 0)); sc := B; sd := C |}.

Definition compress (st : state) (M : list Z) : state :=
  let st' := fold_left (step M) (seq 0 64) st in
  {| sa := mask32 (sa st + sa st'); sb := mask32 (sb st + sb st');
     sc := mask32 (sc st + sc st'); sd := mask32 (sd st + sd st') |}.

Definition digest (msg : list Z) : list Z :=
  let p := pad msg in
  let st := fold_left compress (blocks_of (length p / 64) p) init in
  le_bytes 4 (sa st) ++ le_bytes 4 (sb st) ++ le_bytes 4 (sc st) ++ le_bytes 4 (sd st).

Definition hex_char (d : Z) : ascii :=
  ascii_of_N (Z.to_N (if d <? 10 then 48 + d else 87 + d)).

Fixpoint hex (l : list Z) : string :=
  match l with
  | [] => ""
  | b :: l' => String (hex_char (Z.shiftr b 4)) (String (hex_char (Z.land b 15)) (hex l'))
  end.

(** [hashlib.md5(data).hexdigest()] *)
Definition hexdigest (data : string) : string := hex (digest (Py.byte_values data)).

End MD5.

(** ** The world a connection handler runs in *)

Module World.
Import Py.

(** The file system is a set of directories and a map from the paths of
    regular files to their contents.  The socket is the connection of one
    handler: [sock_in k] is what the [k]-th call of [recv] returns (at most
    the buffer size asked for; the empty string once the peer has closed),
    [sock_pos] counts the calls made so far and [sock_out] collects what
    was passed to [sendall]. *)
Record world := {
  files : gmap string string;
  dirs : gset string;
  sock_in : nat -> string;
  sock_pos : nat;
  sock_out : list string
}.

Definition M (A : Type) : Type := world -> (exception + A) * world.

Definition ret {A} (a : A) : M A := fun w => (inr a, w).
Definition raise {A} (e : exception) : M A := fun w => (inl e, w).
Definition lift {A} (r : exception + A) : M A := fun w => (r, w).

Definition bind {A B} (c : M A) (k : A -> M B) : M B :=
  fun w =>
    match c w with
    | (inr a, w') => k a w'
    | (inl e, w') => (inl e, w')
    end.

(** [try: c except Exception as e: h e] *)
Definition try_except {A} (c : M A) (h : exception -> M A) : M A :=
  fun w =>
    match c w with
    | (inl e, w') => h e w'
    | r => r
    end.

Notation "x <- c ;; k" := (bind c (fun x => k))
  (at level 100, c at next level, right associativity).
Notation "c ;; k" := (bind c (fun _ => k))
  (at level 100, right associativity).

(** *** Socket

    [recv] hands out the next element of [sock_in]; the buffer size is the
    bound those elements obey.  Socket errors are not modelled. *)

Definition recv (bufsize : Z) : M string :=
  fun w =>
    (inr (sock_in w (sock_pos w)),
     {| files := files w; dirs := dirs w; sock_in := sock_in w;
        sock_pos := S (sock_pos w); sock_out := sock_out w |}).

Definition sendall (data : string) : M unit :=
  fun w =>
    (inr tt,
     {| files := files w; dirs := dirs w; sock_in := sock_in w;
        sock_pos := sock_pos w; sock_out := sock_out w ++ [data] |}).

(** *** File system

    Permissions, name-length limits, links and a full disk are not
    modelled.  A relative path whose directory part is empty lives in the
    working directory, which always exists. *)

Definition set_files (f : gmap string string) (w : world) : world :=
  {| files := f; dirs := dirs w; sock_in := sock_in w;
     sock_pos := sock_pos w; sock_out := sock_out w |}.

Definition set_dirs (d : gset string) (w : world) : world :=
  {| files := files w; dirs := d; sock_in := sock_in w;
     sock_pos := sock_pos w; sock_out := sock_out w |}.

Definition is_file (w : world) (p : string) : bool :=
  bool_decide (is_Some (files w !! p)).

Definition is_dir (w : world) (p : string) : bool :=
  bool_decide (p ∈ dirs w).

(** The directory a path is looked up in exists: the working directory,
    the root, or a known directory. *)
Definition parent_ok (w : world) (d : string) : bool :=
  match rstrip_slash d with
  | EmptyString => true
  | _ => is_dir w d
  end.

Fixpoint contains (c : ascii) (s : string) : bool :=
  match s with
  | EmptyString => false
  | String a s' => Ascii.eqb a c || contains c s'
  end.

(** Names that always denote a directory. *)
Definition names_directory (name : string) : bool :=
  String.eqb name "" || String.eqb name "." || String.eqb name "..".

Definition ENOENT (p : string) := OSError 2 "No such file or directory" p.
Definition EEXIST (p : string) := OSError 17 "File exists" p.
Definition ENOTDIR (p : string) := OSError 20 "Not a directory" p.
Definition EISDIR (p : string) := OSError 21 "Is a directory" p.

(** [os.path.exists] *)
Definition os_path_exists (p : string) : M bool :=
  fun w => (inr (negb (String.eqb p "") && (is_dir w p || is_file w p)), w).

(** The path and the directories above it, nearest first. *)
Fixpoint ancestors (fuel : nat) (p : string) : list string :=
  match fuel with
  | O => []
  | S k =>
      match rstrip_slash p with
      | EmptyString => []
      | _ => p :: ancestors k (dirname p)
      end
  end.

(** [os.makedirs]: creates the directory and the missing ones above it. *)
Definition os_makedirs (p : string) : M unit :=
  fun w =>
    if String.eqb p "" then (inl (ENOENT p), w)
    else if is_dir w p || is_file w p then (inl (EEXIST p), w)
    else if existsb (is_file w) (ancestors (String.length p) p)
    then (inl (ENOTDIR p), w)
    else (inr tt,
          set_dirs (dirs w ∪ list_to_set (ancestors (String.length p) p)) w).

(** What [open] checks before it hands out a file object. *)
Definition open_check (p : string) (w : world) : option exception :=
  if contains "000"%char p then Some (ValueError "embedded null byte")
  else if String.eqb p "" then Some (ENOENT p)
  else if is_file w (dirname p) then Some (ENOTDIR p)
  else if negb (parent_ok w (dirname p)) then Some (ENOENT p)
  else if names_directory (basename p) || is_dir w p then Some (EISDIR p)
  else None.

(** [open(p, "wb")]: the file is created or truncated. *)
Definition open_wb (p : string) : M unit :=
  fun w =>
    match open_check p w with
    | Some e => (inl e, w)
    | None => (inr tt, set_files (<[p := ""]> (files w)) w)
    end.

(** [f.write(data)] on the file opened at [p]. *)
Definition write (p : string) (data : string) : M unit :=
  fun w =>
    (inr tt, set_files (<[p := default "" (files w !! p) ++ data]> (files w)) w).

(** [open(p, "rb")] followed by reads to the end: the content. *)
Definition open_rb (p : string) : M string :=
  fun w =>
    match open_check p w with
    | Some e => (inl e, w)
    | None =>
        match files w !! p with
        | Some content => (inr content, w)
        | None => (inl (ENOENT p), w)
        end
    end.

(** [os.path.isfile] *)
Definition os_path_isfile (p : string) : M bool :=
  fun w => (inr (is_file w p), w).

(** [os.path.getsize]; a directory reports the size of its own entry. *)
Definition os_path_getsize (p : string) : M Z :=
  fun w =>
    match files w !! p with
    | Some content => (inr (len content), w)
    | None => if is_dir w p then (inr 4096, w) else (inl (ENOENT p), w)
    end.

(** The bytes that [count] successive reads deliver, starting with the
    read number [from]. *)
Fixpoint delivered (reads : nat -> string) (from count : nat) : string :=
  match count with
  | O => ""
  | S k => reads from ++ delivered reads (S from) k
  end.

(** A connection on which the peer sends [reads], one element per [recv],
    and then closes; the file system is empty. *)
Definition incoming (reads : list string) : world :=
  {| files := ∅; dirs := ∅; sock_in := fun k => nth k reads "";
     sock_pos := O; sock_out := [] |}.

End World.

(** ** utilities.py *)

Module utilities.
Import Py World.

Definition BUFFER_SIZE : Z := 1024.
Definition GET_REQUEST : string := "<GET_REQUEST>".
Definition PUT_REQUEST : string := "<PUT_REQUEST>".
Definition NOTIFY_SUCCESS : string := "<NOTIFY_SUCCESS>".
Definition NOTIFY_FAILURE : string := "<NOTIFY_FAILURE>".
Definition SEPARATOR : string := "<>".

(** What a failed tuple assignment [a, b, ... = l] raises. *)
Definition unpack_error (expected : nat) (l : list string) : exception :=
  if (length l <? expected)%nat
  then ValueError ("not enough values to unpack (expected "
                   ++ str_of_int (Z.of_nat expected) ++ ", got "
                   ++ str_of_int (Z.of_nat (length l)) ++ ")")
  else ValueError ("too many values to unpack (expected "
                   ++ str_of_int (Z.of_nat expected) ++ ")").

(** [l[i]] *)
Definition index (l : list string) (i : nat) : exception + string :=
  match nth_error l i with
  | Some x => inr x
  | None => inl (IndexError "list index out of range")
  end.

(** <<
    def get_sn_table_name_from_ip(ip_addr):
        # 0.0.0.0:5000 -> sn__0_0_0_0__5000
        ip, port = ip_addr.split(':')
        ip = ip.replace('.', '_')
        return f"sn__{ip}__{port}"
    >> *)
Definition get_sn_table_name_from_ip (ip_addr : string) : exception + string :=
  match split ":" ip_addr with
  | [ip; port] =>
      let ip := replace "." "_" ip in
      inr ("sn__" ++ ip ++ "__" ++ port)
  | l => inl (unpack_error 2 l)
  end.

(** <<
    def get_ip_from_sn_table_name(table_name):
        # sn__0_0_0_0__5000 -> 0.0.0.0:5000
        ip_addr = table_name.split('__')[1:]
        return f"{ip_addr[0]}:{ip_addr[1]}"
    >> *)
Definition get_ip_from_sn_table_name (table_name : string) : exception + string :=
  let ip_addr := tl (split "__" table_name) in
  match index ip_addr 0, index ip_addr 1 with
  | inr a, inr b => inr (a ++ ":" ++ b)
  | inl e, _ | _, inl e => inl e
  end.

(** The hash object of [calc_file_md5] is fed the file in blocks of 4096
    bytes until a read returns nothing; it is modelled by the bytes it has
    been given so far.  [fuel] bounds the number of reads. *)
Fixpoint md5_update_blocks (fuel : nat) (fed rest : string) : string :=
  match fuel with
  | O => fed
  | S k =>
      match take 4096 rest with
      | EmptyString => fed
      | byte_block => md5_update_blocks k (fed ++ byte_block) (drop 4096 rest)
      end
  end.

Definition calc_file_md5 (filepath : string) : M string :=
  content <- open_rb filepath ;;
  ret (MD5.hexdigest (md5_update_blocks (S (String.length content)) "" content)).

(** <<
    def is_file_integrity_matched(filepath, recvd_hash):
        new_hash = calc_file_md5(filepath)
        if new_hash != recvd_hash:
            raise Exception("File integrity check failed!")
        return True
    >> *)
Definition is_file_integrity_matched (filepath recvd_hash : string) : M bool :=
  new_hash <- calc_file_md5 filepath ;;
  if negb (String.eqb new_hash recvd_hash)
  then raise (Exception "File integrity check failed!")
  else ret true.

Definition check_filepath_sanity (filepath : string) : M unit :=
  isfile <- os_path_isfile filepath ;;
  if negb isfile then raise (Exception "File not valid.") else ret tt.

(** The loop shared, line for line, by [receive_file_from_sock] and by
    [do_put_handler] of the storage node:
    <<
        for _ in progress:               # tqdm over range(file_size)
            bytes_read = sock.recv(BUFFER_SIZE)
            if not bytes_read:
                break
            total_bytes_read += len(bytes_read)
            f.write(bytes_read)
            progress.update(len(bytes_read))
            if total_bytes_read == file_size:
                break
    >>
    [iterations] is what is left of [range(file_size)].  The result is the
    final [total_bytes_read]. *)
Fixpoint receive_loop (iterations : nat) (file_size : Z) (f : string)
    (total_bytes_read : Z) : M Z :=
  match iterations with
  | O => ret total_bytes_read
  | S k =>
      bytes_read <- recv BUFFER_SIZE ;;
      match bytes_read with
      | EmptyString => ret total_bytes_read
      | _ =>
          let total_bytes_read := total_bytes_read + len bytes_read in
          write f bytes_read ;;
          if total_bytes_read =? file_size
          then ret total_bytes_read
          else receive_loop k file_size f total_bytes_read
      end
  end.

(** [receive_file_from_sock]; its [except Exception as e: raise e] hands
    every exception on unchanged. *)
Definition receive_file_from_sock (dest_filepath : string) (file_size : Z)
    (file_hash : string) : M unit :=
  try_except
    (progress <- lift (tqdm_range file_size) ;;
     let storage_dir := dirname dest_filepath in
     present <- os_path_exists storage_dir ;;
     (if present then ret tt else os_makedirs storage_dir) ;;
     open_wb dest_filepath ;;
     _ <- receive_loop progress file_size dest_filepath 0 ;;
     ret tt)
    (fun e => raise e).

(** What [receive_file] and [send_file] return: a pair (kind, message), or
    the text read from the socket. *)
Inductive response : Type :=
| Pair (kind msg : string)
| Text (s : string).

(** [receive_file]; [sockname] is the rendering of [sock.getsockname()]. *)
Definition receive_file (sockname : string) (dest_filepath : string)
  : M response :=
  let filename := basename dest_filepath in
  request <- lift (encode (GET_REQUEST ++ SEPARATOR ++ filename)) ;;
  sendall request ;;
  raw <- recv BUFFER_SIZE ;;
  file_info_recvd <- lift (decode raw) ;;
  let file_info_recvd := split SEPARATOR file_info_recvd in
  response_type <- lift (index file_info_recvd 0) ;;
  if String.eqb response_type NOTIFY_FAILURE then
    msg <- lift (index file_info_recvd 1) ;;
    ret (Pair NOTIFY_FAILURE msg)
  else if String.eqb response_type PUT_REQUEST then
    _ <- lift (index file_info_recvd 1) ;;
    size_field <- lift (index file_info_recvd 2) ;;
    file_size <- lift (int size_field) ;;
    file_hash <- lift (index file_info_recvd 3) ;;
    failed <- try_except
                (receive_file_from_sock dest_filepath file_size file_hash ;;
                 ret None)
                (fun e => ret (Some (Pair NOTIFY_FAILURE (str_of_exception e)))) ;;
    match failed with
    | Some response_message => ret response_message
    | None =>
        is_file_valid <- is_file_integrity_matched dest_filepath file_hash ;;
        if is_file_valid
        then ret (Pair NOTIFY_SUCCESS
                    (dest_filepath ++ " saved successfully on " ++ sockname
                     ++ ". Integrity check passed."))
        else ret (Pair NOTIFY_FAILURE "Operation failed!")
    end
  else ret (Pair NOTIFY_FAILURE "Operation not supported").

(** The loop of [send_file]:
    <<
        for _ in progress:               # tqdm over range(file_size)
            bytes_read = f.read(BUFFER_SIZE)
            total_bytes_read += len(bytes_read)
            if not bytes_read:
                break
            sock.sendall(bytes_read)
            progress.update(len(bytes_read))
            if total_bytes_read == file_size:
                received_response = (NOTIFY_SUCCESS, f"File {src_filepath} sent.")
                break
    >>
    [unread] is what the file object has not returned yet. *)
Fixpoint send_loop (iterations : nat) (file_size : Z) (src_filepath : string)
    (unread : string) (total_bytes_read : Z) (received_response : response)
  : M response :=
  match iterations with
  | O => ret received_response
  | S k =>
      let bytes_read := take (Z.to_nat BUFFER_SIZE) unread in
      let total_bytes_read := total_bytes_read + len bytes_read in
      match bytes_read with
      | EmptyString => ret received_response
      | _ =>
          sendall bytes_read ;;
          if total_bytes_read =? file_size
          then ret (Pair NOTIFY_SUCCESS ("File " ++ src_filepath ++ " sent."))
          else send_loop k file_size src_filepath
                 (drop (Z.to_nat BUFFER_SIZE) unread) total_bytes_read
                 received_response
      end
  end.

(** [send_file(sock, src_filepath, logger, want_server_response=False)] *)
Definition send_file (src_filepath : string) (want_server_response : bool)
  : M response :=
  let received_response := Pair NOTIFY_FAILURE "Operation failed!" in
  let filename := basename src_filepath in
  file_size <- os_path_getsize src_filepath ;;
  file_hash <- calc_file_md5 src_filepath ;;
  header <- lift (encode (PUT_REQUEST ++ SEPARATOR ++ filename ++ SEPARATOR
                           ++ str_of_int file_size ++ SEPARATOR ++ file_hash)) ;;
  sendall header ;;
  progress <- lift (tqdm_range file_size) ;;
  content <- open_rb src_filepath ;;
  received_response <-
    send_loop progress file_size src_filepath content 0 received_response ;;
  if want_server_response then
    raw <- recv BUFFER_SIZE ;;
    text <- lift (decode raw) ;;
    ret (Text text)
  else ret received_response.

End utilities.

(** ** storage_node.py *)

Module storage_node.
Import Py World.

Definition BUFFER_SIZE : Z := 1024.
Definition SEPARATOR : string := "<>".
Definition GET_REQUEST : string := "<GET_REQUEST>".
Definition PUT_REQUEST : string := "<PUT_REQUEST>".
Definition STATUS_REQUEST : string := "<STATUS_REQUEST>".
Definition SERVER_AVAILABLE_CODE : string := "200".
Definition TRANSFER_SUCCESSFUL_CODE : string := "TRANSFER_SUCCESSFUL".

(** [self.server.server_address] *)
Record handler := { HOST : string; PORT : Z }.

(** [setup]: [self.STORAGE_DIR = f'storage_{self.HOST}_{self.PORT}'] *)
Definition STORAGE_DIR (self : handler) : string :=
  "storage_" ++ HOST self ++ "_" ++ str_of_int (PORT self).

(** What a handler method returns: a string, or [None]. *)
Inductive value : Type :=
| None_
| Str (s : string).

(** [bytes(v, "utf-8")] *)
Definition bytes_utf8 (v : value) : exception + string :=
  match v with
  | Str s => inr s
  | None_ => inl (TypeError "encoding without a string argument")
  end.

(** [storage_filepath = f"{self.STORAGE_DIR}/{filename}"] *)
Definition storage_filepath (self : handler) (filename : string) : string :=
  STORAGE_DIR self ++ "/" ++ filename.

(** The start of the [try] block of [do_put_handler]: the storage
    directory is created when missing and the file is opened for writing.
    <<
            if not os.path.exists(self.STORAGE_DIR):
                os.makedirs(self.STORAGE_DIR)
            storage_filepath = f"{self.STORAGE_DIR}/{filename}"
            ...
            with open(storage_filepath, "wb") as f:
    >> *)
Definition do_put_open (self : handler) (filename : string) : M unit :=
  present <- os_path_exists (STORAGE_DIR self) ;;
  (if present then ret tt else os_makedirs (STORAGE_DIR self)) ;;
  open_wb (storage_filepath self filename).

(** What the [try] block of [do_put_handler] does before its loop: the
    progress bar over [range(file_size)] is built, then the file is opened.
    The result is the number of iterations the loop may make. *)
Definition do_put_setup (self : handler) (filename : string) (file_size : Z)
  : M nat :=
  progress <- lift (tqdm_range file_size) ;;
  do_put_open self filename ;;
  ret progress.

(** The body of the [try] block of [do_put_handler]; it yields the
    [response_message] assigned in it, if any. *)
Definition do_put_try (self : handler) (filename : string) (file_size : Z)
    (file_hash : string) : M (option string) :=
  progress <- do_put_setup self filename file_size ;;
  let storage_filepath := storage_filepath self filename in
  _ <- utilities.receive_loop progress file_size storage_filepath 0 ;;
  is_file_valid <-
    utilities.is_file_integrity_matched storage_filepath file_hash ;;
  if is_file_valid then ret (Some TRANSFER_SUCCESSFUL_CODE) else ret None.

(** <<
    def do_put_handler(self, recvd_info_list):
        filename, file_size, file_hash = recvd_info_list
        filename = os.path.basename(filename)
        file_size = int(file_size)
        try:
            ...
        except Exception as e:
            logger.error(str(e))
            response_message = str(e)
        return response_message
    >> *)
Definition do_put_handler (self : handler) (recvd_info_list : list string)
  : M value :=
  match recvd_info_list with
  | [filename; file_size; file_hash] =>
      let filename := basename filename in
      file_size <- lift (int file_size) ;;
      response_message <-
        try_except (do_put_try self filename file_size file_hash)
                   (fun e => ret (Some (str_of_exception e))) ;;
      match response_message with
      | Some m => ret (Str m)
      | None =>
          raise (UnboundLocalError
                   "cannot access local variable 'response_message' where it is not associated with a value")
      end
  | l => raise (utilities.unpack_error 3 l)
  end.

(** <<
    def do_get_handler(self, recvd_info_list):
        pass
    >> *)
Definition do_get_handler (self : handler) (recvd_info_list : list string)
  : M value :=
  ret None_.

(** <<
    def handle(self):
        response_message = "Operation failed."
        received = self.request.recv(BUFFER_SIZE).decode()
        info_list = received.split(SEPARATOR)
        request_type = info_list[0]
        if request_type == GET_REQUEST:
            response_message = self.do_get_handler(info_list[1:])
        elif request_type == PUT_REQUEST:
            response_message = self.do_put_handler(info_list[1:])
        elif request_type == STATUS_REQUEST:
            response_message = SERVER_AVAILABLE_CODE
        else:
            response_message = "Request type not supported yet!"
        self.request.sendall(bytes(response_message, "utf-8"))
    >> *)
Definition handle (self : handler) : M unit :=
  raw <- recv BUFFER_SIZE ;;
  received <- lift (decode raw) ;;
  let info_list := split SEPARATOR received in
  request_type <- lift (utilities.index info_list 0) ;;
  response_message <-
    (if String.eqb request_type GET_REQUEST
     then do_get_handler self (tl info_list)
     else if String.eqb request_type PUT_REQUEST
     then do_put_handler self (tl info_list)
     else if String.eqb request_type STATUS_REQUEST
     then ret (Str SERVER_AVAILABLE_CODE)
     else ret (Str "Request type not supported yet!")) ;;
  data <- lift (bytes_utf8 response_message) ;;
  sendall data.

End storage_node.

(** ** Vocabulary of the properties *)

Module Spec.
Import Py World.

(** The node used in the examples. *)
Definition node : storage_node.handler :=
  {| storage_node.HOST := "0.0.0.0"; storage_node.PORT := 5000 |}.

(** Where a PUT request for [filename] is stored. *)
Definition destination (self : storage_node.handler) (filename : string) : string :=
  storage_node.storage_filepath self (basename filename).

(** The world once [k] reads have been appended to the file opened at [p]
    in [w0]; [data] is what the file then holds. *)
Definition transferred (w0 : world) (p data : string) (k : nat) : world :=
  {| files := <[p := data]> (files w0); dirs := dirs w0; sock_in := sock_in w0;
     sock_pos := sock_pos w0 + k; sock_out := sock_out w0 |}.

(** The response to a PUT request whose file holds [data] when the loop
    ends: the digest alone decides. *)
Definition put_outcome (data file_hash : string) : string :=
  if String.eqb (MD5.hexdigest data) file_hash
  then storage_node.TRANSFER_SUCCESSFUL_CODE
  else "File integrity check failed!".

(** The peer delivers [k] non-empty reads, fewer than [size] bytes in all,
    and then closes. *)
Definition truncated_reads (w : world) (k : nat) (size : Z) : Prop :=
  (forall i, (i < k)%nat -> sock_in w (sock_pos w + i) <> "") /\
  sock_in w (sock_pos w + k) = "" /\
  len (delivered (sock_in w) (sock_pos w) k) < size.

(** Success only with the declared byte count and the expected digest. *)
Definition success_needs_size_and_digest (self : storage_node.handler)
    (filename size_field file_hash : string) (w : world) : Prop :=
  forall n w',
    int size_field = inr n ->
    storage_node.do_put_handler self [filename; size_field; file_hash] w
    = (inr (storage_node.Str storage_node.TRANSFER_SUCCESSFUL_CODE), w') ->
    exists data,
      files w' !! destination self filename = Some data /\
      len data = n /\ MD5.hexdigest data = file_hash.

(** A transfer cut short is never answered with success. *)
Definition truncation_is_not_success (self : storage_node.handler)
    (filename size_field file_hash : string) (w : world) : Prop :=
  forall n k,
    0 < n -> int size_field = inr n -> truncated_reads w k n ->
    fst (storage_node.do_put_handler self [filename; size_field; file_hash] w)
    <> inr (storage_node.Str storage_node.TRANSFER_SUCCESSFUL_CODE).

End Spec.

(** ** utilities.py: the functions that read machines.cfg *)

Module utilities_config.
Import Py.

(** What [config[section][option]] holds once [config.read(CONFIG_FILE)]
    has run: per section, the options visible in it and their values (as
    strings, after interpolation).  A file that is missing gives the empty
    configuration. *)
Definition config : Type := gmap string (gmap string string).

(** What this code and the cleanup script can raise: the exceptions of the
    built-ins, and KeyError for a section or option that is not there. *)
Inductive raised : Type :=
| Exc (e : exception)
| KeyError (key : string).

Definition getitem (cfg : config) (section option : string) : raised + string :=
  match cfg !! section with
  | None => inl (KeyError section)
  | Some options =>
      match options !! option with
      | None => inl (KeyError option)
      | Some value => inr value
      end
  end.

(** [l[i]] for an integer [i]: a negative index counts from the end. *)
Definition list_getitem (l : list string) (i : Z) : exception + string :=
  let n := Z.of_nat (length l) in
  let j := if i <? 0 then n + i else i in
  if (0 <=? j) && (j <? n)
  then match nth_error l (Z.to_nat j) with
       | Some x => inr x
       | None => inl (IndexError "list index out of range")
       end
  else inl (IndexError "list index out of range").

(** <<
    def get_all_storage_nodes():
        ...
        storage_nodes = config['storage_nodes']['machine_list_docker'].split(',\n')
        return storage_nodes
    >> *)
Definition get_all_storage_nodes (cfg : config) : raised + list string :=
  match getitem cfg "storage_nodes" "machine_list_docker" with
  | inl e => inl e
  | inr value => inr (split (String "," (String "010" "")) value)
  end.

(** <<
    def get_sn_node_port(sn_num):
        ...
        storage_nodes = config['storage_nodes']['machine_list_docker'].split(',\n')
        node, port = storage_nodes[sn_num].split(':')
        return (node, int(port))
    >> *)
Definition get_sn_node_port (cfg : config) (sn_num : Z) : raised + string * Z :=
  match get_all_storage_nodes cfg with
  | inl e => inl e
  | inr storage_nodes =>
      match list_getitem storage_nodes sn_num with
      | inl e => inl (Exc e)
      | inr entry =>
          match split ":" entry with
          | [node; port] =>
              match int port with
              | inl e => inl (Exc e)
              | inr p => inr (node, p)
              end
          | l => inl (Exc (utilities.unpack_error 2 l))
          end
      end
  end.

End utilities_config.

(** ** cleanup.py: the parts that work on directories *)

Module cleanup.
Import Py World utilities_config.

Definition SN_HOST : string := "0.0.0.0".

(** ['storage_{HOST}_{PORT}'.format(HOST=..., PORT=...)] *)
Definition STORAGE_DIR (HOST PORT : string) : string :=
  "storage_" ++ HOST ++ "_" ++ PORT.

(** [s.endswith('/')] *)
Fixpoint ends_with_slash (s : string) : bool :=
  match s with
  | EmptyString => false
  | String c EmptyString => Ascii.eqb c "/"
  | String _ s' => ends_with_slash s'
  end.

(** [os.path.join(a, b)] (posixpath) *)
Definition os_path_join (a b : string) : string :=
  if startswith "/" b then b
  else if String.eqb a "" || ends_with_slash a then a ++ b
  else a ++ "/" ++ b.

(** [q] lies beneath the directory [d]: its path continues [d] after a
    slash. *)
Definition beneath (d q : string) : bool := startswith (d ++ "/") q.

(** [shutil.rmtree(p, ignore_errors=True)]: a directory goes with all that
    lies beneath it; on anything else the error is ignored and nothing
    happens.  Paths are compared as they are written, which is how the
    normalised absolute paths built from [PROJECT_ROOT] and a plain
    directory name relate. *)
Definition rmtree_ignore_errors (p : string) (w : world) : world :=
  if is_dir w p
  then set_files (filter (fun kv => beneath p kv.1 = false) (files w))
         (set_dirs (filter (fun q => q <> p /\ beneath p q = false) (dirs w)) w)
  else w.

(** The functions below return what they print, line by line, with the
    world they leave.
    <<
    def silent_dir_delete(dir_path):
        print(f"Deleting dir: {dir_path}")
        shutil.rmtree(dir_path, ignore_errors=True)
    >> *)
Definition silent_dir_delete (dir_path : string) (w : world)
  : list string * world :=
  (["Deleting dir: " ++ dir_path], rmtree_ignore_errors dir_path w).

Section Root.

(** [PROJECT_ROOT = os.path.dirname(os.path.abspath(__file__))] *)
Variable PROJECT_ROOT : string.

(** The loop of [clean_all_sn_files] over the nodes that are left; an
    exception ends it where it is.
    <<
        for sn in utilities.get_all_storage_nodes():
            sn_port = sn.split(':')[1]
            sn_local_filepath = STORAGE_DIR.format(HOST=SN_HOST, PORT=sn_port)
            abs_sn_fs_dir_path = os.path.join(PROJECT_ROOT, sn_local_filepath)
            silent_dir_delete(abs_sn_fs_dir_path)
    >> *)
Fixpoint clean_sn_loop (nodes : list string) (w : world)
  : option raised * list string * world :=
  match nodes with
  | [] => (None, [], w)
  | sn :: rest =>
      match utilities.index (split ":" sn) 1 with
      | inl e => (Some (Exc e), [], w)
      | inr sn_port =>
          let sn_local_filepath := STORAGE_DIR SN_HOST sn_port in
          let abs_sn_fs_dir_path := os_path_join PROJECT_ROOT sn_local_filepath in
          let '(out, w1) := silent_dir_delete abs_sn_fs_dir_path w in
          let '(r, out', w2) := clean_sn_loop rest w1 in
          (r, (out ++ out')%list, w2)
      end
  end.

(** <<
    def clean_all_sn_files():
        for sn in utilities.get_all_storage_nodes():
            ...
    >> *)
Definition clean_all_sn_files (cfg : config) (w : world)
  : option raised * list string * world :=
  match get_all_storage_nodes cfg with
  | inl e => (Some e, [], w)
  | inr nodes => clean_sn_loop nodes w
  end.

End Root.

End cleanup.

(** ** Vocabulary of the further properties *)

Module More.
Import Py World.

(** What successive reads of [n] bytes return from a file object whose
    unread part is [s], up to the end of the file; [fuel] bounds their
    number. *)
Fixpoint pieces (n fuel : nat) (s : string) : list string :=
  match fuel with
  | O => []
  | S k =>
      match take n s with
      | EmptyString => []
      | b => b :: pieces n k (drop n s)
      end
  end.

(** The blocks [send_file] reads from a file with content [s]. *)
Definition blocks (s : string) : list string :=
  pieces (Z.to_nat utilities.BUFFER_SIZE) (String.length s) s.

(** The bytes of a sequence of messages, one after the other. *)
Definition concat (l : list string) : string := fold_right String.append "" l.

(** The header [send_file] puts in front of a file. *)
Definition put_header (filename : string) (file_size : Z) (file_hash : string)
  : string :=
  utilities.PUT_REQUEST ++ utilities.SEPARATOR ++ filename
  ++ utilities.SEPARATOR ++ str_of_int file_size
  ++ utilities.SEPARATOR ++ file_hash.

(** [sep in s] *)
Fixpoint occurs (sep s : string) : bool :=
  match s with
  | EmptyString => startswith sep ""
  | String _ s' => startswith sep s || occurs sep s'
  end.

(** [s.count(c)] for a character [c]. *)
Fixpoint count (c : ascii) (s : string) : nat :=
  match s with
  | EmptyString => O
  | String a s' => ((if Ascii.eqb a c then 1 else 0) + count c s')%nat
  end.

(** Every character of [s] satisfies [P]. *)
Fixpoint all_chars (P : ascii -> bool) (s : string) : bool :=
  match s with
  | EmptyString => true
  | String c s' => P c && all_chars P s'
  end.

(** A decimal digit. *)
Definition is_digit (c : ascii) : bool :=
  match digit_of c with
  | Some _ => true
  | None => false
  end.

(** A 7-bit character other than '<': what the digits of a size and the
    characters of a hexadecimal digest are. *)
Definition is_plain (c : ascii) : bool :=
  (Z.of_N (N_of_ascii c) <=? 127) && negb (Ascii.eqb c "<").

(** [reads from], [reads (from + 1)], ... are the messages [l]. *)
Definition reads_are (reads : nat -> string) (from : nat) (l : list string)
  : Prop :=
  forall i m, l !! i = Some m -> reads (from + i)%nat = m.

(** What one [rmtree] leaves of a world [w]: the directory is gone, nothing
    appears, and what is neither the directory nor beneath it stays. *)
Definition leaves (p : string) (w w' : world) : Prop :=
  (p ∉ dirs w') /\
  (dirs w' ⊆ dirs w) /\
  (forall q c, files w' !! q = Some c -> files w !! q = Some c) /\
  (forall q c, files w !! q = Some c -> cleanup.beneath p q = false ->
               files w' !! q = Some c) /\
  (forall q, q ∈ dirs w -> q <> p -> cleanup.beneath p q = false ->
             q ∈ dirs w') /\
  sock_pos w' = sock_pos w /\ sock_out w' = sock_out w.

(** A node entry of machines.cfg written as host, colon and decimal port. *)
Definition entry (hp : string * Z) : string :=
  hp.1 ++ ":" ++ str_of_int hp.2.

(** The storage directory of a handler that serves on 0.0.0.0 and [port],
    under the project root. *)
Definition handler_dir (root : string) (port : Z) : string :=
  cleanup.os_path_join root
    (storage_node.STORAGE_DIR
       {| storage_node.HOST := cleanup.SN_HOST; storage_node.PORT := port |}).

(** What [receive_file] has done before it looks at the response: the GET
    request is sent and one message is read. *)
Definition asked (dest_filepath : string) (w : world) : world :=
  {| files := files w; dirs := dirs w; sock_in := sock_in w;
     sock_pos := S (sock_pos w);
     sock_out := (sock_out w
                  ++ [(utilities.GET_REQUEST ++ utilities.SEPARATOR
                       ++ basename dest_filepath)%string])%list |}.

End More.

(** * Properties *)

(** ** Sanity checks of the built-ins against known values *)

Example md5_empty : MD5.hexdigest "" = "d41d8cd98f00b204e9800998ecf8427e".
Proof. vm_compute. reflexivity. Qed.

Example md5_abc : MD5.hexdigest "abc" = "900150983cd24fb0d6963f7d28e17f72".
Proof. vm_compute. reflexivity. Qed.

Example md5_hello_world :
  MD5.hexdigest "hello world" = "5eb63bbbe01eeed093cb22bb8f5acdc3".
Proof. vm_compute. reflexivity. Qed.

Example md5_padding_boundaries :
  MD5.hexdigest "aaaaaaaaaaaaaaaaaaaaaaaaaaaaaaaaaaaaaaaaaaaaaaaaaaaaaaaa"
  = "3b0c8ac703f828b04c6c197006d17218" /\
  MD5.hexdigest
    "aaaaaaaaaaaaaaaaaaaaaaaaaaaaaaaaaaaaaaaaaaaaaaaaaaaaaaaaaaaaaaaa"
  = "014842d480b571495a4a0363793f7367".
Proof. split; vm_compute; reflexivity. Qed.

Example split_request :
  Py.split "<>" "<PUT_REQUEST><>a<><>b<>" = ["<PUT_REQUEST>"; "a"; ""; "b"; ""].
Proof. reflexivity. Qed.

Example basename_examples :
  Py.basename "/a/b/../c" = "c" /\ Py.basename "a/" = "" /\
  Py.basename "x" = "x" /\ Py.basename "a/.." = "..".
Proof. repeat split; reflexivity. Qed.

Example dirname_examples :
  Py.dirname "/a/b//c" = "/a/b" /\ Py.dirname "///x" = "///" /\
  Py.dirname "x" = "" /\ Py.dirname "a/b" = "a".
Proof. repeat split; reflexivity. Qed.

Example int_examples :
  Py.int " -1_000 " = inr (-1000) /\ Py.int "007" = inr 7 /\
  Py.int "+5" = inr 5 /\
  (exists e, Py.int "abc" = inl e) /\ (exists e, Py.int "1__0" = inl e) /\
  (exists e, Py.int "5_" = inl e) /\ (exists e, Py.int "- 5" = inl e) /\
  (exists e, Py.int "" = inl e).
Proof. repeat split; try reflexivity; eexists; reflexivity. Qed.

Example len_range_examples :
  Py.len_range (-5) = inr O /\ Py.len_range 11 = inr 11%nat /\
  (exists e, Py.len_range (2 ^ 63) = inl e).
Proof. repeat split; try reflexivity; eexists; reflexivity. Qed.

(** ** Strings *)

Section Strings.
Import Py World.

Lemma app_cons (c : ascii) (s t : string) :
  String c s ++ t = String c (s ++ t).
Proof. reflexivity. Qed.

Lemma app_empty_r (s : string) : s ++ "" = s.
Proof. induction s as [|c s IH]; [reflexivity|]. rewrite app_cons, IH. reflexivity. Qed.

Lemma app_assoc (s t u : string) : (s ++ t) ++ u = s ++ (t ++ u).
Proof.
  induction s as [|c s IH]; [reflexivity|].
  rewrite !app_cons, IH. reflexivity.
Qed.

Lemma length_app (s t : string) :
  String.length (s ++ t) = (String.length s + String.length t)%nat.
Proof.
  induction s as [|c s IH]; [reflexivity|].
  rewrite app_cons. cbn [String.length]. rewrite IH. reflexivity.
Qed.

Lemma len_app (s t : string) : len (s ++ t) = len s + len t.
Proof. unfold len. rewrite length_app. lia. Qed.

Lemma len_nonneg (s : string) : 0 <= len s.
Proof. unfold len. lia. Qed.

Lemma len_pos (s : string) : s <> "" -> 0 < len s.
Proof. destruct s; [congruence|]. intros _. unfold len. cbn [String.length]. lia. Qed.

Lemma take_drop (n : nat) (s : string) : take n s ++ drop n s = s.
Proof.
  revert s. induction n as [|n IH]; intros [|c s]; try reflexivity.
  cbn [take drop]. rewrite app_cons, IH. reflexivity.
Qed.

Lemma take_empty (n : nat) (s : string) : take (S n) s = "" -> s = "".
Proof. destruct s; [reflexivity|]. cbn [take]. discriminate. Qed.

Lemma length_take (n : nat) (s : string) : (String.length (take n s) <= n)%nat.
Proof.
  revert s. induction n as [|n IH]; intros [|c s]; cbn [take String.length]; try lia.
  specialize (IH s). lia.
Qed.

Lemma length_drop (n : nat) (c : ascii) (s : string) :
  (String.length (drop (S n) (String c s)) < String.length (String c s))%nat.
Proof.
  cbn [drop String.length]. revert s.
  induction n as [|n IH]; intros [|a s]; cbn [drop String.length]; try lia.
  specialize (IH s). lia.
Qed.

Lemma length_rstrip_slash (s : string) :
  (String.length (rstrip_slash s) <= String.length s)%nat.
Proof.
  induction s as [|c s IH]; [reflexivity|].
  cbn [rstrip_slash]. destruct (rstrip_slash s).
  - destruct (Ascii.eqb c "/"); cbn [String.length] in *; lia.
  - cbn [String.length] in *. lia.
Qed.

(** *** basename *)

Lemma basename_from_no_slash (p t : string) :
  contains "/" p = false -> basename_from t p = t.
Proof.
  induction p as [|c p IH]; [reflexivity|].
  cbn [contains basename_from]. intros H.
  apply orb_false_iff in H as [-> H]. auto.
Qed.

Lemma basename_from_slash (p t : string) :
  contains "/" p = true -> contains "/" (basename_from t p) = false.
Proof.
  revert t. induction p as [|c p IH]; intros t; [discriminate|].
  cbn [contains basename_from]. destruct (Ascii.eqb c "/") eqn:E.
  - intros _. destruct (contains "/" p) eqn:Hp; [auto|].
    rewrite basename_from_no_slash; assumption.
  - cbn [orb]. auto.
Qed.

Lemma basename_no_slash (p : string) : contains "/" (basename p) = false.
Proof.
  unfold basename. destruct (contains "/" p) eqn:Hp.
  - apply basename_from_slash; assumption.
  - rewrite basename_from_no_slash; assumption.
Qed.

Lemma basename_from_app_slash (a name t : string) :
  basename_from t (a ++ String "/" name) = basename name.
Proof.
  revert t. induction a as [|c a IH]; intros t.
  - reflexivity.
  - rewrite app_cons. cbn [basename_from]. destruct (Ascii.eqb c "/"); apply IH.
Qed.

Lemma basename_join (dir name : string) :
  contains "/" name = false -> basename (dir ++ "/" ++ name) = name.
Proof.
  intros H. unfold basename at 1.
  change ("/" ++ name) with (String "/" name).
  rewrite basename_from_app_slash. unfold basename.
  apply basename_from_no_slash; assumption.
Qed.

Lemma length_basename_from (p t : string) :
  (String.length (basename_from t p)
   <= Nat.max (String.length t) (String.length p))%nat.
Proof.
  revert t. induction p as [|c p IH]; intros t; cbn [basename_from String.length].
  - lia.
  - destruct (Ascii.eqb c "/").
    + specialize (IH p). lia.
    + specialize (IH t). lia.
Qed.

Lemma length_dirname (p : string) :
  basename p <> "" -> (String.length (dirname p) < String.length p)%nat.
Proof.
  intros Hb. unfold dirname.
  pose proof (length_basename_from p p) as Hl. fold (basename p) in Hl.
  pose proof (length_take (String.length p - String.length (basename p)) p) as Ht.
  pose proof (length_rstrip_slash
                (take (String.length p - String.length (basename p)) p)) as Hr.
  assert (0 < String.length (basename p))%nat
    by (destruct (basename p); [congruence | cbn [String.length]; lia]).
  destruct (rstrip_slash _) eqn:E; lia.
Qed.

Lemma dirname_neq (p : string) : basename p <> "" -> dirname p <> p.
Proof. intros Hb Heq. apply length_dirname in Hb. rewrite Heq in Hb. lia. Qed.

End Strings.

(** ** The integrity verifier *)

Section Integrity.
Import Py World.

(** Feeding the hash object block by block gives it the whole file. *)
Lemma md5_update_blocks_all (fuel : nat) :
  forall fed rest : string,
    (String.length rest < fuel)%nat ->
    utilities.md5_update_blocks fuel fed rest = fed ++ rest.
Proof.
  induction fuel as [|fuel IH]; intros fed rest Hlt; [lia|].
  cbn [utilities.md5_update_blocks].
  destruct (take 4096 rest) eqn:E.
  - apply take_empty in E. subst rest. rewrite app_empty_r. reflexivity.
  - rewrite <- E. destruct rest as [|c rest]; [discriminate|].
    rewrite IH.
    + rewrite app_assoc, take_drop. reflexivity.
    + pose proof (length_drop 4095 c rest). lia.
Qed.

Lemma open_rb_content (p content : string) (w : world) :
  open_check p w = None -> files w !! p = Some content ->
  open_rb p w = (inr content, w).
Proof. intros Hc Hf. unfold open_rb. rewrite Hc, Hf. reflexivity. Qed.

Lemma calc_file_md5_content (p content : string) (w : world) :
  open_check p w = None -> files w !! p = Some content ->
  utilities.calc_file_md5 p w = (inr (MD5.hexdigest content), w).
Proof.
  intros Hc Hf. unfold utilities.calc_file_md5, bind.
  rewrite (open_rb_content p content w Hc Hf). unfold ret.
  rewrite md5_update_blocks_all by lia. reflexivity.
Qed.

Lemma integrity_matched (p content h : string) (w : world) :
  open_check p w = None -> files w !! p = Some content ->
  MD5.hexdigest content = h ->
  utilities.is_file_integrity_matched p h w = (inr true, w).
Proof.
  intros Hc Hf Hh. unfold utilities.is_file_integrity_matched, bind.
  rewrite (calc_file_md5_content p content w Hc Hf).
  apply String.eqb_eq in Hh. rewrite Hh. reflexivity.
Qed.

Lemma integrity_mismatch (p content h : string) (w : world) :
  open_check p w = None -> files w !! p = Some content ->
  MD5.hexdigest content <> h ->
  utilities.is_file_integrity_matched p h w
  = (inl (Exception "File integrity check failed!"), w).
Proof.
  intros Hc Hf Hh. unfold utilities.is_file_integrity_matched, bind.
  rewrite (calc_file_md5_content p content w Hc Hf).
  apply String.eqb_neq in Hh. rewrite Hh. reflexivity.
Qed.

(** A file that could be opened can be opened again once it has content. *)
Lemma open_check_written (p x : string) (w w' : world) :
  open_check p w = None ->
  dirs w' = dirs w -> files w' = <[p := x]> (files w) ->
  open_check p w' = None.
Proof.
  unfold open_check. intros H Hd Hf.
  destruct (contains "000"%char p); [discriminate|].
  destruct (String.eqb p ""); [discriminate|].
  destruct (is_file w (dirname p)) eqn:E1; [discriminate|].
  destruct (negb (parent_ok w (dirname p))) eqn:E2; [discriminate|].
  destruct (names_directory (basename p) || is_dir w p) eqn:E3; [discriminate|].
  apply orb_false_iff in E3 as [En Ed].
  assert (basename p <> "") as Hb.
  { intros Hb. rewrite Hb in En. discriminate. }
  assert (is_file w' (dirname p) = false) as ->.
  { unfold is_file in *. rewrite Hf, lookup_insert_ne; [assumption|].
    intros Heq. symmetry in Heq. revert Heq. apply dirname_neq; assumption. }
  assert (parent_ok w' (dirname p) = parent_ok w (dirname p)) as ->.
  { unfold parent_ok, is_dir. rewrite Hd. reflexivity. }
  rewrite E2, En. unfold is_dir in *. rewrite Hd, Ed. reflexivity.
Qed.

End Integrity.

(** ** The receive loop *)

Section Receive.
Import Py World.

(** Two runs agree: same result, same world, up to arithmetic. *)
Lemma run_agrees (x y : Z) (w w' : world) :
  x = y -> w = w' -> (inr x : exception + Z, w) = (inr y, w').
Proof. intros -> ->. reflexivity. Qed.

Local Ltac run_eq := apply run_agrees; [lia | f_equal; lia].

(** The loop never raises; it makes at most as many reads as it has
    iterations, and appends what they deliver to the open file. *)
Lemma receive_loop_spec (n : nat) :
  forall (size : Z) (f : string) (total : Z) (w : world) (c : string),
    files w !! f = Some c ->
    exists k, (k <= n)%nat /\
      utilities.receive_loop n size f total w =
        (inr (total + len (delivered (sock_in w) (sock_pos w) k)),
         {| files := <[f := c ++ delivered (sock_in w) (sock_pos w) k]> (files w);
            dirs := dirs w; sock_in := sock_in w;
            sock_pos := sock_pos w + k; sock_out := sock_out w |}).
Proof.
  induction n as [|n IH]; intros size f total w c Hf.
  - exists O. split; [lia|]. cbn [utilities.receive_loop delivered]. unfold ret.
    rewrite app_empty_r, insert_id by assumption.
    rewrite Nat.add_0_r. unfold len. cbn [String.length].
    destruct w; cbn. run_eq.
  - cbn [utilities.receive_loop]. unfold bind at 1. unfold recv at 1.
    destruct (sock_in w (sock_pos w)) as [|a b] eqn:Hread.
    + exists 1%nat. split; [lia|]. cbn [delivered]. rewrite Hread. unfold ret.
      change ("" ++ "") with "". rewrite app_empty_r, insert_id by assumption.
      unfold len. cbn [String.length]. run_eq.
    + unfold bind at 1. unfold write at 1. cbn [files dirs sock_in sock_pos sock_out].
      rewrite Hf. cbn [default].
      destruct (total + len (String a b) =? size) eqn:Hdone.
      * exists 1%nat. split; [lia|]. cbn [delivered]. rewrite Hread.
        rewrite app_empty_r. unfold ret, set_files.
        cbn [files dirs sock_in sock_pos sock_out]. run_eq.
      * match goal with
        | |- context [utilities.receive_loop n size f ?t ?w1] =>
            destruct (IH size f t w1 (c ++ String a b)) as (k & Hk & ->)
        end.
        { unfold set_files. cbn [files]. apply lookup_insert_eq. }
        exists (S k). split; [lia|]. unfold set_files.
        cbn [files dirs sock_in sock_pos sock_out delivered].
        rewrite Hread, insert_insert_eq, len_app, app_assoc.
        run_eq.
Qed.

(** When the peer closes before the declared size is reached, the loop
    stops at the zero-length read, having written what was delivered. *)
Lemma receive_loop_truncated (k : nat) :
  forall (n : nat) (size : Z) (f : string) (total : Z) (w : world) (c : string),
    files w !! f = Some c ->
    (forall i, (i < k)%nat -> sock_in w (sock_pos w + i) <> "") ->
    sock_in w (sock_pos w + k) = "" ->
    total + len (delivered (sock_in w) (sock_pos w) k) < size ->
    (k < n)%nat ->
    utilities.receive_loop n size f total w =
      (inr (total + len (delivered (sock_in w) (sock_pos w) k)),
       {| files := <[f := c ++ delivered (sock_in w) (sock_pos w) k]> (files w);
          dirs := dirs w; sock_in := sock_in w;
          sock_pos := sock_pos w + S k; sock_out := sock_out w |}).
Proof.
  induction k as [|k IH]; intros n size f total w c Hf Hne Hend Hlt Hn;
    (destruct n as [|n]; [lia|]);
    cbn [utilities.receive_loop]; unfold bind at 1; unfold recv at 1.
  - rewrite Nat.add_0_r in Hend. rewrite Hend. unfold ret. cbn [delivered].
    rewrite app_empty_r, insert_id by assumption.
    unfold len. cbn [String.length]. destruct w; cbn. run_eq.
  - pose proof (Hne O ltac:(lia)) as H0. rewrite Nat.add_0_r in H0.
    cbn [delivered] in Hlt. rewrite len_app in Hlt.
    pose proof (len_nonneg (delivered (sock_in w) (S (sock_pos w)) k)).
    destruct (sock_in w (sock_pos w)) as [|a b] eqn:Hread; [congruence|].
    unfold bind at 1. unfold write at 1. cbn [files dirs sock_in sock_pos sock_out].
    rewrite Hf. cbn [default].
    destruct (total + len (String a b) =? size) eqn:Hdone; [lia|].
    rewrite (IH n size f _ _ (c ++ String a b)).
    + unfold set_files. cbn [files dirs sock_in sock_pos sock_out delivered].
      rewrite Hread, insert_insert_eq, len_app, app_assoc.
      run_eq.
    + unfold set_files. cbn [files]. apply lookup_insert_eq.
    + intros i Hi. cbn [sock_in sock_pos set_files].
      replace (S (sock_pos w) + i)%nat with (sock_pos w + S i)%nat by lia.
      apply Hne. lia.
    + cbn [sock_in sock_pos set_files].
      replace (S (sock_pos w) + k)%nat with (sock_pos w + S k)%nat by lia.
      assumption.
    + cbn [sock_in sock_pos set_files]. lia.
    + lia.
Qed.

(** Non-empty reads deliver at least one byte each. *)
Lemma delivered_length (reads : nat -> string) (k : nat) :
  forall from,
    (forall i, (i < k)%nat -> reads (from + i)%nat <> "") ->
    Z.of_nat k <= len (delivered reads from k).
Proof.
  induction k as [|k IH]; intros from Hne; cbn [delivered].
  - unfold len. cbn. lia.
  - rewrite len_app.
    pose proof (Hne O ltac:(lia)) as H0. rewrite Nat.add_0_r in H0.
    apply len_pos in H0.
    assert (Z.of_nat k <= len (delivered reads (S from) k)).
    { apply IH. intros i Hi.
      replace (S from + i)%nat with (from + S i)%nat by lia. apply Hne. lia. }
    lia.
Qed.

End Receive.

(** ** The PUT handler *)

Section Put.
Import Py World Spec.

Lemma open_wb_inv (p : string) (w w0 : world) (r : exception + unit) :
  open_wb p w = (r, w0) ->
  match r with
  | inr _ => open_check p w = None /\ w0 = set_files (<[p := ""]> (files w)) w
  | inl e => open_check p w = Some e /\ w0 = w
  end.
Proof.
  unfold open_wb. destruct (open_check p w); intros [= <- <-]; auto.
Qed.

Lemma open_check_error (p : string) (w : world) (e : exception) :
  open_check p w = Some e ->
  e = ValueError "embedded null byte" \/ exists n m f, e = OSError n m f.
Proof.
  unfold open_check, ENOENT, ENOTDIR, EISDIR.
  repeat match goal with
         | |- context [if ?b then _ else _] => destruct b
         end; intros [= <-]; eauto.
Qed.

Lemma open_check_name (p : string) (w : world) :
  open_check p w = None -> names_directory (basename p) = false.
Proof.
  unfold open_check.
  repeat match goal with
         | |- context [if ?b then _ else _] => destruct b eqn:?
         end; try discriminate.
  intros _. match goal with H : (_ || _) = false |- _ =>
    apply orb_false_iff in H as [? _] end. assumption.
Qed.

(** What opening the storage file leaves behind. *)
Lemma do_put_open_inv (self : storage_node.handler) (name : string)
    (w w0 : world) (r : exception + unit) :
  storage_node.do_put_open self name w = (r, w0) ->
  sock_in w0 = sock_in w /\ sock_pos w0 = sock_pos w /\
  sock_out w0 = sock_out w /\
  match r with
  | inr _ =>
      files w0 = <[storage_node.storage_filepath self name := ""]> (files w) /\
      exists wm, open_check (storage_node.storage_filepath self name) wm = None /\
                 dirs wm = dirs w0 /\ files wm = files w
  | inl e =>
      files w0 = files w /\
      (e = ValueError "embedded null byte" \/ exists n m f, e = OSError n m f)
  end.
Proof.
  unfold storage_node.do_put_open, bind at 1, os_path_exists.
  set (present := negb _ && _). set (p := storage_node.storage_filepath self name).
  assert (forall wm, sock_in wm = sock_in w -> sock_pos wm = sock_pos w ->
                     sock_out wm = sock_out w -> files wm = files w ->
                     open_wb p wm = (r, w0) ->
                     sock_in w0 = sock_in w /\ sock_pos w0 = sock_pos w /\
                     sock_out w0 = sock_out w /\
                     match r with
                     | inr _ => files w0 = <[p := ""]> (files w) /\
                                exists wm, open_check p wm = None /\
                                           dirs wm = dirs w0 /\ files wm = files w
                     | inl e => files w0 = files w /\
                                (e = ValueError "embedded null byte" \/
                                 exists n m f, e = OSError n m f)
                     end) as Hopen.
  { intros wm H1 H2 H3 H4 Ho. apply open_wb_inv in Ho. destruct r as [e|u].
    - destruct Ho as [Hc ->]. repeat split; auto. eapply open_check_error; eauto.
    - destruct Ho as [Hc ->]. unfold set_files; cbn [files dirs sock_in sock_pos sock_out].
      rewrite H4. repeat split; auto. exists wm. auto. }
  destruct present.
  - unfold bind, ret. apply Hopen; reflexivity.
  - unfold bind at 1, os_makedirs.
    destruct (String.eqb (storage_node.STORAGE_DIR self) "").
    { intros [= <- <-]. unfold ENOENT. repeat split; eauto. }
    destruct (is_dir w _ || is_file w _).
    { intros [= <- <-]. unfold EEXIST. repeat split; eauto. }
    destruct (existsb _ _).
    { intros [= <- <-]. unfold ENOTDIR. repeat split; eauto. }
    apply Hopen; reflexivity.
Qed.

Lemma os_error_is_not_success (n : Z) (m f : string) :
  str_of_exception (OSError n m f) <> storage_node.TRANSFER_SUCCESSFUL_CODE.
Proof. unfold str_of_exception. rewrite app_cons. discriminate. Qed.

(** The set-up either fails, leaving the files as they were and an error
    whose message is not the success code, or it opened the file and
    allows [range(file_size)] iterations. *)
Lemma do_put_setup_inv (self : storage_node.handler) (name : string) (n : Z)
    (w w0 : world) (r : exception + nat) :
  storage_node.do_put_setup self name n w = (r, w0) ->
  sock_in w0 = sock_in w /\ sock_pos w0 = sock_pos w /\
  sock_out w0 = sock_out w /\
  match r with
  | inr progress =>
      progress = Z.to_nat n /\ n <= sys_maxsize /\
      storage_node.do_put_open self name w = (inr tt, w0)
  | inl e =>
      files w0 = files w /\
      str_of_exception e <> storage_node.TRANSFER_SUCCESSFUL_CODE
  end.
Proof.
  unfold storage_node.do_put_setup, bind at 1, lift, tqdm_range, len_range.
  destruct (sys_maxsize <? n) eqn:Hmax.
  { intros [= <- <-].
    split; [reflexivity|]. split; [reflexivity|]. split; [reflexivity|].
    split; [reflexivity | discriminate]. }
  apply Z.ltb_ge in Hmax. unfold bind at 1.
  destruct (storage_node.do_put_open self name w) as [[e|[]] w1] eqn:Hopen;
    destruct (do_put_open_inv _ _ _ _ _ Hopen) as (Hin & Hp & Hout & Hrest);
    intros [= <- <-];
    (split; [exact Hin|]; split; [exact Hp|]; split; [exact Hout|]).
  - destruct Hrest as (Hf & [-> | (a & b & c & ->)]); split;
      [exact Hf | discriminate | exact Hf | apply os_error_is_not_success].
  - split; [reflexivity|]. split; [exact Hmax | reflexivity].
Qed.

(** The file written by the handler can be read back. *)
Lemma transferred_readable (self : storage_node.handler) (name data : string)
    (k : nat) (w w0 : world) :
  storage_node.do_put_open self name w = (inr tt, w0) ->
  open_check (storage_node.storage_filepath self name)
    (transferred w0 (storage_node.storage_filepath self name) data k) = None /\
  files (transferred w0 (storage_node.storage_filepath self name) data k)
    !! storage_node.storage_filepath self name = Some data.
Proof.
  intros Hopen.
  destruct (do_put_open_inv _ _ _ _ _ Hopen) as (_ & _ & _ & Hf & wm & Hc & Hd & Hfm).
  split.
  - eapply open_check_written; [exact Hc | symmetry; exact Hd |].
    unfold transferred; cbn [files]. rewrite Hf, Hfm, insert_insert_eq. reflexivity.
  - unfold transferred; cbn [files]. apply lookup_insert_eq.
Qed.

(** After a successful set-up, the handler is the receive loop followed by
    the comparison of digests. *)
Lemma do_put_handler_opened (self : storage_node.handler)
    (filename size_field file_hash : string) (n : Z) (progress : nat)
    (w w0 : world) :
  int size_field = inr n ->
  storage_node.do_put_setup self (basename filename) n w = (inr progress, w0) ->
  forall k,
    utilities.receive_loop progress n (destination self filename) 0 w0
    = (inr (len (delivered (sock_in w0) (sock_pos w0) k)),
       transferred w0 (destination self filename)
         (delivered (sock_in w0) (sock_pos w0) k) k) ->
    storage_node.do_put_handler self [filename; size_field; file_hash] w
    = (inr (storage_node.Str
              (put_outcome (delivered (sock_in w0) (sock_pos w0) k) file_hash)),
       transferred w0 (destination self filename)
         (delivered (sock_in w0) (sock_pos w0) k) k).
Proof.
  intros Hint Hsetup k Hloop.
  destruct (do_put_setup_inv _ _ _ _ _ _ Hsetup) as (_ & _ & _ & _ & _ & Hopen).
  unfold storage_node.do_put_handler, lift, bind at 1. rewrite Hint.
  unfold bind at 1, try_except, storage_node.do_put_try, bind at 1.
  rewrite Hsetup. unfold bind at 1. fold (destination self filename). rewrite Hloop.
  destruct (transferred_readable self (basename filename)
              (delivered (sock_in w0) (sock_pos w0) k) k w w0 Hopen) as (Hc & Hdata).
  fold (destination self filename) in Hc, Hdata.
  unfold put_outcome, bind at 1.
  destruct (String.eqb (MD5.hexdigest _) file_hash) eqn:E.
  - apply String.eqb_eq in E.
    rewrite (integrity_matched _ _ file_hash _ Hc Hdata E). reflexivity.
  - apply String.eqb_neq in E.
    rewrite (integrity_mismatch _ _ file_hash _ Hc Hdata E). reflexivity.
Qed.

(** The loop of the handler, started on the freshly opened file. *)
Lemma receive_after_open (self : storage_node.handler) (name : string)
    (n : Z) (progress : nat) (w w0 : world) :
  storage_node.do_put_open self name w = (inr tt, w0) ->
  exists k, (k <= progress)%nat /\
    utilities.receive_loop progress n
      (storage_node.storage_filepath self name) 0 w0
    = (inr (len (delivered (sock_in w0) (sock_pos w0) k)),
       transferred w0 (storage_node.storage_filepath self name)
         (delivered (sock_in w0) (sock_pos w0) k) k).
Proof.
  intros Hopen.
  destruct (do_put_open_inv _ _ _ _ _ Hopen) as (_ & _ & _ & Hf & _).
  destruct (receive_loop_spec progress n
              (storage_node.storage_filepath self name) 0 w0 "") as (k & Hk & Hrun).
  { rewrite Hf. apply lookup_insert_eq. }
  exists k. split; [assumption|]. rewrite Hrun. reflexivity.
Qed.

(** Every run of the handler on a three-field request. *)
Lemma do_put_handler_cases (self : storage_node.handler)
    (filename size_field file_hash : string) (w : world) :
  match int size_field with
  | inl e =>
      storage_node.do_put_handler self [filename; size_field; file_hash] w
      = (inl e, w)
  | inr n =>
      match storage_node.do_put_setup self (basename filename) n w with
      | (inl e, w0) =>
          storage_node.do_put_handler self [filename; size_field; file_hash] w
          = (inr (storage_node.Str (str_of_exception e)), w0)
      | (inr _, w0) =>
          exists k, (k <= Z.to_nat n)%nat /\
            storage_node.do_put_handler self [filename; size_field; file_hash] w
            = (inr (storage_node.Str
                      (put_outcome (delivered (sock_in w0) (sock_pos w0) k)
                         file_hash)),
               transferred w0 (destination self filename)
                 (delivered (sock_in w0) (sock_pos w0) k) k)
      end
  end.
Proof.
  destruct (int size_field) as [e|n] eqn:Hint.
  - unfold storage_node.do_put_handler, lift, bind at 1. rewrite Hint. reflexivity.
  - destruct (storage_node.do_put_setup self (basename filename) n w)
      as [[e|progress] w0] eqn:Hsetup.
    + unfold storage_node.do_put_handler, lift, bind at 1. rewrite Hint.
      unfold bind at 1, try_except, storage_node.do_put_try, bind at 1.
      rewrite Hsetup. reflexivity.
    + destruct (do_put_setup_inv _ _ _ _ _ _ Hsetup) as (_ & _ & _ & Hp & _ & Hopen).
      destruct (receive_after_open self (basename filename) n progress w w0 Hopen)
        as (k & Hk & Hrun).
      exists k. split; [lia|].
      apply (do_put_handler_opened self filename size_field file_hash n progress
               w w0 Hint Hsetup k Hrun).
Qed.

End Put.

(** ** The claims of the specification *)

Section Claims.
Import Py World Spec.

Lemma delivered_snoc (reads : nat -> string) (k : nat) :
  forall from,
    delivered reads from (S k)
    = delivered reads from k ++ reads (from + k)%nat.
Proof.
  induction k as [|k IH]; intros from.
  - cbn [delivered]. rewrite app_empty_r, Nat.add_0_r. reflexivity.
  - change (delivered reads from (S (S k)))
      with (reads from ++ delivered reads (S from) (S k)).
    rewrite IH. cbn [delivered]. rewrite app_assoc.
    replace (S from + k)%nat with (from + S k)%nat by lia. reflexivity.
Qed.

(** C1 (the code departs from the claim).  The table name of the node
    "0.0.0.0:5000" is "sn__0_0_0_0__5000", as the comment in the source
    says, but parsing it back gives "0_0_0_0:5000": the dots of the host
    are not restored, so the two conversions are not inverse on a dotted
    IPv4 host. *)
Theorem table_name_of_dotted_host_does_not_parse_back :
  utilities.get_sn_table_name_from_ip "0.0.0.0:5000" = inr "sn__0_0_0_0__5000" /\
  utilities.get_ip_from_sn_table_name "sn__0_0_0_0__5000" = inr "0_0_0_0:5000" /\
  "0_0_0_0:5000" <> "0.0.0.0:5000".
Proof. split; [reflexivity | split; [reflexivity | discriminate]]. Qed.

(** C2, as stated, fails: declared size 5, the peer sends "abc" and closes,
    the expected hash is the digest of "abc"; the handler answers
    TRANSFER_SUCCESSFUL although 3 bytes were written. *)
Lemma put_success_with_short_file :
  ~ success_needs_size_and_digest node "report.txt" "5"
      "900150983cd24fb0d6963f7d28e17f72" (incoming ["abc"]).
Proof.
  intros H.
  set (run := storage_node.do_put_handler node
                ["report.txt"; "5"; "900150983cd24fb0d6963f7d28e17f72"]
                (incoming ["abc"])).
  assert (run = (inr (storage_node.Str storage_node.TRANSFER_SUCCESSFUL_CODE),
                 snd run)) as Hrun.
  { rewrite (surjective_pairing run) at 1.
    replace (fst run) with (inr (storage_node.Str storage_node.TRANSFER_SUCCESSFUL_CODE)
                            : exception + storage_node.value)
      by (vm_compute; reflexivity).
    reflexivity. }
  destruct (H 5 (snd run) eq_refl Hrun) as (data & Hdata & Hlen & _).
  vm_compute in Hdata. injection Hdata as <-. vm_compute in Hlen. discriminate.
Qed.

(** C2 (amended).  The PUT handler answers TRANSFER_SUCCESSFUL only if
    the digest of the file it wrote equals the expected hash; the file
    holds exactly the bytes of the reads the handler made, in order.
    Nothing is claimed about the declared size. *)
Theorem put_success_needs_digest (self : storage_node.handler)
    (filename size_field file_hash : string) (w w' : world) :
  storage_node.do_put_handler self [filename; size_field; file_hash] w
  = (inr (storage_node.Str storage_node.TRANSFER_SUCCESSFUL_CODE), w') ->
  exists data,
    files w' !! destination self filename = Some data /\
    MD5.hexdigest data = file_hash /\
    data = delivered (sock_in w) (sock_pos w) (sock_pos w' - sock_pos w).
Proof.
  intros Hrun.
  pose proof (do_put_handler_cases self filename size_field file_hash w) as Hc.
  destruct (int size_field) as [e|n]; [congruence|].
  destruct (storage_node.do_put_setup self (basename filename) n w)
    as [[e|progress] w0] eqn:Hsetup;
    destruct (do_put_setup_inv _ _ _ _ _ _ Hsetup) as (Hin & Hpos & _ & Hrest).
  - rewrite Hc in Hrun. injection Hrun as Hmsg _.
    destruct Hrest as (_ & Hne). contradiction.
  - destruct Hc as (k & _ & Hc). rewrite Hc in Hrun. injection Hrun as Hmsg <-.
    exists (delivered (sock_in w0) (sock_pos w0) k).
    split; [|split].
    + unfold transferred; cbn [files]. apply lookup_insert_eq.
    + unfold put_outcome in Hmsg.
      destruct (String.eqb _ file_hash) eqn:E; [|discriminate].
      apply String.eqb_eq. assumption.
    + unfold transferred; cbn [sock_pos]. rewrite Hin, Hpos. f_equal. lia.
Qed.

Lemma put_success_needs_digest_witness :
  storage_node.do_put_handler node
    ["report.txt"; "11"; "5eb63bbbe01eeed093cb22bb8f5acdc3"]
    (incoming ["hello world"])
  = (inr (storage_node.Str storage_node.TRANSFER_SUCCESSFUL_CODE),
     transferred
       (set_dirs {[ "storage_0.0.0.0_5000" ]} (incoming ["hello world"]))
       "storage_0.0.0.0_5000/report.txt" "hello world" 1) /\
  exists data,
    files (transferred
             (set_dirs {[ "storage_0.0.0.0_5000" ]} (incoming ["hello world"]))
             "storage_0.0.0.0_5000/report.txt" "hello world" 1)
      !! destination node "report.txt" = Some data /\
    MD5.hexdigest data = "5eb63bbbe01eeed093cb22bb8f5acdc3" /\
    data = delivered (sock_in (incoming ["hello world"])) 0 (1 - 0).
Proof.
  assert (storage_node.do_put_handler node
            ["report.txt"; "11"; "5eb63bbbe01eeed093cb22bb8f5acdc3"]
            (incoming ["hello world"])
          = (inr (storage_node.Str storage_node.TRANSFER_SUCCESSFUL_CODE),
             transferred
               (set_dirs {[ "storage_0.0.0.0_5000" ]} (incoming ["hello world"]))
               "storage_0.0.0.0_5000/report.txt" "hello world" 1)) as Hrun
    by (vm_compute; reflexivity).
  split; [exact Hrun|].
  exact (put_success_needs_digest node "report.txt" "11"
           "5eb63bbbe01eeed093cb22bb8f5acdc3" _ _ Hrun).
Defined.

(** C3, as stated, fails: declared size 5, the peer sends "abc" and closes
    early, the expected hash is the digest of "abc"; the truncated transfer
    is answered with TRANSFER_SUCCESSFUL. *)
Lemma truncated_put_answered_with_success :
  ~ truncation_is_not_success node "report.txt" "5"
      "900150983cd24fb0d6963f7d28e17f72" (incoming ["abc"]).
Proof.
  intros H. apply (H 5 1%nat).
  - lia.
  - reflexivity.
  - split; [|split].
    + intros i Hi. assert (i = O) as -> by lia. discriminate.
    + reflexivity.
    + vm_compute. reflexivity.
  - vm_compute. reflexivity.
Qed.

(** C3 (amended).  For a PUT request with declared size S > 0 whose
    set-up succeeded (the progress bar over range(S) was built and the
    storage file opened), if the reads deliver fewer than S bytes in all
    and then a zero-length read, the loop stops at that read and the file
    holds exactly the delivered bytes; the response is decided by the
    digest alone: TRANSFER_SUCCESSFUL when the digest of the delivered
    bytes equals the expected hash, otherwise the message
    "File integrity check failed!", the one a completed transfer with a
    wrong digest gets.  There is no separate outcome for truncation. *)
Theorem truncated_put_decided_by_digest (self : storage_node.handler)
    (filename size_field file_hash : string) (n : Z) (k progress : nat)
    (w w0 : world) :
  0 < n ->
  int size_field = inr n ->
  storage_node.do_put_setup self (basename filename) n w = (inr progress, w0) ->
  truncated_reads w k n ->
  storage_node.do_put_handler self [filename; size_field; file_hash] w
  = (inr (storage_node.Str
            (if String.eqb (MD5.hexdigest (delivered (sock_in w) (sock_pos w) k))
                  file_hash
             then storage_node.TRANSFER_SUCCESSFUL_CODE
             else "File integrity check failed!")),
     transferred w0 (destination self filename)
       (delivered (sock_in w) (sock_pos w) k) (S k)).
Proof.
  intros Hpos Hint Hsetup (Hne & Hend & Hlt).
  destruct (do_put_setup_inv _ _ _ _ _ _ Hsetup) as (Hin & Hp & _ & Hprog & _ & Hopen).
  destruct (do_put_open_inv _ _ _ _ _ Hopen) as (_ & _ & _ & Hf & _).
  rewrite <- Hin, <- Hp in *.
  assert (delivered (sock_in w0) (sock_pos w0) (S k)
          = delivered (sock_in w0) (sock_pos w0) k) as Hsame.
  { rewrite delivered_snoc, Hend. apply app_empty_r. }
  pose proof (do_put_handler_opened self filename size_field file_hash n progress
                w w0 Hint Hsetup (S k)) as Hrun.
  rewrite Hsame in Hrun. apply Hrun.
  pose proof (delivered_length (sock_in w0) k (sock_pos w0) Hne) as Hlen.
  rewrite (receive_loop_truncated k progress n (destination self filename)
             0 w0 "").
  - apply run_agrees; [lia|]. unfold transferred. f_equal.
  - unfold destination. rewrite Hf. apply lookup_insert_eq.
  - assumption.
  - assumption.
  - lia.
  - lia.
Qed.

Lemma truncated_put_decided_by_digest_witness :
  0 < 5 /\
  int "5" = inr 5 /\
  storage_node.do_put_setup node (basename "report.txt") 5 (incoming ["abc"])
  = (inr 5%nat,
     set_files {[ "storage_0.0.0.0_5000/report.txt" := "" ]}
       (set_dirs {[ "storage_0.0.0.0_5000" ]} (incoming ["abc"]))) /\
  truncated_reads (incoming ["abc"]) 1 5 /\
  storage_node.do_put_handler node
    ["report.txt"; "5"; "0cc175b9c0f1b6a831c399e269772661"] (incoming ["abc"])
  = (inr (storage_node.Str "File integrity check failed!"),
     transferred
       (set_files {[ "storage_0.0.0.0_5000/report.txt" := "" ]}
          (set_dirs {[ "storage_0.0.0.0_5000" ]} (incoming ["abc"])))
       "storage_0.0.0.0_5000/report.txt" "abc" 2).
Proof.
  assert (truncated_reads (incoming ["abc"]) 1 5) as Htr.
  { split; [|split].
    - intros i Hi. assert (i = O) as -> by lia. discriminate.
    - reflexivity.
    - vm_compute. reflexivity. }
  assert (storage_node.do_put_setup node (basename "report.txt") 5 (incoming ["abc"])
          = (inr 5%nat,
             set_files {[ "storage_0.0.0.0_5000/report.txt" := "" ]}
               (set_dirs {[ "storage_0.0.0.0_5000" ]} (incoming ["abc"])))) as Hsetup
    by (vm_compute; reflexivity).
  split; [lia|]. split; [reflexivity|]. split; [exact Hsetup|]. split; [exact Htr|].
  exact (truncated_put_decided_by_digest node "report.txt" "5"
           "0cc175b9c0f1b6a831c399e269772661" 5 1 5 (incoming ["abc"]) _
           ltac:(lia) eq_refl Hsetup Htr).
Defined.

(** C4 (the code departs from the claim on the sending side).  Receiving
    a file of declared size 0 with the digest of the empty string makes no
    read and answers TRANSFER_SUCCESSFUL, as claimed.  Sending an empty
    file, however, never enters the loop in which [send_file] records
    success, so it returns the failure pair it started with. *)
Theorem empty_file_received_but_send_reports_failure :
  storage_node.do_put_handler node
    ["empty.bin"; "0"; "d41d8cd98f00b204e9800998ecf8427e"] (incoming [])
  = (inr (storage_node.Str storage_node.TRANSFER_SUCCESSFUL_CODE),
     transferred
       (set_dirs {[ "storage_0.0.0.0_5000" ]} (incoming []))
       "storage_0.0.0.0_5000/empty.bin" "" 0) /\
  utilities.send_file "empty.bin" false
    (set_files {[ "empty.bin" := "" ]} (incoming []))
  = (inr (utilities.Pair utilities.NOTIFY_FAILURE "Operation failed!"),
     {| files := {[ "empty.bin" := "" ]}; dirs := ∅;
        sock_in := sock_in (incoming []); sock_pos := 0;
        sock_out :=
          ["<PUT_REQUEST><>empty.bin<>0<>d41d8cd98f00b204e9800998ecf8427e"] |}).
Proof. split; vm_compute; reflexivity. Qed.

(** C5 (the code departs from the claim).  A PUT request with two
    arguments instead of three, or with a size that is not a decimal
    integer, raises ValueError before the [try] block of the PUT handler is
    entered; [handle] catches nothing, so the exception leaves the handler
    and nothing is sent to the peer. *)
Theorem malformed_put_request_is_not_answered :
  storage_node.handle node (incoming ["<PUT_REQUEST><>a.txt<>12"])
  = (inl (ValueError "not enough values to unpack (expected 3, got 2)"),
     {| files := ∅; dirs := ∅;
        sock_in := sock_in (incoming ["<PUT_REQUEST><>a.txt<>12"]);
        sock_pos := 1; sock_out := [] |}) /\
  storage_node.handle node (incoming ["<PUT_REQUEST><>a.txt<>abc<>0f"])
  = (inl (ValueError "invalid literal for int() with base 10: 'abc'"),
     {| files := ∅; dirs := ∅;
        sock_in := sock_in (incoming ["<PUT_REQUEST><>a.txt<>abc<>0f"]);
        sock_pos := 1; sock_out := [] |}).
Proof. split; vm_compute; reflexivity. Qed.

(** C6.  When the set-up of a PUT succeeded, the loop ended with the byte
    count equal to the declared size, and the digest of the transferred
    bytes differs from the expected hash, then the integrity check raises
    an exception (it does not return false), the response of the PUT
    handler is the message of that exception and not TRANSFER_SUCCESSFUL,
    and the handler ends in the world the loop left: the file is still
    there, holding the transferred bytes. *)
Theorem integrity_mismatch_is_raised_and_file_kept
    (self : storage_node.handler) (filename size_field file_hash : string)
    (n : Z) (progress : nat) (w w0 w1 : world) :
  int size_field = inr n ->
  storage_node.do_put_setup self (basename filename) n w = (inr progress, w0) ->
  utilities.receive_loop progress n (destination self filename) 0 w0
  = (inr n, w1) ->
  MD5.hexdigest (delivered (sock_in w) (sock_pos w) (sock_pos w1 - sock_pos w))
  <> file_hash ->
  utilities.is_file_integrity_matched (destination self filename) file_hash w1
  = (inl (Exception "File integrity check failed!"), w1) /\
  storage_node.do_put_handler self [filename; size_field; file_hash] w
  = (inr (storage_node.Str "File integrity check failed!"), w1) /\
  "File integrity check failed!" <> storage_node.TRANSFER_SUCCESSFUL_CODE /\
  files w1 !! destination self filename
  = Some (delivered (sock_in w) (sock_pos w) (sock_pos w1 - sock_pos w)) /\
  len (delivered (sock_in w) (sock_pos w) (sock_pos w1 - sock_pos w)) = n.
Proof.
  intros Hint Hsetup Hloop Hdigest.
  destruct (do_put_setup_inv _ _ _ _ _ _ Hsetup) as (Hin & Hp & _ & _ & _ & Hopen).
  destruct (receive_after_open self (basename filename) n progress w w0 Hopen)
    as (k & Hk & Hrun).
  fold (destination self filename) in Hrun.
  pose proof (do_put_handler_opened self filename size_field file_hash n progress
                w w0 Hint Hsetup k Hrun) as Hput.
  destruct (transferred_readable self (basename filename)
              (delivered (sock_in w0) (sock_pos w0) k) k w w0 Hopen) as (Hc & Hdata).
  fold (destination self filename) in Hc, Hdata.
  rewrite Hloop in Hrun. injection Hrun as Hn Hw1.
  assert (sock_pos w1 - sock_pos w = k)%nat as Hk'.
  { rewrite Hw1. unfold transferred; cbn [sock_pos]. lia. }
  rewrite Hk' in *. rewrite <- Hin, <- Hp in *. rewrite <- Hw1 in *.
  split; [|split; [|split; [|split]]].
  - apply (integrity_mismatch _ _ _ _ Hc Hdata Hdigest).
  - rewrite Hput. unfold put_outcome.
    apply String.eqb_neq in Hdigest. rewrite Hdigest. reflexivity.
  - discriminate.
  - exact Hdata.
  - symmetry. exact Hn.
Qed.

Lemma integrity_mismatch_is_raised_and_file_kept_witness :
  int "11" = inr 11 /\
  storage_node.do_put_setup node (basename "report.txt") 11
    (incoming ["hello world"])
  = (inr 11%nat,
     set_files {[ "storage_0.0.0.0_5000/report.txt" := "" ]}
       (set_dirs {[ "storage_0.0.0.0_5000" ]} (incoming ["hello world"]))) /\
  utilities.receive_loop 11 11 (destination node "report.txt") 0
    (set_files {[ "storage_0.0.0.0_5000/report.txt" := "" ]}
       (set_dirs {[ "storage_0.0.0.0_5000" ]} (incoming ["hello world"])))
  = (inr 11,
     transferred (set_dirs {[ "storage_0.0.0.0_5000" ]} (incoming ["hello world"]))
       "storage_0.0.0.0_5000/report.txt" "hello world" 1) /\
  storage_node.do_put_handler node
    ["report.txt"; "11"; "00000000000000000000000000000000"]
    (incoming ["hello world"])
  = (inr (storage_node.Str "File integrity check failed!"),
     transferred (set_dirs {[ "storage_0.0.0.0_5000" ]} (incoming ["hello world"]))
       "storage_0.0.0.0_5000/report.txt" "hello world" 1) /\
  files (transferred
           (set_dirs {[ "storage_0.0.0.0_5000" ]} (incoming ["hello world"]))
           "storage_0.0.0.0_5000/report.txt" "hello world" 1)
    !! "storage_0.0.0.0_5000/report.txt" = Some "hello world".
Proof.
  assert (storage_node.do_put_setup node (basename "report.txt") 11
            (incoming ["hello world"])
          = (inr 11%nat,
             set_files {[ "storage_0.0.0.0_5000/report.txt" := "" ]}
               (set_dirs {[ "storage_0.0.0.0_5000" ]} (incoming ["hello world"]))))
    as Hsetup by (vm_compute; reflexivity).
  assert (utilities.receive_loop 11 11 (destination node "report.txt") 0
            (set_files {[ "storage_0.0.0.0_5000/report.txt" := "" ]}
               (set_dirs {[ "storage_0.0.0.0_5000" ]} (incoming ["hello world"])))
          = (inr 11,
             transferred
               (set_dirs {[ "storage_0.0.0.0_5000" ]} (incoming ["hello world"]))
               "storage_0.0.0.0_5000/report.txt" "hello world" 1))
    as Hloop by (vm_compute; reflexivity).
  assert (MD5.hexdigest
            (delivered (sock_in (incoming ["hello world"]))
               (sock_pos (incoming ["hello world"]))
               (sock_pos
                  (transferred
                     (set_dirs {[ "storage_0.0.0.0_5000" ]}
                        (incoming ["hello world"]))
                     "storage_0.0.0.0_5000/report.txt" "hello world" 1)
                - sock_pos (incoming ["hello world"])))
          <> "00000000000000000000000000000000") as Hdigest
    by (vm_compute; discriminate).
  destruct (integrity_mismatch_is_raised_and_file_kept node "report.txt" "11"
              "00000000000000000000000000000000" 11 11 _ _ _
              eq_refl Hsetup Hloop Hdigest)
    as (_ & Hput & _ & Hfile & _).
  split; [reflexivity|]. split; [exact Hsetup|]. split; [exact Hloop|].
  split; [exact Hput|]. exact Hfile.
Defined.

(** C7.  Whatever file name a PUT request supplies, the destination is the
    storage directory of the node, a slash, and the base name of the
    supplied name, which contains no slash; the handler changes no file
    other than the destination; and when the base name is empty, "." or
    "..", which name directories, no file is changed at all. *)
Theorem put_writes_only_inside_storage_dir (self : storage_node.handler)
    (filename size_field file_hash : string) (w : world) :
  destination self filename
  = storage_node.STORAGE_DIR self ++ "/" ++ basename filename /\
  contains "/" (basename filename) = false /\
  (forall p : string,
      p = destination self filename \/
      files (snd (storage_node.do_put_handler self
                    [filename; size_field; file_hash] w)) !! p
      = files w !! p) /\
  (names_directory (basename filename) = false \/
   files (snd (storage_node.do_put_handler self
                 [filename; size_field; file_hash] w))
   = files w).
Proof.
  split; [reflexivity|]. split; [apply basename_no_slash|].
  pose proof (do_put_handler_cases self filename size_field file_hash w) as Hc.
  destruct (int size_field) as [e|n].
  { rewrite Hc. cbn [snd]. split; auto. }
  destruct (storage_node.do_put_setup self (basename filename) n w)
    as [[e|progress] w0] eqn:Hsetup;
    destruct (do_put_setup_inv _ _ _ _ _ _ Hsetup) as (_ & _ & _ & Hrest).
  - rewrite Hc. cbn [snd]. destruct Hrest as (-> & _). split; auto.
  - destruct Hc as (k & _ & ->). cbn [snd]. destruct Hrest as (_ & _ & Hopen).
    destruct (do_put_open_inv _ _ _ _ _ Hopen) as (_ & _ & _ & Hf & wm & Hcheck & _).
    split.
    + intros p. destruct (decide (p = destination self filename)) as [->|Hne]; [auto|].
      right. unfold transferred, destination in *; cbn [files]. rewrite Hf.
      rewrite !lookup_insert_ne by congruence.
      reflexivity.
    + left. apply open_check_name in Hcheck.
      unfold storage_node.storage_filepath in Hcheck.
      rewrite basename_join in Hcheck by apply basename_no_slash.
      exact Hcheck.
Qed.

(** C8.  When the first field of the request read from the connection is
    STATUS_REQUEST, the handler sends exactly "200" and returns; files and
    directories of the node are untouched. *)
Theorem status_request_answers_200 (self : storage_node.handler)
    (w : world) (received : string) :
  decode (sock_in w (sock_pos w)) = inr received ->
  utilities.index (split storage_node.SEPARATOR received) 0
  = inr storage_node.STATUS_REQUEST ->
  storage_node.handle self w
  = (inr tt,
     {| files := files w; dirs := dirs w; sock_in := sock_in w;
        sock_pos := S (sock_pos w); sock_out := (sock_out w ++ ["200"])%list |}).
Proof.
  intros Hdec Hfirst.
  unfold storage_node.handle, bind at 1, recv.
  unfold bind at 1, lift. cbn [sock_in sock_pos]. rewrite Hdec.
  unfold bind at 1. rewrite Hfirst.
  change (String.eqb storage_node.STATUS_REQUEST storage_node.GET_REQUEST) with false.
  change (String.eqb storage_node.STATUS_REQUEST storage_node.PUT_REQUEST) with false.
  change (String.eqb storage_node.STATUS_REQUEST storage_node.STATUS_REQUEST) with true.
  reflexivity.
Qed.

Lemma status_request_answers_200_witness :
  decode (sock_in (incoming ["<STATUS_REQUEST>"]) 0) = inr "<STATUS_REQUEST>" /\
  utilities.index (split storage_node.SEPARATOR "<STATUS_REQUEST>") 0
  = inr storage_node.STATUS_REQUEST /\
  storage_node.handle node (incoming ["<STATUS_REQUEST>"])
  = (inr tt,
     {| files := ∅; dirs := ∅; sock_in := sock_in (incoming ["<STATUS_REQUEST>"]);
        sock_pos := 1; sock_out := ["200"] |}).
Proof.
  split; [reflexivity|]. split; [reflexivity|].
  exact (status_request_answers_200 node (incoming ["<STATUS_REQUEST>"])
           "<STATUS_REQUEST>" eq_refl eq_refl).
Defined.

(** C9 (the code departs from the claim).  [do_get_handler] is an empty
    stub that returns None.  For every request whose first field is
    GET_REQUEST, encoding that None raises TypeError in [handle]: nothing is
    sent to the peer, neither a NOTIFY_FAILURE message nor a file header,
    and the exception leaves the handler. *)
Theorem get_request_is_not_answered (self : storage_node.handler)
    (w : world) (received : string) :
  decode (sock_in w (sock_pos w)) = inr received ->
  utilities.index (split storage_node.SEPARATOR received) 0
  = inr storage_node.GET_REQUEST ->
  storage_node.handle self w
  = (inl (TypeError "encoding without a string argument"),
     {| files := files w; dirs := dirs w; sock_in := sock_in w;
        sock_pos := S (sock_pos w); sock_out := sock_out w |}).
Proof.
  intros Hdec Hfirst.
  unfold storage_node.handle, bind at 1, recv.
  unfold bind at 1, lift. cbn [sock_in sock_pos]. rewrite Hdec.
  unfold bind at 1. rewrite Hfirst.
  change (String.eqb storage_node.GET_REQUEST storage_node.GET_REQUEST) with true.
  reflexivity.
Qed.

Lemma get_request_is_not_answered_witness :
  decode (sock_in (incoming ["<GET_REQUEST><>report.txt"]) 0)
  = inr "<GET_REQUEST><>report.txt" /\
  utilities.index (split storage_node.SEPARATOR "<GET_REQUEST><>report.txt") 0
  = inr storage_node.GET_REQUEST /\
  storage_node.handle node (incoming ["<GET_REQUEST><>report.txt"])
  = (inl (TypeError "encoding without a string argument"),
     {| files := ∅; dirs := ∅;
        sock_in := sock_in (incoming ["<GET_REQUEST><>report.txt"]);
        sock_pos := 1; sock_out := [] |}).
Proof.
  split; [reflexivity|]. split; [reflexivity|].
  exact (get_request_is_not_answered node (incoming ["<GET_REQUEST><>report.txt"])
           "<GET_REQUEST><>report.txt" eq_refl eq_refl).
Defined.

(** The number of reads of the loop is bounded by its iterations, whatever
    the file and the reads are. *)
Lemma receive_loop_reads (n : nat) :
  forall (size : Z) (f : string) (total : Z) (w : world),
    (sock_pos (snd (utilities.receive_loop n size f total w))
     <= sock_pos w + n)%nat.
Proof.
  induction n as [|n IH]; intros size f total w; cbn [utilities.receive_loop].
  - unfold ret. cbn [snd]. lia.
  - unfold bind at 1, recv.
    destruct (sock_in w (sock_pos w)) as [|a b].
    + unfold ret. cbn [snd sock_pos]. lia.
    + unfold bind at 1, write. cbn [files dirs sock_in sock_pos sock_out].
      destruct (_ =? size).
      * unfold ret, set_files. cbn [snd sock_pos]. lia.
      * match goal with
        | |- context [utilities.receive_loop n size f ?t ?w1] =>
            specialize (IH size f t w1)
        end.
        change (sock_pos (set_files ?x ?y)) with (sock_pos y) in IH.
        cbn [sock_pos] in IH. lia.
Qed.

Lemma os_makedirs_pos (p : string) (w : world) :
  sock_pos (snd (os_makedirs p w)) = sock_pos w.
Proof.
  unfold os_makedirs.
  repeat match goal with
         | |- context [if ?b then _ else _] => destruct b
         end; reflexivity.
Qed.

Lemma open_wb_pos (p : string) (w : world) :
  sock_pos (snd (open_wb p w)) = sock_pos w.
Proof. unfold open_wb. destruct (open_check p w); reflexivity. Qed.

(** An infinite stream of two-byte reads against a declared size of 3:
    the running count is 2, 4, 6 and never 3, and the loop stops after its
    three iterations. *)
Example receive_loop_overshoot :
  let w := {| files := {[ "f" := "" ]}; dirs := ∅; sock_in := fun _ => "ab";
              sock_pos := 0; sock_out := [] |} in
  fst (utilities.receive_loop (Z.to_nat 3) 3 "f" 0 w) = inr 6 /\
  sock_pos (snd (utilities.receive_loop (Z.to_nat 3) 3 "f" 0 w)) = 3%nat /\
  files (snd (utilities.receive_loop (Z.to_nat 3) 3 "f" 0 w)) !! "f"
  = Some "ababab".
Proof. vm_compute. repeat split; reflexivity. Qed.

(** C10.  For every declared size [n] and every sequence of reads, finite
    or not, the receive loop makes at most [n] reads (none when [n] is
    negative), in [receive_file_from_sock] as in the PUT handler: the loop
    runs over [range(n)], so the operation, a total function of the world,
    ends even when the peer never closes and the byte count never equals
    [n]. *)
Theorem receive_makes_at_most_declared_size_reads
    (self : storage_node.handler)
    (filename size_field file_hash dest_filepath f : string)
    (n total : Z) (w : world) :
  (sock_pos (snd (utilities.receive_loop (Z.to_nat n) n f total w))
   <= sock_pos w + Z.to_nat n)%nat /\
  (sock_pos (snd (utilities.receive_file_from_sock dest_filepath n file_hash w))
   <= sock_pos w + Z.to_nat n)%nat /\
  (int size_field = inr n ->
   (sock_pos (snd (storage_node.do_put_handler self
                     [filename; size_field; file_hash] w))
    <= sock_pos w + Z.to_nat n)%nat).
Proof.
  split; [apply receive_loop_reads|]. split.
  - unfold utilities.receive_file_from_sock, try_except, bind at 1, lift,
      tqdm_range, len_range.
    destruct (sys_maxsize <? n); [unfold raise; cbn [snd]; lia|].
    unfold bind at 1, os_path_exists.
    set (present := negb _ && _).
    assert (forall wm, sock_pos wm = sock_pos w ->
              (sock_pos
                 (snd (match (open_wb dest_filepath ;;
                              _ <- utilities.receive_loop (Z.to_nat n) n
                                     dest_filepath 0 ;; ret tt) wm with
                       | (inl e, w') => raise e w'
                       | (inr a, w') => (inr a, w')
                       end))
               <= sock_pos w + Z.to_nat n)%nat) as Hrest.
    { intros wm Hwm. unfold bind at 1.
      pose proof (open_wb_pos dest_filepath wm) as Ho.
      destruct (open_wb dest_filepath wm) as [[e|[]] w1]; cbn [snd] in Ho.
      - unfold raise. cbn [snd]. lia.
      - unfold bind at 1.
        pose proof (receive_loop_reads (Z.to_nat n) n dest_filepath 0 w1) as Hl.
        destruct (utilities.receive_loop (Z.to_nat n) n dest_filepath 0 w1)
          as [[e|t] w2]; cbn [snd] in Hl; unfold raise, ret; cbn [snd]; lia. }
    destruct present.
    + unfold bind at 1, ret. apply Hrest. reflexivity.
    + unfold bind at 1.
      pose proof (os_makedirs_pos (dirname dest_filepath) w) as Hm.
      destruct (os_makedirs (dirname dest_filepath) w) as [[e|[]] wm]; cbn [snd] in Hm.
      * unfold raise. cbn [snd]. lia.
      * apply Hrest. assumption.
  - intros Hint.
    pose proof (do_put_handler_cases self filename size_field file_hash w) as Hc.
    rewrite Hint in Hc.
    destruct (storage_node.do_put_setup self (basename filename) n w)
      as [[e|progress] w0] eqn:Hsetup;
      destruct (do_put_setup_inv _ _ _ _ _ _ Hsetup) as (_ & Hp & _).
    + rewrite Hc. cbn [snd]. lia.
    + destruct Hc as (k & Hk & ->). unfold transferred. cbn [snd sock_pos]. lia.
Qed.

Lemma receive_makes_at_most_declared_size_reads_witness :
  int "3" = inr 3 /\
  (sock_pos (snd (storage_node.do_put_handler node
                    ["f"; "3"; "900150983cd24fb0d6963f7d28e17f72"]
                    {| files := ∅; dirs := ∅; sock_in := fun _ => "ab";
                       sock_pos := 0; sock_out := [] |}))
   <= 0 + Z.to_nat 3)%nat.
Proof.
  split; [reflexivity|].
  exact (proj2 (proj2 (receive_makes_at_most_declared_size_reads node
                         "f" "3" "900150983cd24fb0d6963f7d28e17f72" "f" "f" 3 0
                         {| files := ∅; dirs := ∅; sock_in := fun _ => "ab";
                            sock_pos := 0; sock_out := [] |}))
           eq_refl).
Defined.

End Claims.

(** * Further properties of the code *)

(** ** What the PUT handler and the dispatcher keep and send *)

Section Handler.
Import Py World Spec.

Lemma os_makedirs_keeps (p : string) (w : world) :
  files (snd (os_makedirs p w)) = files w /\
  sock_out (snd (os_makedirs p w)) = sock_out w /\
  dirs w ⊆ dirs (snd (os_makedirs p w)).
Proof.
  unfold os_makedirs.
  repeat match goal with
         | |- context [if ?b then _ else _] => destruct b
         end; cbn [snd set_dirs files dirs sock_out];
    (split; [reflexivity|]; split; [reflexivity|]; set_solver).
Qed.

Lemma open_wb_keeps (p : string) (w : world) :
  dom (files w) ⊆ dom (files (snd (open_wb p w))) /\
  dirs (snd (open_wb p w)) = dirs w.
Proof.
  unfold open_wb. destruct (open_check p w); cbn [snd set_files files dirs].
  - split; [set_solver | reflexivity].
  - split; [|reflexivity]. rewrite dom_insert_L. set_solver.
Qed.

Lemma do_put_open_keeps (self : storage_node.handler) (name : string)
    (w w0 : world) (r : exception + unit) :
  storage_node.do_put_open self name w = (r, w0) ->
  dom (files w) ⊆ dom (files w0) /\ dirs w ⊆ dirs w0.
Proof.
  unfold storage_node.do_put_open, bind at 1, os_path_exists.
  set (present := negb _ && _). destruct present.
  - unfold bind, ret.
    pose proof (open_wb_keeps (storage_node.storage_filepath self name) w) as [Hf Hd].
    destruct (open_wb _ w) as [r' w'] eqn:Ho. cbn [snd] in Hf, Hd.
    intros [= <- <-]. rewrite Hd. split; [exact Hf | reflexivity].
  - unfold bind at 1.
    pose proof (os_makedirs_keeps (storage_node.STORAGE_DIR self) w) as (Hf & _ & Hd).
    destruct (os_makedirs _ w) as [[e|u] w1]; cbn [snd] in Hf, Hd.
    + intros [= <- <-]. rewrite Hf. split; set_solver.
    + pose proof (open_wb_keeps (storage_node.storage_filepath self name) w1)
        as [Hf1 Hd1].
      destruct (open_wb _ w1) as [r' w'] eqn:Ho. cbn [snd] in Hf1, Hd1.
      intros [= <- <-]. rewrite Hf in Hf1. rewrite Hd1.
      split; [exact Hf1 | exact Hd].
Qed.

Lemma do_put_setup_keeps (self : storage_node.handler) (name : string) (n : Z)
    (w w0 : world) (r : exception + nat) :
  storage_node.do_put_setup self name n w = (r, w0) ->
  dom (files w) ⊆ dom (files w0) /\ dirs w ⊆ dirs w0.
Proof.
  unfold storage_node.do_put_setup, bind at 1, lift.
  destruct (tqdm_range n); [intros [= <- <-]; auto|].
  unfold bind at 1, ret.
  destruct (storage_node.do_put_open self name w) as [[e|u] w1] eqn:Hopen;
    intros [= <- <-]; exact (do_put_open_keeps _ _ _ _ _ Hopen).
Qed.

(** The PUT handler sends nothing itself, and removes neither a file nor
    a directory, whatever its arguments are. *)
Lemma do_put_handler_keeps (self : storage_node.handler) (l : list string)
    (w : world) :
  sock_out (snd (storage_node.do_put_handler self l w)) = sock_out w /\
  dom (files w) ⊆ dom (files (snd (storage_node.do_put_handler self l w))) /\
  dirs w ⊆ dirs (snd (storage_node.do_put_handler self l w)).
Proof.
  destruct l as [|filename [|size_field [|file_hash [|extra l]]]];
    try solve [cbn [storage_node.do_put_handler]; unfold raise; cbn [snd]; auto].
  pose proof (do_put_handler_cases self filename size_field file_hash w) as Hc.
  destruct (int size_field) as [e|n]; [rewrite Hc; cbn [snd]; auto|].
  destruct (storage_node.do_put_setup self (basename filename) n w)
    as [[e|progress] w0] eqn:Hsetup;
    destruct (do_put_setup_inv _ _ _ _ _ _ Hsetup) as (_ & _ & Hout & _);
    destruct (do_put_setup_keeps _ _ _ _ _ _ Hsetup) as [Hf Hd].
  - rewrite Hc. cbn [snd]. auto.
  - destruct Hc as (k & _ & ->). unfold transferred. cbn [snd files dirs sock_out].
    split; [assumption|]. split; [|assumption].
    rewrite dom_insert_L. set_solver.
Qed.

(** Whenever the size field parses, the PUT handler returns a response
    string: everything raised after the parsing is turned into a message,
    and [response_message] is always bound at the [return]. *)
Lemma do_put_handler_returns (self : storage_node.handler)
    (filename size_field file_hash : string) (n : Z) (w : world) :
  int size_field = inr n ->
  exists msg,
    fst (storage_node.do_put_handler self [filename; size_field; file_hash] w)
    = inr (storage_node.Str msg).
Proof.
  intros Hint.
  pose proof (do_put_handler_cases self filename size_field file_hash w) as Hc.
  rewrite Hint in Hc.
  destruct (storage_node.do_put_setup self (basename filename) n w)
    as [[e|progress] w0].
  - rewrite Hc. eauto.
  - destruct Hc as (k & _ & ->). eauto.
Qed.

(** X1.  [handle] sends exactly one message when it returns normally and
    none when an exception leaves it: it never answers twice. *)
Theorem handle_sends_one_message_or_raises (self : storage_node.handler)
    (w : world) :
  match storage_node.handle self w with
  | (inr _, w') => exists m, sock_out w' = (sock_out w ++ [m])%list
  | (inl _, w') => sock_out w' = sock_out w
  end.
Proof.
  unfold storage_node.handle, bind at 1, recv.
  set (w1 := {| files := files w; dirs := dirs w; sock_in := sock_in w;
                sock_pos := S (sock_pos w); sock_out := sock_out w |}).
  unfold bind at 1, lift.
  destruct (decode (sock_in w (sock_pos w))) as [e|received]; [reflexivity|].
  unfold bind at 1.
  destruct (utilities.index (split storage_node.SEPARATOR received) 0)
    as [e|request_type]; [reflexivity|].
  unfold bind at 1.
  destruct (String.eqb request_type storage_node.GET_REQUEST).
  { reflexivity. }
  destruct (String.eqb request_type storage_node.PUT_REQUEST).
  { pose proof (do_put_handler_keeps self
                  (tl (split storage_node.SEPARATOR received)) w1) as (Hout & _).
    destruct (storage_node.do_put_handler self _ w1) as [[e|[|m]] w2];
      cbn [snd] in Hout; unfold bind, lift, sendall; cbn.
    - exact Hout.
    - exact Hout.
    - exists m. rewrite Hout. reflexivity. }
  destruct (String.eqb request_type storage_node.STATUS_REQUEST);
    unfold bind, lift, ret, sendall; cbn; eauto.
Qed.

(** X2.  [handle] never removes anything from the node: every file and
    every directory present before a request is present after it, whatever
    was received. *)
Theorem handle_removes_nothing (self : storage_node.handler) (w : world) :
  dom (files w) ⊆ dom (files (snd (storage_node.handle self w))) /\
  dirs w ⊆ dirs (snd (storage_node.handle self w)).
Proof.
  assert (forall r w', storage_node.handle self w = (r, w') ->
                       dom (files w) ⊆ dom (files w') /\ dirs w ⊆ dirs w') as H.
  { unfold storage_node.handle, bind at 1, recv.
    set (w1 := {| files := files w; dirs := dirs w; sock_in := sock_in w;
                  sock_pos := S (sock_pos w); sock_out := sock_out w |}).
    unfold bind at 1, lift. intros r w'.
    destruct (decode (sock_in w (sock_pos w))) as [e|received];
      [intros [= <- <-]; cbn; auto|].
    unfold bind at 1.
    destruct (utilities.index (split storage_node.SEPARATOR received) 0)
      as [e|request_type]; [intros [= <- <-]; cbn; auto|].
    unfold bind at 1.
    destruct (String.eqb request_type storage_node.GET_REQUEST).
    { intros [= <- <-]. cbn. auto. }
    destruct (String.eqb request_type storage_node.PUT_REQUEST).
    { pose proof (do_put_handler_keeps self
                    (tl (split storage_node.SEPARATOR received)) w1) as (_ & Hf & Hd).
      destruct (storage_node.do_put_handler self _ w1) as [[e|[|m]] w2];
        cbn [snd] in Hf, Hd; unfold bind, lift, sendall;
        intros [= <- <-]; cbn; auto. }
    destruct (String.eqb request_type storage_node.STATUS_REQUEST);
      unfold bind, lift, ret, sendall; intros [= <- <-]; cbn; auto. }
  destruct (storage_node.handle self w) as [r w'] eqn:Hrun.
  exact (H r w' eq_refl).
Qed.

(** X3.  A request whose first field is none of the three request types is
    answered with the fixed text "Request type not supported yet!"; files and
    directories are untouched. *)
Theorem unknown_request_type_is_refused (self : storage_node.handler)
    (w : world) (received request_type : string) :
  decode (sock_in w (sock_pos w)) = inr received ->
  utilities.index (split storage_node.SEPARATOR received) 0 = inr request_type ->
  request_type <> storage_node.GET_REQUEST ->
  request_type <> storage_node.PUT_REQUEST ->
  request_type <> storage_node.STATUS_REQUEST ->
  storage_node.handle self w
  = (inr tt,
     {| files := files w; dirs := dirs w; sock_in := sock_in w;
        sock_pos := S (sock_pos w);
        sock_out := (sock_out w ++ ["Request type not supported yet!"])%list |}).
Proof.
  intros Hdec Hfirst Hget Hput Hstatus.
  unfold storage_node.handle, bind at 1, recv.
  unfold bind at 1, lift. cbn [sock_in sock_pos]. rewrite Hdec.
  unfold bind at 1. rewrite Hfirst.
  apply String.eqb_neq in Hget, Hput, Hstatus.
  rewrite Hget, Hput, Hstatus. reflexivity.
Qed.

Lemma unknown_request_type_is_refused_witness :
  storage_node.handle node (incoming ["<DELETE_REQUEST><>report.txt"])
  = (inr tt,
     {| files := ∅; dirs := ∅;
        sock_in := sock_in (incoming ["<DELETE_REQUEST><>report.txt"]);
        sock_pos := 1; sock_out := ["Request type not supported yet!"] |}).
Proof.
  apply (unknown_request_type_is_refused node
           (incoming ["<DELETE_REQUEST><>report.txt"])
           "<DELETE_REQUEST><>report.txt" "<DELETE_REQUEST>");
    [reflexivity | reflexivity | discriminate | discriminate | discriminate].
Defined.

(** X4.  A PUT request with three arguments whose size field is an integer
    is always answered: [handle] returns normally and sends one message,
    whatever goes wrong while the file is set up, received or verified. *)
Theorem well_formed_put_is_answered (self : storage_node.handler) (w : world)
    (received filename size_field file_hash : string) (n : Z) :
  decode (sock_in w (sock_pos w)) = inr received ->
  split storage_node.SEPARATOR received
  = [storage_node.PUT_REQUEST; filename; size_field; file_hash] ->
  int size_field = inr n ->
  exists msg w',
    storage_node.handle self w = (inr tt, w') /\
    sock_out w' = (sock_out w ++ [msg])%list.
Proof.
  intros Hdec Hsplit Hint.
  unfold storage_node.handle, bind at 1, recv.
  set (w1 := {| files := files w; dirs := dirs w; sock_in := sock_in w;
                sock_pos := S (sock_pos w); sock_out := sock_out w |}).
  unfold bind at 1, lift. rewrite Hdec.
  unfold bind at 1. rewrite Hsplit. cbn [utilities.index nth_error tl].
  change (String.eqb storage_node.PUT_REQUEST storage_node.GET_REQUEST) with false.
  change (String.eqb storage_node.PUT_REQUEST storage_node.PUT_REQUEST) with true.
  cbn match. unfold bind at 1.
  destruct (do_put_handler_returns self filename size_field file_hash n w1 Hint)
    as (msg & Hmsg).
  pose proof (do_put_handler_keeps self [filename; size_field; file_hash] w1)
    as (Hout & _).
  destruct (storage_node.do_put_handler self [filename; size_field; file_hash] w1)
    as [r w2]. cbn [fst snd] in Hmsg, Hout. subst r.
  exists msg. eexists. unfold bind, lift, sendall. cbn.
  split; [reflexivity|]. cbn. rewrite Hout. reflexivity.
Qed.

Lemma well_formed_put_is_answered_witness :
  exists msg w',
    storage_node.handle node (incoming ["<PUT_REQUEST><>a/..<>3<>00"; "abc"])
    = (inr tt, w') /\
    sock_out w' = (sock_out (incoming ["<PUT_REQUEST><>a/..<>3<>00"; "abc"])
                   ++ [msg])%list.
Proof.
  apply (well_formed_put_is_answered node
           (incoming ["<PUT_REQUEST><>a/..<>3<>00"; "abc"])
           "<PUT_REQUEST><>a/..<>3<>00" "a/.." "3" "00" 3);
    reflexivity.
Defined.

(** X5.  Once the set-up of a PUT has succeeded, the destination holds
    exactly the bytes of the reads the handler made, in order, whatever the
    response is: earlier content of a file of that name is gone, also when
    the integrity check then fails. *)
Theorem put_leaves_exactly_the_bytes_read (self : storage_node.handler)
    (filename size_field file_hash : string) (n : Z) (progress : nat)
    (w w0 : world) (r : exception + storage_node.value) (w' : world) :
  int size_field = inr n ->
  storage_node.do_put_setup self (basename filename) n w = (inr progress, w0) ->
  storage_node.do_put_handler self [filename; size_field; file_hash] w = (r, w') ->
  files w' !! destination self filename
  = Some (delivered (sock_in w) (sock_pos w) (sock_pos w' - sock_pos w)).
Proof.
  intros Hint Hsetup Hrun.
  pose proof (do_put_handler_cases self filename size_field file_hash w) as Hc.
  rewrite Hint, Hsetup in Hc. destruct Hc as (k & _ & Hc).
  rewrite Hc in Hrun. injection Hrun as _ <-.
  destruct (do_put_setup_inv _ _ _ _ _ _ Hsetup) as (Hin & Hp & _).
  unfold transferred. cbn [files sock_pos]. rewrite lookup_insert_eq, Hin, Hp.
  do 2 f_equal. lia.
Qed.

Lemma put_leaves_exactly_the_bytes_read_witness :
  files (snd (storage_node.do_put_handler node
                ["report.txt"; "11"; "00"]
                (set_files {[ "storage_0.0.0.0_5000/report.txt" := "old content" ]}
                   (set_dirs {[ "storage_0.0.0.0_5000" ]}
                      (incoming ["hello"; " world"])))))
    !! "storage_0.0.0.0_5000/report.txt"
  = Some "hello world".
Proof.
  set (w := set_files {[ "storage_0.0.0.0_5000/report.txt" := "old content" ]}
              (set_dirs {[ "storage_0.0.0.0_5000" ]}
                 (incoming ["hello"; " world"]))).
  assert (storage_node.do_put_setup node (basename "report.txt") 11 w
          = (inr 11%nat,
             set_files {[ "storage_0.0.0.0_5000/report.txt" := "" ]} w)) as Hsetup
    by (vm_compute; reflexivity).
  pose proof (put_leaves_exactly_the_bytes_read node "report.txt" "11" "00" 11 11
                w _ _ _ eq_refl Hsetup
                (surjective_pairing
                   (storage_node.do_put_handler node ["report.txt"; "11"; "00"] w)))
    as H.
  refine (eq_trans H _). vm_compute. reflexivity.
Defined.

(** When the reads are non-empty and their byte count reaches the declared
    size exactly at the last of them, the loop returns after that read. *)
Lemma receive_loop_complete (k : nat) :
  forall (n : nat) (size : Z) (f : string) (total : Z) (w : world) (c : string),
    files w !! f = Some c ->
    (forall i, (i <= k)%nat -> sock_in w (sock_pos w + i) <> "") ->
    total + len (delivered (sock_in w) (sock_pos w) (S k)) = size ->
    (k < n)%nat ->
    utilities.receive_loop n size f total w =
      (inr size,
       {| files := <[f := c ++ delivered (sock_in w) (sock_pos w) (S k)]> (files w);
          dirs := dirs w; sock_in := sock_in w;
          sock_pos := sock_pos w + S k; sock_out := sock_out w |}).
Proof.
  induction k as [|k IH]; intros n size f total w c Hf Hne Hsum Hn;
    (destruct n as [|n]; [lia|]);
    cbn [utilities.receive_loop]; unfold bind at 1; unfold recv at 1;
    pose proof (Hne O ltac:(lia)) as H0; rewrite Nat.add_0_r in H0;
    destruct (sock_in w (sock_pos w)) as [|a b] eqn:Hread; try congruence;
    unfold bind at 1; unfold write at 1; cbn [files dirs sock_in sock_pos sock_out];
    rewrite Hf; cbn [default].
  - cbn [delivered] in Hsum. rewrite Hread, app_empty_r in Hsum.
    pose proof Hsum as Hsum'. apply Z.eqb_eq in Hsum'. rewrite Hsum'.
    unfold ret, set_files.
    cbn [files dirs sock_in sock_pos sock_out delivered].
    rewrite Hread, app_empty_r. unfold id.
    f_equal; [f_equal; lia | f_equal; lia].
  - change (delivered (sock_in w) (sock_pos w) (S (S k)))
      with (sock_in w (sock_pos w) ++ delivered (sock_in w) (S (sock_pos w)) (S k))
      in *.
    rewrite Hread, len_app in Hsum.
    assert (Z.of_nat (S k) <= len (delivered (sock_in w) (S (sock_pos w)) (S k)))
      as Hrest.
    { apply delivered_length. intros i Hi.
      replace (S (sock_pos w) + i)%nat with (sock_pos w + S i)%nat by lia.
      apply Hne. lia. }
    destruct (total + len (String a b) =? size) eqn:Hdone; [lia|].
    rewrite (IH n size f _ _ (c ++ String a b)).
    + unfold set_files. cbn [files dirs sock_in sock_pos sock_out].
      rewrite Hread, insert_insert_eq, app_assoc. unfold id.
      f_equal. f_equal; lia.
    + unfold set_files. cbn [files]. apply lookup_insert_eq.
    + intros i Hi. cbn [sock_in sock_pos set_files].
      replace (S (sock_pos w) + i)%nat with (sock_pos w + S i)%nat by lia.
      apply Hne. lia.
    + cbn [sock_in sock_pos set_files]. lia.
    + lia.
Qed.

(** The run of the PUT handler on a transfer that is delivered in full. *)
Lemma do_put_handler_complete (self : storage_node.handler)
    (filename size_field file_hash : string) (n : Z) (k progress : nat)
    (w w0 : world) :
  int size_field = inr n ->
  storage_node.do_put_setup self (basename filename) n w = (inr progress, w0) ->
  (forall i, (i < k)%nat -> sock_in w (sock_pos w + i) <> "") ->
  len (delivered (sock_in w) (sock_pos w) k) = n ->
  MD5.hexdigest (delivered (sock_in w) (sock_pos w) k) = file_hash ->
  storage_node.do_put_handler self [filename; size_field; file_hash] w
  = (inr (storage_node.Str storage_node.TRANSFER_SUCCESSFUL_CODE),
     transferred w0 (destination self filename)
       (delivered (sock_in w) (sock_pos w) k) k).
Proof.
  intros Hint Hsetup Hne Hlen Hdigest.
  destruct (do_put_setup_inv _ _ _ _ _ _ Hsetup) as (Hin & Hp & _ & Hprog & _ & Hopen).
  destruct (do_put_open_inv _ _ _ _ _ Hopen) as (_ & _ & _ & Hf & _).
  rewrite <- Hin, <- Hp in *.
  pose proof (do_put_handler_opened self filename size_field file_hash n progress
                w w0 Hint Hsetup k) as Hrun.
  unfold put_outcome in Hrun. apply String.eqb_eq in Hdigest.
  rewrite Hdigest in Hrun. apply Hrun.
  rewrite Hlen.
  destruct k as [|k].
  - cbn [delivered] in Hlen. assert (n = 0) as -> by (rewrite <- Hlen; reflexivity).
    subst progress. cbn [Z.to_nat utilities.receive_loop]. unfold ret, transferred.
    cbn [delivered]. f_equal. destruct w0; cbn in *. rewrite Hf.
    f_equal; [rewrite insert_insert_eq; reflexivity | lia].
  - pose proof (delivered_length (sock_in w0) (S k) (sock_pos w0) Hne) as Hk.
    rewrite (receive_loop_complete k progress n (destination self filename) 0 w0 "").
    + reflexivity.
    + unfold destination. rewrite Hf. apply lookup_insert_eq.
    + intros i Hi. apply Hne. lia.
    + rewrite Z.add_0_l. exact Hlen.
    + lia.
Qed.

(** X6.  The transfer succeeds when it should: if the set-up succeeded, the
    peer delivers [k] non-empty reads whose sizes add up to the declared
    size, and the expected hash is the digest of these bytes, then the
    handler answers TRANSFER_SUCCESSFUL, the destination holds exactly these
    bytes, and the handler has made exactly these [k] reads: it does not
    wait for the peer to close. *)
Theorem complete_put_succeeds (self : storage_node.handler)
    (filename size_field file_hash : string) (n : Z) (k progress : nat)
    (w w0 : world) :
  int size_field = inr n ->
  storage_node.do_put_setup self (basename filename) n w = (inr progress, w0) ->
  (forall i, (i < k)%nat -> sock_in w (sock_pos w + i) <> "") ->
  len (delivered (sock_in w) (sock_pos w) k) = n ->
  MD5.hexdigest (delivered (sock_in w) (sock_pos w) k) = file_hash ->
  storage_node.do_put_handler self [filename; size_field; file_hash] w
  = (inr (storage_node.Str storage_node.TRANSFER_SUCCESSFUL_CODE),
     transferred w0 (destination self filename)
       (delivered (sock_in w) (sock_pos w) k) k).
Proof.
  intros Hint Hsetup Hne Hlen Hdigest.
  eapply do_put_handler_complete; eassumption.
Qed.

Lemma complete_put_succeeds_witness :
  storage_node.do_put_handler node
    ["report.txt"; "11"; "5eb63bbbe01eeed093cb22bb8f5acdc3"]
    (incoming ["hello"; " world"; "trailing bytes"])
  = (inr (storage_node.Str storage_node.TRANSFER_SUCCESSFUL_CODE),
     transferred
       (set_files {[ "storage_0.0.0.0_5000/report.txt" := "" ]}
          (set_dirs {[ "storage_0.0.0.0_5000" ]}
             (incoming ["hello"; " world"; "trailing bytes"])))
       (destination node "report.txt")
       (delivered (sock_in (incoming ["hello"; " world"; "trailing bytes"])) 0 2)
       2).
Proof.
  assert (forall i, (i < 2)%nat ->
            sock_in (incoming ["hello"; " world"; "trailing bytes"]) (0 + i) <> "")
    as Hne.
  { intros i Hi. assert (i = 0 \/ i = 1)%nat as [-> | ->] by lia; discriminate. }
  apply (complete_put_succeeds node "report.txt" "11"
           "5eb63bbbe01eeed093cb22bb8f5acdc3" 11 2 11
           (incoming ["hello"; " world"; "trailing bytes"]));
    [reflexivity | vm_compute; reflexivity | exact Hne
     | vm_compute; reflexivity | vm_compute; reflexivity].
Defined.

End Handler.

(** ** Sending a file *)

Section Send.
Import Py World Spec More.

Lemma pieces_empty (n fuel : nat) : pieces n fuel "" = [].
Proof. destruct fuel; [reflexivity|]. cbn [pieces]. destruct n; reflexivity. Qed.

Lemma drop_empty (n : nat) (s : string) :
  (String.length s <= n)%nat -> drop n s = "".
Proof.
  revert s. induction n as [|n IH]; intros [|c s]; cbn [drop String.length];
    intros H; try reflexivity; try lia.
  apply IH. lia.
Qed.

Lemma length_take_drop (n : nat) (s : string) :
  (String.length (take n s) + String.length (drop n s) = String.length s)%nat.
Proof. rewrite <- length_app, take_drop. reflexivity. Qed.

Lemma length_zero (s : string) : String.length s = O -> s = "".
Proof. destruct s; [reflexivity | discriminate]. Qed.

(** The blocks of a file are not empty, hold at most [n] bytes each, and
    make up the file. *)
Lemma pieces_concat (n fuel : nat) :
  forall s, (String.length s <= fuel)%nat -> concat (pieces (S n) fuel s) = s.
Proof.
  induction fuel as [|fuel IH]; intros s Hlen.
  - assert (s = "") as -> by (apply length_zero; lia). reflexivity.
  - cbn [pieces]. destruct (take (S n) s) eqn:E.
    + apply take_empty in E. subst. reflexivity.
    + rewrite <- E. cbn [concat fold_right]. fold (concat (pieces (S n) fuel (drop (S n) s))).
      rewrite IH.
      * apply take_drop.
      * destruct s as [|c s]; [discriminate|].
        pose proof (length_drop n c s). lia.
Qed.

Lemma pieces_bounds (n fuel : nat) :
  forall s,
    Forall (fun b => b <> "" /\ (String.length b <= S n)%nat) (pieces (S n) fuel s).
Proof.
  induction fuel as [|fuel IH]; intros s; cbn [pieces]; [constructor|].
  destruct (take (S n) s) eqn:E; [constructor|].
  rewrite <- E. constructor; [|apply IH].
  split; [rewrite E; discriminate | apply length_take].
Qed.

(** The loop of [send_file] on a non-empty rest of the file: every block
    is sent, and success is recorded with the last one. *)
Lemma send_loop_sends (fuel : nat) :
  forall (unread : string) (total size : Z) (src : string)
         (resp : utilities.response) (w : world),
    (String.length unread <= fuel)%nat ->
    unread <> "" ->
    total + len unread = size ->
    utilities.send_loop fuel size src unread total resp w
    = (inr (utilities.Pair utilities.NOTIFY_SUCCESS ("File " ++ src ++ " sent.")),
       {| files := files w; dirs := dirs w; sock_in := sock_in w;
          sock_pos := sock_pos w;
          sock_out := (sock_out w
                       ++ pieces (Z.to_nat utilities.BUFFER_SIZE) fuel unread)%list |}).
Proof.
  assert (Z.to_nat utilities.BUFFER_SIZE = S 1023) as Hm by reflexivity.
  revert Hm. generalize (Z.to_nat utilities.BUFFER_SIZE) as m. intros m Hm.
  induction fuel as [|fuel IH]; intros unread total size src resp w Hlen Hne Hsum.
  - assert (unread = "") by (apply length_zero; lia). congruence.
  - cbn [utilities.send_loop pieces]. fold (Z.to_nat utilities.BUFFER_SIZE).
    assert (Z.to_nat utilities.BUFFER_SIZE = m) as -> by (rewrite Hm; reflexivity).
    destruct (take m unread) as [|a b] eqn:E.
    { rewrite Hm in E. apply take_empty in E. congruence. }
    rewrite <- E.
    pose proof (length_take_drop m unread) as Hsplit.
    unfold bind at 1, sendall.
    destruct (total + len (take m unread) =? size) eqn:Hdone.
    + apply Z.eqb_eq in Hdone.
      assert (drop m unread = "") as ->.
      { apply length_zero. unfold len in *. lia. }
      rewrite pieces_empty. reflexivity.
    + apply Z.eqb_neq in Hdone.
      rewrite IH.
      * cbn [files dirs sock_in sock_pos sock_out].
        rewrite <- List.app_assoc. reflexivity.
      * destruct unread as [|c u]; [congruence|].
        rewrite Hm. pose proof (length_drop 1023 c u). lia.
      * intros Hd. rewrite Hd in Hsplit. unfold len in *.
        cbn [String.length] in Hsplit. lia.
      * unfold len in *. lia.
Qed.

(** X8.  [send_file] on a path that is not a regular file (missing, or a
    directory) raises before anything is sent: the world is unchanged. *)
Theorem send_file_needs_a_file (src : string) (want_server_response : bool)
    (w : world) :
  files w !! src = None ->
  exists e, utilities.send_file src want_server_response w = (inl e, w).
Proof.
  intros Hf. unfold utilities.send_file, bind at 1, os_path_getsize. rewrite Hf.
  destruct (is_dir w src); [|eauto].
  unfold bind at 1, utilities.calc_file_md5, bind at 1, open_rb. rewrite Hf.
  destruct (open_check src w); eauto.
Qed.

Lemma send_file_needs_a_file_witness :
  exists e, utilities.send_file "missing.bin" true (incoming ["200"])
            = (inl e, incoming ["200"]).
Proof. apply (send_file_needs_a_file "missing.bin" true (incoming ["200"])). reflexivity. Defined.

End Send.

(** ** From [send_file] to the PUT handler *)

Section RoundTrip.
Import Py World Spec More.

(** *** Splitting a header into its fields *)

Lemma split_go_last (f : string) :
  forall cur, occurs "<>" f = false -> split_go "<>" 0 cur f = [cur ++ f].
Proof.
  induction f as [|c f IH]; intros cur Hocc.
  - cbn [split_go]. rewrite app_empty_r. reflexivity.
  - cbn [occurs] in Hocc. apply orb_false_iff in Hocc as [Hstart Hocc].
    cbn [split_go]. rewrite Hstart, IH by assumption.
    rewrite app_assoc. reflexivity.
Qed.

Lemma startswith_field (c : ascii) (f rest : string) :
  startswith "<>" (String c f) = false ->
  startswith "<>" (String c (f ++ "<>" ++ rest)) = false.
Proof.
  cbn [startswith]. destruct (Ascii.eqb "<" c); [|reflexivity]. cbn [andb].
  destruct f as [|d f].
  - intros _. reflexivity.
  - rewrite app_cons. cbn [startswith]. intros H. exact H.
Qed.

Lemma split_go_field (f : string) :
  forall cur rest,
    occurs "<>" f = false ->
    split_go "<>" 0 cur (f ++ "<>" ++ rest)
    = (cur ++ f) :: split_go "<>" 0 "" rest.
Proof.
  induction f as [|c f IH]; intros cur rest Hocc.
  - change ("" ++ "<>" ++ rest) with (String "<" (String ">" rest)).
    cbn [split_go startswith Ascii.eqb]. rewrite app_empty_r. reflexivity.
  - cbn [occurs] in Hocc. apply orb_false_iff in Hocc as [Hstart Hocc].
    rewrite app_cons. cbn [split_go].
    rewrite (startswith_field c f rest Hstart), IH by assumption.
    rewrite app_assoc. reflexivity.
Qed.

(** A header splits into its four fields when no field contains the
    separator. *)
Lemma split_header (a b c d : string) :
  occurs "<>" a = false -> occurs "<>" b = false ->
  occurs "<>" c = false -> occurs "<>" d = false ->
  split "<>" (a ++ "<>" ++ b ++ "<>" ++ c ++ "<>" ++ d) = [a; b; c; d].
Proof.
  intros Ha Hb Hc Hd. unfold split.
  rewrite !split_go_field, split_go_last by assumption. reflexivity.
Qed.

(** *** Plain characters *)

Lemma all_chars_impl (P Q : ascii -> bool) (s : string) :
  (forall c, P c = true -> Q c = true) ->
  all_chars P s = true -> all_chars Q s = true.
Proof.
  intros HPQ. induction s as [|c s IH]; [reflexivity|].
  cbn [all_chars]. intros H. apply andb_prop in H as [Hc Hs].
  rewrite (HPQ c Hc), IH by assumption. reflexivity.
Qed.

Lemma plain_no_separator (s : string) :
  all_chars is_plain s = true -> occurs "<>" s = false.
Proof.
  induction s as [|c s IH]; [reflexivity|].
  cbn [all_chars occurs]. intros H. apply andb_prop in H as [Hc Hs].
  rewrite IH by assumption. rewrite orb_false_r.
  cbn [startswith]. unfold is_plain in Hc. apply andb_prop in Hc as [_ Hc].
  rewrite Ascii.eqb_sym. apply negb_true_iff in Hc. rewrite Hc. reflexivity.
Qed.

Lemma byte_values_app (a b : string) :
  byte_values (a ++ b) = (byte_values a ++ byte_values b)%list.
Proof.
  induction a as [|c a IH]; [reflexivity|].
  rewrite app_cons. unfold byte_values in *. cbn [list_ascii_of_string map].
  rewrite IH. reflexivity.
Qed.

Lemma plain_utf8 (s : string) :
  all_chars is_plain s = true -> utf8_valid (byte_values s) = true.
Proof.
  induction s as [|c s IH]; [reflexivity|].
  cbn [all_chars]. intros H. apply andb_prop in H as [Hc Hs].
  unfold byte_values in *. cbn [list_ascii_of_string map utf8_valid].
  unfold is_plain in Hc. apply andb_prop in Hc as [Hc _].
  rewrite Hc. apply IH. assumption.
Qed.

(** Well-formed UTF-8 followed by well-formed UTF-8 is well-formed. *)
Lemma utf8_valid_app (l2 : list Z) (n : nat) :
  forall l1 : list Z,
    (length l1 <= n)%nat -> utf8_valid l1 = true ->
    utf8_valid (l1 ++ l2) = utf8_valid l2.
Proof.
  induction n as [|n IH]; intros l1 Hlen Hvalid.
  - destruct l1; [reflexivity | cbn in Hlen; lia].
  - destruct l1 as [|b0 l1]; [reflexivity|].
    rewrite <- app_comm_cons. cbn [utf8_valid] in *. cbn [length] in Hlen.
    destruct (b0 <=? 127); [apply IH; [lia | assumption]|].
    destruct (between 194 223 b0).
    { destruct l1 as [|b1 l1]; [discriminate|].
      rewrite <- app_comm_cons. apply andb_prop in Hvalid as [H1 Hvalid].
      rewrite H1. cbn [andb length] in *. apply IH; [lia | assumption]. }
    destruct (between 224 239 b0).
    { destruct l1 as [|b1 [|b2 l1]]; try discriminate.
      rewrite <- !app_comm_cons.
      apply andb_prop in Hvalid as [H1 Hvalid]. apply andb_prop in H1 as [H1 H2].
      rewrite H1, H2. cbn [andb length] in *. apply IH; [lia | assumption]. }
    destruct (between 240 244 b0); [|discriminate].
    destruct l1 as [|b1 [|b2 [|b3 l1]]]; try discriminate.
    rewrite <- !app_comm_cons.
    apply andb_prop in Hvalid as [H1 Hvalid]. apply andb_prop in H1 as [H1 H3].
    apply andb_prop in H1 as [H1 H2].
    rewrite H1, H2, H3. cbn [andb length] in *. apply IH; [lia | assumption].
Qed.

Lemma utf8_app (a b : string) :
  utf8_valid (byte_values a) = true -> utf8_valid (byte_values b) = true ->
  utf8_valid (byte_values (a ++ b)) = true.
Proof.
  intros Ha Hb. rewrite byte_values_app.
  rewrite (utf8_valid_app (byte_values b) (length (byte_values a)));
    [assumption | lia | assumption].
Qed.

(** *** The size field: [int(str(n)) = n] *)

Lemma digit_char_is_digit (k : nat) :
  (k < 10)%nat -> digit_of (digit_char (Z.of_nat k)) = Some (Z.of_nat k).
Proof. do 10 (destruct k as [|k]; [reflexivity|]). lia. Qed.

Lemma digit_of_digit_char (d : Z) :
  0 <= d < 10 -> digit_of (digit_char d) = Some d.
Proof.
  intros Hd. rewrite <- (Z2Nat.id d) by lia. apply digit_char_is_digit. lia.
Qed.

Lemma digit_is_plain (c : ascii) : is_digit c = true -> is_plain c = true.
Proof.
  unfold is_digit, digit_of, is_plain.
  destruct c as [[] [] [] [] [] [] [] []]; cbn; intros H; try discriminate H;
    reflexivity.
Qed.

Lemma digit_is_not_space (c : ascii) : is_digit c = true -> is_space c = false.
Proof.
  unfold is_digit, digit_of, is_space.
  destruct c as [[] [] [] [] [] [] [] []]; cbn; intros H; try discriminate H;
    reflexivity.
Qed.

Lemma str_of_pos_go_digits (fuel : nat) :
  forall n acc,
    0 <= n -> all_chars is_digit acc = true ->
    all_chars is_digit (str_of_pos_go fuel n acc) = true.
Proof.
  induction fuel as [|fuel IH]; intros n acc Hn Hacc; [assumption|].
  cbn [str_of_pos_go].
  assert (all_chars is_digit (String (digit_char (n mod 10)) acc) = true) as Hacc'.
  { cbn [all_chars]. rewrite Hacc. unfold is_digit.
    rewrite digit_of_digit_char; [reflexivity|].
    apply Z.mod_pos_bound. lia. }
  destruct (n / 10 =? 0); [assumption|].
  apply IH; [apply Z.div_pos; lia | assumption].
Qed.

(** Parsing what [str_of_pos_go] wrote appends the digits of [n] to the
    number read so far. *)
Lemma str_of_pos_go_parse (fuel : nat) :
  forall n acc,
    0 <= n < 2 ^ Z.of_nat (S fuel) ->
    exists p, forall a b,
      digits_go b a (str_of_pos_go (S fuel) n acc) = digits_go true (a * p + n) acc.
Proof.
  induction fuel as [|fuel IH]; intros n acc Hn.
  - exists 10. intros a b. change (2 ^ Z.of_nat 1) with 2 in Hn.
    cbn [str_of_pos_go]. destruct (n / 10 =? 0); cbn [str_of_pos_go digits_go];
      rewrite Z.mod_small, digit_of_digit_char by lia; f_equal; lia.
  - cbn [str_of_pos_go].
    assert (0 <= n mod 10 < 10) as Hmod by (apply Z.mod_pos_bound; lia).
    destruct (n / 10 =? 0) eqn:Hdiv.
    + exists 10. intros a b. cbn [digits_go].
      rewrite digit_of_digit_char by assumption.
      apply Z.eqb_eq in Hdiv.
      pose proof (Z.div_mod n 10 ltac:(lia)). f_equal. lia.
    + apply Z.eqb_neq in Hdiv.
      destruct (IH (n / 10) (String (digit_char (n mod 10)) acc)) as (p & Hp).
      { split; [apply Z.div_pos; lia|].
        apply Z.div_lt_upper_bound; [lia|].
        rewrite Nat2Z.inj_succ, Z.pow_succ_r in Hn by lia.
        pose proof (Z.pow_pos_nonneg 2 (Z.of_nat (S fuel)) ltac:(lia) ltac:(lia)).
        lia. }
      exists (10 * p). intros a b. rewrite Hp. cbn [digits_go].
      rewrite digit_of_digit_char by assumption.
      pose proof (Z.div_mod n 10 ltac:(lia)). f_equal. lia.
Qed.

Lemma lstrip_digits (s : string) : all_chars is_digit s = true -> lstrip s = s.
Proof.
  destruct s as [|c s]; [reflexivity|]. cbn [all_chars lstrip]. intros H.
  apply andb_prop in H as [Hc _]. rewrite (digit_is_not_space c Hc). reflexivity.
Qed.

Lemma rstrip_digits (s : string) : all_chars is_digit s = true -> rstrip s = s.
Proof.
  induction s as [|c s IH]; [reflexivity|]. cbn [all_chars rstrip]. intros H.
  apply andb_prop in H as [Hc Hs]. rewrite IH by assumption.
  destruct s; [rewrite (digit_is_not_space c Hc)|]; reflexivity.
Qed.

Lemma int_of_digits (s : string) (n : Z) :
  all_chars is_digit s = true -> digits_go false 0 s = Some n -> int s = inr n.
Proof.
  intros Hd Hparse. unfold int. rewrite lstrip_digits, rstrip_digits by assumption.
  destruct s as [|c s]; [discriminate|].
  cbn [all_chars] in Hd. apply andb_prop in Hd as [Hc _].
  revert Hparse. unfold is_digit, digit_of in Hc.
  destruct c as [[] [] [] [] [] [] [] []]; cbn in Hc; try discriminate Hc;
    intros ->; reflexivity.
Qed.

Lemma str_of_int_digits (n : Z) :
  0 <= n -> all_chars is_digit (str_of_int n) = true.
Proof.
  intros Hn. unfold str_of_int.
  assert ((n <? 0) = false) as -> by lia.
  apply str_of_pos_go_digits; [assumption | reflexivity].
Qed.

(** The decimal text of a size parses back to the size. *)
Lemma int_str_of_int (n : Z) : 0 <= n -> int (str_of_int n) = inr n.
Proof.
  intros Hn. apply int_of_digits; [apply str_of_int_digits; assumption|].
  unfold str_of_int. assert ((n <? 0) = false) as -> by lia.
  rewrite Nat.add_1_r.
  destruct (str_of_pos_go_parse (Z.to_nat (Z.log2 n)) n "") as (p & Hp).
  { split; [assumption|].
    rewrite Nat2Z.inj_succ, Z2Nat.id by apply Z.log2_nonneg.
    destruct (Z.eq_dec n 0) as [-> | Hne]; [reflexivity|].
    apply Z.log2_spec. lia. }
  rewrite Hp. cbn [digits_go]. rewrite Z.mul_0_l, Z.add_0_l. reflexivity.
Qed.

(** *** The hash field *)

Lemma hex_char_plain (k : nat) :
  (k < 16)%nat -> is_plain (MD5.hex_char (Z.of_nat k)) = true.
Proof. do 16 (destruct k as [|k]; [reflexivity|]). lia. Qed.

Lemma hex_plain (l : list Z) :
  Forall (fun b => 0 <= b < 256) l -> all_chars is_plain (MD5.hex l) = true.
Proof.
  induction 1 as [|b l Hb _ IH]; [reflexivity|].
  cbn [MD5.hex all_chars]. rewrite IH, andb_true_r.
  assert (0 <= Z.shiftr b 4 < 16) as H1.
  { rewrite Z.shiftr_div_pow2 by lia. change (2 ^ 4) with 16.
    split; [apply Z.div_pos; lia | apply Z.div_lt_upper_bound; lia]. }
  assert (0 <= Z.land b 15 < 16) as H2.
  { change 15 with (Z.ones 4). rewrite Z.land_ones by lia.
    apply Z.mod_pos_bound. reflexivity. }
  rewrite <- (Z2Nat.id (Z.shiftr b 4)), <- (Z2Nat.id (Z.land b 15)) by lia.
  rewrite !hex_char_plain by lia. reflexivity.
Qed.

Lemma le_bytes_range (n : nat) :
  forall x, Forall (fun b => 0 <= b < 256) (MD5.le_bytes n x).
Proof.
  induction n as [|n IH]; intros x; cbn [MD5.le_bytes]; constructor; [|apply IH].
  change 255 with (Z.ones 8). rewrite Z.land_ones by lia.
  apply Z.mod_pos_bound. reflexivity.
Qed.

(** A digest is made of 7-bit characters other than '<'. *)
Lemma hexdigest_plain (data : string) :
  all_chars is_plain (MD5.hexdigest data) = true.
Proof.
  unfold MD5.hexdigest, MD5.digest. apply hex_plain.
  repeat (apply Forall_app; split); apply le_bytes_range.
Qed.

Lemma basename_basename (p : string) : basename (basename p) = basename p.
Proof. unfold basename at 1. apply basename_from_no_slash, basename_no_slash. Qed.

(** *** The transfer *)

Lemma reads_are_cons (reads : nat -> string) (from : nat) (m : string)
    (l : list string) :
  reads_are reads from (m :: l) ->
  reads from = m /\ reads_are reads (S from) l.
Proof.
  intros H. split.
  - rewrite <- (H O m eq_refl). f_equal. lia.
  - intros i x Hx. rewrite <- (H (S i) x Hx). f_equal. lia.
Qed.

Lemma delivered_reads (reads : nat -> string) (l : list string) :
  forall from,
    reads_are reads from l -> delivered reads from (length l) = concat l.
Proof.
  induction l as [|m l IH]; intros from H; [reflexivity|].
  apply reads_are_cons in H as [Hm Hl].
  cbn [length delivered concat fold_right]. rewrite Hm, (IH _ Hl). reflexivity.
Qed.

(** How [handle] ends once the PUT handler has returned a message. *)
Lemma handle_put_run (self : storage_node.handler) (w w2 : world)
    (received m : string) (args : list string) :
  decode (sock_in w (sock_pos w)) = inr received ->
  split storage_node.SEPARATOR received = storage_node.PUT_REQUEST :: args ->
  storage_node.do_put_handler self args (snd (recv storage_node.BUFFER_SIZE w))
  = (inr (storage_node.Str m), w2) ->
  storage_node.handle self w
  = (inr tt,
     {| files := files w2; dirs := dirs w2; sock_in := sock_in w2;
        sock_pos := sock_pos w2; sock_out := (sock_out w2 ++ [m])%list |}).
Proof.
  intros Hdec Hsplit Hput.
  unfold storage_node.handle, bind at 1. unfold recv at 1.
  unfold bind at 1, lift. cbn [sock_in sock_pos]. rewrite Hdec.
  unfold bind at 1. rewrite Hsplit. cbn [utilities.index nth_error tl].
  change (String.eqb storage_node.PUT_REQUEST storage_node.GET_REQUEST) with false.
  change (String.eqb storage_node.PUT_REQUEST storage_node.PUT_REQUEST) with true.
  cbn match. unfold bind at 1.
  unfold recv in Hput. cbn [snd] in Hput. rewrite Hput. reflexivity.
Qed.

Lemma put_header_decodes (name data : string) (n : Z) :
  0 <= n ->
  utf8_valid (byte_values name) = true ->
  decode (put_header name n (MD5.hexdigest data))
  = inr (put_header name n (MD5.hexdigest data)).
Proof.
  intros Hn Hname. unfold decode.
  assert (utf8_valid (byte_values (put_header name n (MD5.hexdigest data))) = true)
    as ->; [|reflexivity].
  unfold put_header.
  repeat (apply utf8_app; [first [reflexivity | assumption | idtac]|]).
  - apply plain_utf8. eapply all_chars_impl; [apply digit_is_plain|].
    apply str_of_int_digits. assumption.
  - apply plain_utf8, hexdigest_plain.
Qed.

Lemma put_header_splits (name data : string) (n : Z) :
  0 <= n ->
  occurs "<>" name = false ->
  split storage_node.SEPARATOR (put_header name n (MD5.hexdigest data))
  = [storage_node.PUT_REQUEST; name; str_of_int n; MD5.hexdigest data].
Proof.
  intros Hn Hname. unfold put_header.
  apply (split_header utilities.PUT_REQUEST name (str_of_int n) (MD5.hexdigest data)).
  - reflexivity.
  - assumption.
  - apply plain_no_separator. eapply all_chars_impl; [apply digit_is_plain|].
    apply str_of_int_digits. assumption.
  - apply plain_no_separator, hexdigest_plain.
Qed.

(** The header of [send_file] has an encoding when the base name has. *)
Lemma put_header_utf8 (name data : string) (n : Z) :
  0 <= n ->
  utf8_valid (byte_values name) = true ->
  utf8_valid (byte_values (put_header name n (MD5.hexdigest data))) = true.
Proof.
  intros Hn Hname. unfold put_header.
  repeat (apply utf8_app; [first [reflexivity | assumption | idtac]|]).
  - apply plain_utf8. eapply all_chars_impl; [apply digit_is_plain|].
    apply str_of_int_digits. assumption.
  - apply plain_utf8, hexdigest_plain.
Qed.

(** The blocks of a file are its content, cut into non-empty pieces that
    fit the buffer. *)
Lemma blocks_content (content : string) :
  concat (blocks content) = content /\
  Forall (fun b => b <> "" /\ len b <= utilities.BUFFER_SIZE) (blocks content).
Proof.
  split.
  - unfold blocks. change (Z.to_nat utilities.BUFFER_SIZE) with (S 1023).
    apply pieces_concat. lia.
  - unfold blocks. change (Z.to_nat utilities.BUFFER_SIZE) with (S 1023).
    eapply Forall_impl; [apply pieces_bounds|].
    intros b [Hb Hl]. split; [assumption|].
    unfold len, utilities.BUFFER_SIZE. lia.
Qed.

(** The run of [send_file] without a server response on a readable file
    whose base name has an encoding. *)
Lemma send_file_run (src content : string) (w : world) :
  files w !! src = Some content ->
  open_check src w = None ->
  len content <= sys_maxsize ->
  utf8_valid (byte_values (basename src)) = true ->
  utilities.send_file src false w
  = (inr (match content with
          | EmptyString => utilities.Pair utilities.NOTIFY_FAILURE "Operation failed!"
          | _ => utilities.Pair utilities.NOTIFY_SUCCESS ("File " ++ src ++ " sent.")
          end),
     {| files := files w; dirs := dirs w; sock_in := sock_in w;
        sock_pos := sock_pos w;
        sock_out := (sock_out w
                     ++ put_header (basename src) (len content)
                          (MD5.hexdigest content)
                        :: blocks content)%list |}).
Proof.
  intros Hf Hc Hmax Hutf.
  unfold utilities.send_file, bind at 1, os_path_getsize. rewrite Hf.
  unfold bind at 1. rewrite (calc_file_md5_content src content w Hc Hf).
  unfold bind at 1, lift, encode.
  change (utilities.PUT_REQUEST ++ utilities.SEPARATOR ++ basename src
          ++ utilities.SEPARATOR ++ str_of_int (len content)
          ++ utilities.SEPARATOR ++ MD5.hexdigest content)
    with (put_header (basename src) (len content) (MD5.hexdigest content)).
  rewrite (put_header_utf8 _ _ _ (len_nonneg content) Hutf).
  unfold bind at 1, sendall. unfold bind at 1, lift, tqdm_range, len_range.
  apply Z.ltb_ge in Hmax. rewrite Hmax.
  unfold bind at 1.
  match goal with
  | |- context [open_rb src ?w1] =>
      rewrite (open_rb_content src content w1 Hc Hf)
  end.
  unfold bind at 1.
  assert (Z.to_nat (len content) = String.length content) as ->
    by (unfold len; lia).
  destruct content as [|c content].
  - cbn [String.length utilities.send_loop]. unfold ret, blocks.
    cbn [String.length pieces]. reflexivity.
  - rewrite send_loop_sends; [|lia|discriminate|lia].
    unfold blocks. cbn [files dirs sock_in sock_pos sock_out].
    rewrite <- List.app_assoc. reflexivity.
Qed.

(** X7.  [send_file] on a readable file whose base name has a UTF-8
    encoding sends the header PUT_REQUEST<>base name<>size<>md5 and then
    the whole content in blocks of at most 1024 bytes, none of them empty,
    and nothing else; without a server response it returns the success pair
    for a non-empty file (and the initial failure pair for an empty one, see
    C4).  The file is not changed. *)
Theorem send_file_sends_header_and_content (src content : string) (w : world) :
  files w !! src = Some content ->
  open_check src w = None ->
  len content <= sys_maxsize ->
  utf8_valid (byte_values (basename src)) = true ->
  utilities.send_file src false w
  = (inr (match content with
          | EmptyString => utilities.Pair utilities.NOTIFY_FAILURE "Operation failed!"
          | _ => utilities.Pair utilities.NOTIFY_SUCCESS ("File " ++ src ++ " sent.")
          end),
     {| files := files w; dirs := dirs w; sock_in := sock_in w;
        sock_pos := sock_pos w;
        sock_out := (sock_out w
                     ++ put_header (basename src) (len content)
                          (MD5.hexdigest content)
                        :: blocks content)%list |}) /\
  concat (blocks content) = content /\
  Forall (fun b => b <> "" /\ len b <= utilities.BUFFER_SIZE) (blocks content).
Proof.
  intros Hf Hc Hmax Hutf. split.
  - apply send_file_run; assumption.
  - apply blocks_content.
Qed.

Lemma send_file_sends_header_and_content_witness :
  utilities.send_file "docs/a.bin" false
    (set_files {[ "docs/a.bin" := "abc" ]} (set_dirs {[ "docs" ]} (incoming [])))
  = (inr (utilities.Pair utilities.NOTIFY_SUCCESS "File docs/a.bin sent."),
     {| files := {[ "docs/a.bin" := "abc" ]}; dirs := {[ "docs" ]};
        sock_in := sock_in (incoming []); sock_pos := 0;
        sock_out := ([] ++ put_header (basename "docs/a.bin") (len "abc")
                              (MD5.hexdigest "abc")
                     :: blocks "abc")%list |}).
Proof.
  assert (open_check "docs/a.bin"
            (set_files {[ "docs/a.bin" := "abc" ]}
               (set_dirs {[ "docs" ]} (incoming []))) = None) as Hc
    by (vm_compute; reflexivity).
  assert (len "abc" <= sys_maxsize) as Hmax by (vm_compute; discriminate).
  exact (proj1 (send_file_sends_header_and_content "docs/a.bin" "abc"
                  (set_files {[ "docs/a.bin" := "abc" ]}
                     (set_dirs {[ "docs" ]} (incoming [])))
                  eq_refl Hc Hmax eq_refl)).
Defined.

(** X9.  What [send_file] sends is what the PUT handler stores.  Let
    [send_file] run on a readable file whose base name is valid UTF-8 and
    does not contain the separator "<>", and let a storage node receive the
    messages it sent, one per read, each fitting the receive buffer (the
    blocks always do, the header does when the name is short enough).  If
    the node can set up the transfer,
    [handle] stores exactly the content of the file under the storage
    directory and the base name, answers TRANSFER_SUCCESSFUL and returns
    normally.  This holds for the empty file too. *)
Theorem sent_file_is_stored (self : storage_node.handler)
    (src content : string) (sent : list string) (ws wr wr0 : world)
    (progress : nat) :
  files ws !! src = Some content ->
  open_check src ws = None ->
  len content <= sys_maxsize ->
  utf8_valid (byte_values (basename src)) = true ->
  occurs "<>" (basename src) = false ->
  sock_out (snd (utilities.send_file src false ws)) = (sock_out ws ++ sent)%list ->
  Forall (fun m => len m <= storage_node.BUFFER_SIZE) sent ->
  reads_are (sock_in wr) (sock_pos wr) sent ->
  storage_node.do_put_setup self (basename src) (len content)
    (snd (recv storage_node.BUFFER_SIZE wr)) = (inr progress, wr0) ->
  fst (storage_node.handle self wr) = inr tt /\
  files (snd (storage_node.handle self wr))
    !! (storage_node.STORAGE_DIR self ++ "/" ++ basename src) = Some content /\
  sock_out (snd (storage_node.handle self wr))
  = (sock_out wr ++ [storage_node.TRANSFER_SUCCESSFUL_CODE])%list.
Proof.
  intros Hf Hc Hmax Hutf Hsep Hsent _ Hreads Hsetup.
  pose proof (send_file_run src content ws Hf Hc Hmax Hutf) as Hsend.
  destruct (blocks_content content) as (Hconcat & Hblocks).
  rewrite Hsend in Hsent. cbn [snd sock_out] in Hsent.
  apply app_inv_head in Hsent. subst sent.
  apply reads_are_cons in Hreads as [Hhead Hreads].
  pose proof (len_nonneg content) as Hlen.
  set (w1 := snd (recv storage_node.BUFFER_SIZE wr)) in *.
  assert (sock_in w1 = sock_in wr /\ sock_pos w1 = S (sock_pos wr)
          /\ sock_out w1 = sock_out wr) as (Hin1 & Hpos1 & Hout1)
    by (split; [|split]; reflexivity).
  destruct (do_put_setup_inv _ _ _ _ _ _ Hsetup) as (_ & _ & Hout0 & _).
  assert (storage_node.do_put_handler self
            [basename src; str_of_int (len content); MD5.hexdigest content] w1
          = (inr (storage_node.Str storage_node.TRANSFER_SUCCESSFUL_CODE),
             transferred wr0 (destination self (basename src))
               (delivered (sock_in w1) (sock_pos w1) (length (blocks content)))
               (length (blocks content)))) as Hput.
  { apply (do_put_handler_complete self (basename src) (str_of_int (len content))
             (MD5.hexdigest content) (len content) (length (blocks content))
             progress w1 wr0).
    - apply int_str_of_int. assumption.
    - rewrite basename_basename. exact Hsetup.
    - intros i Hi. rewrite Hin1, Hpos1.
      destruct (lookup_lt_is_Some_2 (blocks content) i Hi) as [b Hb].
      rewrite (Hreads i b Hb).
      rewrite Forall_forall in Hblocks.
      apply (Hblocks b). apply list_elem_of_lookup. eauto.
    - rewrite Hin1, Hpos1, (delivered_reads _ _ _ Hreads), Hconcat. reflexivity.
    - rewrite Hin1, Hpos1, (delivered_reads _ _ _ Hreads), Hconcat. reflexivity. }
  rewrite (handle_put_run self wr
             (transferred wr0 (destination self (basename src))
                (delivered (sock_in w1) (sock_pos w1) (length (blocks content)))
                (length (blocks content)))
             (put_header (basename src) (len content) (MD5.hexdigest content))
             storage_node.TRANSFER_SUCCESSFUL_CODE
             [basename src; str_of_int (len content); MD5.hexdigest content]).
  - cbn [fst snd files sock_out]. split; [reflexivity|]. split.
    + unfold transferred, destination. cbn [files].
      rewrite basename_basename.
      rewrite Hin1, Hpos1, (delivered_reads _ _ _ Hreads), Hconcat.
      apply lookup_insert_eq.
    + unfold transferred. cbn [sock_out]. rewrite Hout0, Hout1. reflexivity.
  - rewrite Hhead. apply put_header_decodes; assumption.
  - apply put_header_splits; assumption.
  - exact Hput.
Qed.

Lemma sent_file_is_stored_witness :
  fst (storage_node.handle node
         (incoming ["<PUT_REQUEST><>a.bin<>3<>900150983cd24fb0d6963f7d28e17f72";
                    "abc"])) = inr tt /\
  files (snd (storage_node.handle node
                (incoming ["<PUT_REQUEST><>a.bin<>3<>900150983cd24fb0d6963f7d28e17f72";
                           "abc"])))
    !! (storage_node.STORAGE_DIR node ++ "/" ++ basename "docs/a.bin") = Some "abc" /\
  sock_out (snd (storage_node.handle node
                   (incoming ["<PUT_REQUEST><>a.bin<>3<>900150983cd24fb0d6963f7d28e17f72";
                              "abc"])))
  = (sock_out (incoming ["<PUT_REQUEST><>a.bin<>3<>900150983cd24fb0d6963f7d28e17f72";
                         "abc"])
     ++ [storage_node.TRANSFER_SUCCESSFUL_CODE])%list.
Proof.
  set (ws := set_files {[ "docs/a.bin" := "abc" ]}
               (set_dirs {[ "docs" ]} (incoming []))).
  set (wr := incoming ["<PUT_REQUEST><>a.bin<>3<>900150983cd24fb0d6963f7d28e17f72";
                      "abc"]).
  assert (open_check "docs/a.bin" ws = None) as Hc by (vm_compute; reflexivity).
  assert (len "abc" <= sys_maxsize) as Hmax by (vm_compute; discriminate).
  assert (sock_out (snd (utilities.send_file "docs/a.bin" false ws))
          = (sock_out ws
             ++ ["<PUT_REQUEST><>a.bin<>3<>900150983cd24fb0d6963f7d28e17f72"; "abc"])%list)
    as Hsent by (vm_compute; reflexivity).
  assert (reads_are (sock_in wr) (sock_pos wr)
            ["<PUT_REQUEST><>a.bin<>3<>900150983cd24fb0d6963f7d28e17f72"; "abc"])
    as Hreads.
  { intros i m Hi. destruct i as [|[|i]]; cbn in Hi; try discriminate Hi;
      injection Hi as <-; reflexivity. }
  assert (storage_node.do_put_setup node (basename "docs/a.bin") (len "abc")
            (snd (recv storage_node.BUFFER_SIZE wr))
          = (inr 3%nat,
             set_files {[ "storage_0.0.0.0_5000/a.bin" := "" ]}
               (set_dirs {[ "storage_0.0.0.0_5000" ]}
                  (snd (recv storage_node.BUFFER_SIZE wr))))) as Hsetup
    by (vm_compute; reflexivity).
  assert (Forall (fun m => len m <= storage_node.BUFFER_SIZE)
            ["<PUT_REQUEST><>a.bin<>3<>900150983cd24fb0d6963f7d28e17f72"; "abc"])
    as Hfit by (repeat constructor; vm_compute; discriminate).
  exact (sent_file_is_stored node "docs/a.bin" "abc" _ ws wr _ 3
           eq_refl Hc Hmax eq_refl eq_refl Hsent Hfit Hreads Hsetup).
Defined.

End RoundTrip.

(** ** The client side: [receive_file] *)

Section Client.
Import Py World Spec More.


Lemma os_makedirs_inv (p : string) (w wm : world) :
  os_makedirs p w = (inr tt, wm) ->
  files wm = files w /\ sock_in wm = sock_in w /\ sock_pos wm = sock_pos w /\
  sock_out wm = sock_out w.
Proof.
  unfold os_makedirs.
  repeat match goal with
         | |- context [if ?b then _ else _] => destruct b
         end; intros [= <-]; auto.
Qed.

(** After [receive_file_from_sock] has returned, the destination is a
    readable file that holds the bytes of the reads made. *)
Lemma receive_file_from_sock_inv (dest file_hash : string) (n : Z)
    (w w' : world) :
  utilities.receive_file_from_sock dest n file_hash w = (inr tt, w') ->
  exists k, (k <= Z.to_nat n)%nat /\
    open_check dest w' = None /\
    files w' !! dest = Some (delivered (sock_in w) (sock_pos w) k) /\
    sock_in w' = sock_in w /\ sock_pos w' = (sock_pos w + k)%nat /\
    sock_out w' = sock_out w.
Proof.
  unfold utilities.receive_file_from_sock, try_except, bind at 1, lift,
    tqdm_range, len_range.
  destruct (sys_maxsize <? n); [discriminate|].
  unfold bind at 1, os_path_exists. set (present := negb _ && _).
  assert (forall wm,
            files wm = files w -> sock_in wm = sock_in w ->
            sock_pos wm = sock_pos w -> sock_out wm = sock_out w ->
            match (open_wb dest ;;
                   _ <- utilities.receive_loop (Z.to_nat n) n dest 0 ;; ret tt) wm with
            | (inl e, w1) => raise e w1
            | (inr a, w1) => (inr a, w1)
            end = (inr tt, w') ->
            exists k, (k <= Z.to_nat n)%nat /\
              open_check dest w' = None /\
              files w' !! dest = Some (delivered (sock_in w) (sock_pos w) k) /\
              sock_in w' = sock_in w /\ sock_pos w' = (sock_pos w + k)%nat /\
              sock_out w' = sock_out w) as Hrest.
  { intros wm Hf Hin Hp Hout. unfold bind at 1.
    destruct (open_wb dest wm) as [[e|[]] w1] eqn:Hopen; [discriminate|].
    apply open_wb_inv in Hopen as [Hc ->].
    unfold bind at 1.
    destruct (receive_loop_spec (Z.to_nat n) n dest 0
                (set_files (<[dest := ""]> (files wm)) wm) "") as (k & Hk & Hrun).
    { unfold set_files. cbn [files]. apply lookup_insert_eq. }
    rewrite Hrun. unfold ret. intros [= <-]. exists k.
    unfold set_files. cbn [files dirs sock_in sock_pos sock_out].
    rewrite insert_insert_eq, Hin, Hp, Hout.
    split; [assumption|]. split; [|split; [|auto]].
    - eapply (open_check_written dest);
        [exact Hc | reflexivity | cbn [files]; reflexivity].
    - rewrite lookup_insert_eq. reflexivity. }
  destruct present.
  - unfold bind at 1, ret. apply Hrest; reflexivity.
  - unfold bind at 1.
    destruct (os_makedirs (dirname dest) w) as [[e|[]] wm] eqn:Hmk; [discriminate|].
    apply os_makedirs_inv in Hmk as (Hf & Hin & Hp & Hout).
    apply Hrest; assumption.
Qed.

(** The GET request has an encoding when the base name has. *)
Lemma get_request_encodes (dest : string) :
  utf8_valid (byte_values (basename dest)) = true ->
  encode (utilities.GET_REQUEST ++ utilities.SEPARATOR ++ basename dest)
  = inr (utilities.GET_REQUEST ++ utilities.SEPARATOR ++ basename dest).
Proof.
  intros Hutf. unfold encode.
  assert (utf8_valid
            (byte_values (utilities.GET_REQUEST ++ utilities.SEPARATOR
                          ++ basename dest)) = true) as ->; [|reflexivity].
  repeat (apply utf8_app; [first [reflexivity | assumption | idtac]|]).
  assumption.
Qed.

(** X10.  When the base name of the destination has a UTF-8 encoding and
    the peer answers the GET request with anything whose first field is
    neither NOTIFY_FAILURE nor PUT_REQUEST, or closes without an answer,
    [receive_file] returns the pair (NOTIFY_FAILURE, "Operation not
    supported"): it has sent the request GET_REQUEST<>base name, read one
    message, and written nothing. *)
Theorem receive_file_rejects_other_responses (sockname dest : string)
    (w : world) (received response_type : string) :
  utf8_valid (byte_values (basename dest)) = true ->
  decode (sock_in w (sock_pos w)) = inr received ->
  utilities.index (split utilities.SEPARATOR received) 0 = inr response_type ->
  response_type <> utilities.NOTIFY_FAILURE ->
  response_type <> utilities.PUT_REQUEST ->
  utilities.receive_file sockname dest w
  = (inr (utilities.Pair utilities.NOTIFY_FAILURE "Operation not supported"),
     asked dest w).
Proof.
  intros Hutf Hdec Hfirst Hfail Hput.
  unfold utilities.receive_file, bind at 1, lift.
  rewrite (get_request_encodes dest Hutf).
  unfold bind at 1, sendall.
  unfold bind at 1, recv. cbn [sock_in sock_pos].
  unfold bind at 1, lift. rewrite Hdec.
  unfold bind at 1. rewrite Hfirst.
  apply String.eqb_neq in Hfail, Hput. rewrite Hfail, Hput. reflexivity.
Qed.

Lemma receive_file_rejects_other_responses_witness :
  utilities.receive_file "('0.0.0.0', 6000)" "received_files/report.txt"
    (incoming [])
  = (inr (utilities.Pair utilities.NOTIFY_FAILURE "Operation not supported"),
     asked "received_files/report.txt" (incoming [])).
Proof.
  apply (receive_file_rejects_other_responses "('0.0.0.0', 6000)"
           "received_files/report.txt" (incoming []) "" "");
    [reflexivity | reflexivity | reflexivity | discriminate | discriminate].
Defined.

(** X11.  When the base name of the destination has a UTF-8 encoding and
    the peer answers NOTIFY_FAILURE<>message, [receive_file] returns the
    pair (NOTIFY_FAILURE, message) and writes nothing. *)
Theorem receive_file_passes_failure_on (sockname dest : string)
    (w : world) (received msg : string) :
  utf8_valid (byte_values (basename dest)) = true ->
  decode (sock_in w (sock_pos w)) = inr received ->
  utilities.index (split utilities.SEPARATOR received) 0
  = inr utilities.NOTIFY_FAILURE ->
  utilities.index (split utilities.SEPARATOR received) 1 = inr msg ->
  utilities.receive_file sockname dest w
  = (inr (utilities.Pair utilities.NOTIFY_FAILURE msg), asked dest w).
Proof.
  intros Hutf Hdec Hfirst Hmsg.
  unfold utilities.receive_file, bind at 1, lift.
  rewrite (get_request_encodes dest Hutf).
  unfold bind at 1, sendall.
  unfold bind at 1, recv. cbn [sock_in sock_pos].
  unfold bind at 1, lift. rewrite Hdec.
  unfold bind at 1. rewrite Hfirst.
  change (String.eqb utilities.NOTIFY_FAILURE utilities.NOTIFY_FAILURE) with true.
  cbn match. unfold bind at 1. rewrite Hmsg. reflexivity.
Qed.

Lemma receive_file_passes_failure_on_witness :
  utilities.receive_file "('0.0.0.0', 6000)" "received_files/report.txt"
    (incoming ["<NOTIFY_FAILURE><>No such file"])
  = (inr (utilities.Pair utilities.NOTIFY_FAILURE "No such file"),
     asked "received_files/report.txt"
       (incoming ["<NOTIFY_FAILURE><>No such file"])).
Proof.
  apply (receive_file_passes_failure_on "('0.0.0.0', 6000)"
           "received_files/report.txt"
           (incoming ["<NOTIFY_FAILURE><>No such file"])
           "<NOTIFY_FAILURE><>No such file" "No such file");
    reflexivity.
Defined.

(** X12.  [receive_file] does not catch a failed integrity check: when
    the request could be encoded and sent (the base name of the destination
    has a UTF-8 encoding),
    the peer answers with a PUT_REQUEST header, the file has been received,
    and its digest differs from the hash of the header, the exception
    "File integrity check failed!" leaves [receive_file] (transfer errors,
    in contrast, come back as a NOTIFY_FAILURE pair); the file stays at the
    destination. *)
Theorem receive_file_raises_on_mismatch (sockname dest : string) (w w2 : world)
    (received name size_field file_hash data : string) (n : Z) :
  utf8_valid (byte_values (basename dest)) = true ->
  decode (sock_in w (sock_pos w)) = inr received ->
  split utilities.SEPARATOR received
  = [utilities.PUT_REQUEST; name; size_field; file_hash] ->
  int size_field = inr n ->
  utilities.receive_file_from_sock dest n file_hash (asked dest w) = (inr tt, w2) ->
  files w2 !! dest = Some data ->
  MD5.hexdigest data <> file_hash ->
  utilities.receive_file sockname dest w
  = (inl (Exception "File integrity check failed!"), w2).
Proof.
  intros Hutf Hdec Hsplit Hint Hrecv Hdata Hdigest.
  destruct (receive_file_from_sock_inv _ _ _ _ _ Hrecv) as (k & _ & Hc & _).
  unfold utilities.receive_file, bind at 1, lift.
  rewrite (get_request_encodes dest Hutf).
  unfold bind at 1, sendall.
  unfold bind at 1, recv. cbn [sock_in sock_pos].
  unfold bind at 1, lift. rewrite Hdec.
  unfold bind at 1. rewrite Hsplit. cbn [utilities.index nth_error].
  change (String.eqb utilities.PUT_REQUEST utilities.NOTIFY_FAILURE) with false.
  change (String.eqb utilities.PUT_REQUEST utilities.PUT_REQUEST) with true.
  cbn match.
  match goal with |- _ ?wx = _ => change wx with (asked dest w) end.
  unfold bind at 1. cbv beta iota. unfold bind at 1. cbv beta iota.
  unfold bind at 1. rewrite Hint. unfold bind at 1. cbv beta iota.
  unfold bind at 1, try_except, bind at 1. rewrite Hrecv.
  unfold ret at 1. unfold ret at 1. cbv beta iota. unfold bind at 1.
  rewrite (integrity_mismatch dest data file_hash w2 Hc Hdata Hdigest).
  reflexivity.
Qed.

Lemma receive_file_raises_on_mismatch_witness :
  utilities.receive_file "('0.0.0.0', 6000)" "received_files/report.txt"
    (incoming ["<PUT_REQUEST><>report.txt<>3<>00"; "abc"])
  = (inl (Exception "File integrity check failed!"),
     set_files {[ "received_files/report.txt" := "abc" ]}
       (set_dirs {[ "received_files" ]}
          {| files := ∅; dirs := ∅;
             sock_in := sock_in (incoming ["<PUT_REQUEST><>report.txt<>3<>00"; "abc"]);
             sock_pos := 2;
             sock_out := ["<GET_REQUEST><>report.txt"] |})).
Proof.
  apply (receive_file_raises_on_mismatch "('0.0.0.0', 6000)"
           "received_files/report.txt"
           (incoming ["<PUT_REQUEST><>report.txt<>3<>00"; "abc"]) _
           "<PUT_REQUEST><>report.txt<>3<>00" "report.txt" "3" "00" "abc" 3);
    [reflexivity | reflexivity | reflexivity | reflexivity
     | vm_compute; reflexivity | vm_compute; reflexivity
     | vm_compute; discriminate].
Defined.

Lemma failure_is_not_success (m msg : string) (w1 w2 : world) :
  (inr (utilities.Pair utilities.NOTIFY_FAILURE m) : exception + utilities.response, w1)
  = (inr (utilities.Pair utilities.NOTIFY_SUCCESS msg), w2) -> False.
Proof.
  unfold utilities.NOTIFY_FAILURE, utilities.NOTIFY_SUCCESS. intros H.
  discriminate H.
Qed.

(** X13.  [receive_file] returns a NOTIFY_SUCCESS pair only if the peer
    answered with a PUT_REQUEST header and the digest of the file now at the
    destination equals the hash of that header; the file holds the bytes of
    the reads made after the header, and the name in the header plays no
    part. *)
Theorem receive_file_success_needs_digest (sockname dest : string)
    (w w' : world) (msg : string) :
  utilities.receive_file sockname dest w
  = (inr (utilities.Pair utilities.NOTIFY_SUCCESS msg), w') ->
  exists received file_hash data,
    decode (sock_in w (sock_pos w)) = inr received /\
    utilities.index (split utilities.SEPARATOR received) 0
    = inr utilities.PUT_REQUEST /\
    utilities.index (split utilities.SEPARATOR received) 3 = inr file_hash /\
    files w' !! dest = Some data /\
    MD5.hexdigest data = file_hash /\
    data = delivered (sock_in w) (S (sock_pos w)) (sock_pos w' - S (sock_pos w)).
Proof.
  unfold utilities.receive_file, bind at 1, lift, encode.
  destruct (utf8_valid _); [|discriminate].
  unfold bind at 1, sendall.
  unfold bind at 1, recv. cbn [sock_in sock_pos].
  match goal with
  | |- context [Build_world ?f ?d ?i (S (sock_pos w)) ?o] =>
      change (Build_world f d i (S (sock_pos w)) o) with (asked dest w)
  end.
  unfold bind at 1, lift.
  destruct (decode (sock_in w (sock_pos w))) as [e|received]; [discriminate|].
  unfold bind at 1.
  destruct (utilities.index (split utilities.SEPARATOR received) 0)
    as [e|response_type] eqn:Hfirst; [discriminate|].
  destruct (String.eqb response_type utilities.NOTIFY_FAILURE).
  { unfold bind at 1.
    destruct (utilities.index (split utilities.SEPARATOR received) 1);
      unfold ret; [discriminate|].
    intros H. destruct (failure_is_not_success _ _ _ _ H). }
  destruct (String.eqb response_type utilities.PUT_REQUEST) eqn:Hput;
    [|unfold ret; intros H; destruct (failure_is_not_success _ _ _ _ H)].
  apply String.eqb_eq in Hput. subst response_type.
  unfold bind at 1.
  destruct (utilities.index (split utilities.SEPARATOR received) 1);
    [discriminate|].
  unfold bind at 1.
  destruct (utilities.index (split utilities.SEPARATOR received) 2)
    as [e|size_field]; [discriminate|].
  unfold bind at 1. destruct (int size_field) as [e|n]; [discriminate|].
  unfold bind at 1.
  destruct (utilities.index (split utilities.SEPARATOR received) 3)
    as [e|file_hash] eqn:Hhash; [discriminate|].
  unfold bind at 1, try_except, bind at 1.
  destruct (utilities.receive_file_from_sock dest n file_hash (asked dest w))
    as [[e|[]] w2] eqn:Hrecv.
  { unfold ret. intros H. destruct (failure_is_not_success _ _ _ _ H). }
  unfold ret at 1. unfold ret at 1.
  destruct (receive_file_from_sock_inv _ _ _ _ _ Hrecv)
    as (k & _ & Hc & Hdata & _ & Hp & _).
  unfold bind at 1.
  destruct (String.eqb (MD5.hexdigest (delivered (sock_in (asked dest w))
                                         (sock_pos (asked dest w)) k))
              file_hash) eqn:Hd.
  - apply String.eqb_eq in Hd.
    rewrite (integrity_matched dest _ file_hash w2 Hc Hdata Hd).
    unfold ret. intros [= _ <-].
    exists received, file_hash,
      (delivered (sock_in (asked dest w)) (sock_pos (asked dest w)) k).
    repeat (split; [first [reflexivity | assumption]|]).
    rewrite Hp. cbn [asked sock_in sock_pos]. f_equal. lia.
  - apply String.eqb_neq in Hd.
    rewrite (integrity_mismatch dest _ file_hash w2 Hc Hdata Hd). discriminate.
Qed.

Lemma receive_file_success_needs_digest_witness :
  exists received file_hash data,
    decode (sock_in (incoming ["<PUT_REQUEST><>x<>3<>900150983cd24fb0d6963f7d28e17f72";
                               "abc"]) 0) = inr received /\
    utilities.index (split utilities.SEPARATOR received) 0
    = inr utilities.PUT_REQUEST /\
    utilities.index (split utilities.SEPARATOR received) 3 = inr file_hash /\
    files (snd (utilities.receive_file "('0.0.0.0', 6000)" "received_files/report.txt"
                  (incoming ["<PUT_REQUEST><>x<>3<>900150983cd24fb0d6963f7d28e17f72";
                             "abc"])))
      !! "received_files/report.txt" = Some data /\
    MD5.hexdigest data = file_hash /\
    data = delivered
             (sock_in (incoming ["<PUT_REQUEST><>x<>3<>900150983cd24fb0d6963f7d28e17f72";
                                 "abc"]))
             1
             (sock_pos
                (snd (utilities.receive_file "('0.0.0.0', 6000)"
                        "received_files/report.txt"
                        (incoming ["<PUT_REQUEST><>x<>3<>900150983cd24fb0d6963f7d28e17f72";
                                   "abc"])))
              - 1).
Proof.
  set (w := incoming ["<PUT_REQUEST><>x<>3<>900150983cd24fb0d6963f7d28e17f72"; "abc"]).
  set (run := utilities.receive_file "('0.0.0.0', 6000)" "received_files/report.txt" w).
  assert (run = (inr (utilities.Pair utilities.NOTIFY_SUCCESS
                        "received_files/report.txt saved successfully on ('0.0.0.0', 6000). Integrity check passed."),
                 snd run)) as Hrun.
  { rewrite (surjective_pairing run) at 1.
    replace (fst run)
      with (inr (utilities.Pair utilities.NOTIFY_SUCCESS
                   "received_files/report.txt saved successfully on ('0.0.0.0', 6000). Integrity check passed.")
            : exception + utilities.response)
      by (vm_compute; reflexivity).
    reflexivity. }
  exact (receive_file_success_needs_digest "('0.0.0.0', 6000)"
           "received_files/report.txt" w (snd run) _ Hrun).
Defined.

End Client.

(** ** Node identity: table names *)

Section Names.
Import Py World Spec More.

(** *** Splitting on one character *)

Lemma split1_last (c : ascii) (f : string) :
  forall cur,
    contains c f = false -> split_go (String c "") 0 cur f = [cur ++ f].
Proof.
  induction f as [|a f IH]; intros cur Hc.
  - cbn [split_go]. rewrite app_empty_r. reflexivity.
  - cbn [contains] in Hc. apply orb_false_iff in Hc as [Ha Hf].
    cbn [split_go startswith]. rewrite Ascii.eqb_sym, Ha. cbn [andb].
    rewrite IH by assumption. rewrite app_assoc. reflexivity.
Qed.

Lemma split1_field (c : ascii) (f : string) :
  forall cur rest,
    contains c f = false ->
    split_go (String c "") 0 cur (f ++ String c rest)
    = (cur ++ f) :: split_go (String c "") 0 "" rest.
Proof.
  induction f as [|a f IH]; intros cur rest Hc.
  - change ("" ++ String c rest) with (String c rest).
    cbn [split_go startswith String.length Nat.sub]. rewrite Ascii.eqb_refl.
    cbn [andb]. rewrite app_empty_r. reflexivity.
  - cbn [contains] in Hc. apply orb_false_iff in Hc as [Ha Hf].
    rewrite app_cons. cbn [split_go startswith]. rewrite Ascii.eqb_sym, Ha.
    cbn [andb]. rewrite IH by assumption. rewrite app_assoc. reflexivity.
Qed.

Lemma split1_length (c : ascii) (s : string) :
  forall cur, length (split_go (String c "") 0 cur s) = S (count c s).
Proof.
  induction s as [|a s IH]; intros cur; [reflexivity|].
  cbn [split_go startswith count String.length Nat.sub].
  rewrite (Ascii.eqb_sym c a). destruct (Ascii.eqb a c); cbn [andb length].
  - rewrite IH. reflexivity.
  - rewrite IH. reflexivity.
Qed.

(** X14.  [get_sn_table_name_from_ip] returns a table name exactly when
    its argument contains one colon; with none, or with more than one (an
    IPv6 address, say), the unpacking of the split raises ValueError. *)
Theorem table_name_needs_exactly_one_colon (ip_addr : string) :
  match utilities.get_sn_table_name_from_ip ip_addr with
  | inr _ => count ":" ip_addr = 1%nat
  | inl e => count ":" ip_addr <> 1%nat /\ exists msg, e = ValueError msg
  end.
Proof.
  unfold utilities.get_sn_table_name_from_ip, split.
  pose proof (split1_length ":" ip_addr "") as Hlen.
  destruct (split_go ":" 0 "" ip_addr) as [|a [|b [|c l]]]; cbn [length] in Hlen.
  - discriminate.
  - split; [lia|]. unfold utilities.unpack_error. cbn. eauto.
  - lia.
  - split; [lia|]. unfold utilities.unpack_error.
    destruct (_ <? _)%nat; eauto.
Qed.

(** *** Replacing the dots *)

(** [s] with every '.' turned into '_'. *)
Lemma replace_dots_go (s : string) :
  forall cur,
    exists r,
      join "_" (split_go "." 0 cur s) = cur ++ r /\
      String.length r = String.length s /\
      contains "." r = false /\
      (contains "." s = false -> r = s) /\
      (contains ":" s = false -> contains ":" r = false).
Proof.
  induction s as [|a s IH]; intros cur.
  - exists "". cbn [split_go join]. rewrite app_empty_r. auto.
  - cbn [split_go startswith String.length Nat.sub].
    destruct (Ascii.eqb "." a) eqn:Ha; cbn [andb].
    + apply Ascii.eqb_eq in Ha. subst a.
      destruct (IH "") as (r & Hr & Hlen & Hdot & _ & Hcolon).
      exists (String "_" r).
      assert (join "_" (cur :: split_go "." 0 "" s)
              = cur ++ "_" ++ join "_" (split_go "." 0 "" s)) as ->.
      { cbn [join]. pose proof (split1_length "." s "") as Hl.
        destruct (split_go "." 0 "" s); [discriminate | reflexivity]. }
      rewrite Hr. split; [reflexivity|]. cbn [String.length contains].
      split; [congruence|]. split; [exact Hdot|]. split; [discriminate|].
      cbn [Ascii.eqb Bool.eqb orb]. exact Hcolon.
    + destruct (IH (cur ++ String a "")) as (r & Hr & Hlen & Hdot & Hsame & Hcolon).
      exists (String a r). rewrite Hr, app_assoc.
      split; [reflexivity|]. cbn [String.length contains].
      rewrite (Ascii.eqb_sym a "."), Ha. cbn [orb].
      split; [congruence|]. split; [exact Hdot|]. split.
      * intros H. rewrite (Hsame H). reflexivity.
      * intros H. apply orb_false_iff in H as [H1 H2].
        rewrite H1, (Hcolon H2). reflexivity.
Qed.

Lemma replace_dots (s : string) :
  contains "." (replace "." "_" s) = false /\
  (contains "." s = false -> replace "." "_" s = s) /\
  (contains ":" s = false -> contains ":" (replace "." "_" s) = false).
Proof.
  unfold replace, split. destruct (replace_dots_go s "") as (r & -> & _ & H).
  exact H.
Qed.

(** *** Splitting on the double underscore *)

Lemma split2_last (f : string) :
  forall cur, occurs "__" f = false -> split_go "__" 0 cur f = [cur ++ f].
Proof.
  induction f as [|c f IH]; intros cur Hocc.
  - cbn [split_go]. rewrite app_empty_r. reflexivity.
  - cbn [occurs] in Hocc. apply orb_false_iff in Hocc as [Hstart Hocc].
    cbn [split_go]. rewrite Hstart, IH by assumption.
    rewrite app_assoc. reflexivity.
Qed.

Lemma split2_field (f : string) :
  forall cur rest,
    contains "_" f = false ->
    split_go "__" 0 cur (f ++ "__" ++ rest)
    = (cur ++ f) :: split_go "__" 0 "" rest.
Proof.
  induction f as [|a f IH]; intros cur rest Hc.
  - change ("" ++ "__" ++ rest) with (String "_" (String "_" rest)).
    cbn [split_go startswith Ascii.eqb]. rewrite app_empty_r. reflexivity.
  - cbn [contains] in Hc. apply orb_false_iff in Hc as [Ha Hf].
    rewrite app_cons. cbn [split_go startswith]. rewrite Ascii.eqb_sym, Ha.
    cbn [andb]. rewrite IH by assumption. rewrite app_assoc. reflexivity.
Qed.

(** X15.  On hosts without dot, colon or underscore (service names such as
    "sn1") and ports without colon or double underscore, the two naming
    functions are inverse: the table name is sn__host__port and parsing it
    gives host:port back. *)
Theorem table_name_round_trip_plain_host (host port : string) :
  contains "." host = false ->
  contains ":" host = false ->
  contains "_" host = false ->
  contains ":" port = false ->
  occurs "__" port = false ->
  utilities.get_sn_table_name_from_ip (host ++ ":" ++ port)
  = inr ("sn__" ++ host ++ "__" ++ port) /\
  utilities.get_ip_from_sn_table_name ("sn__" ++ host ++ "__" ++ port)
  = inr (host ++ ":" ++ port).
Proof.
  intros Hdot Hcolon Hunder Hpcolon Hpunder. split.
  - unfold utilities.get_sn_table_name_from_ip, split.
    change (host ++ ":" ++ port) with (host ++ String ":" port).
    rewrite split1_field, split1_last by assumption. cbv beta iota zeta.
    change ("" ++ host) with host. change ("" ++ port) with port.
    destruct (replace_dots host) as (_ & Hsame & _). rewrite (Hsame Hdot).
    reflexivity.
  - unfold utilities.get_ip_from_sn_table_name, split.
    change ("sn__" ++ host ++ "__" ++ port)
      with ("sn" ++ "__" ++ host ++ "__" ++ port).
    rewrite (split2_field "sn") by reflexivity.
    rewrite split2_field, split2_last by assumption.
    reflexivity.
Qed.

Lemma table_name_round_trip_plain_host_witness :
  utilities.get_sn_table_name_from_ip ("sn1" ++ ":" ++ "5000")
  = inr ("sn__" ++ "sn1" ++ "__" ++ "5000") /\
  utilities.get_ip_from_sn_table_name ("sn__" ++ "sn1" ++ "__" ++ "5000")
  = inr ("sn1" ++ ":" ++ "5000").
Proof.
  apply (table_name_round_trip_plain_host "sn1" "5000"); reflexivity.
Defined.

Lemma contains_app (x : ascii) (a b : string) :
  contains x (a ++ b) = contains x a || contains x b.
Proof.
  induction a as [|c a IH]; [reflexivity|].
  rewrite app_cons. cbn [contains]. rewrite IH, orb_assoc. reflexivity.
Qed.

(** The first field of a split on "__" is cut out of what was read so far
    and the text before the first "__". *)
Lemma first_field_plain (h : string) :
  forall cur rest,
    contains "." cur = false -> contains ":" cur = false ->
    contains "." h = false -> contains ":" h = false ->
    exists a l,
      split_go "__" 0 cur (h ++ "__" ++ rest) = a :: l /\
      contains "." a = false /\ contains ":" a = false.
Proof.
  induction h as [|c h IH]; intros cur rest Hd Hc Hhd Hhc.
  - change ("" ++ "__" ++ rest) with (String "_" (String "_" rest)).
    cbn [split_go startswith Ascii.eqb]. eauto.
  - rewrite app_cons. cbn [split_go].
    destruct (startswith "__" (String c (h ++ "__" ++ rest))); [eauto|].
    cbn [contains] in Hhd, Hhc.
    apply orb_false_iff in Hhd as [Hcd Hhd]. apply orb_false_iff in Hhc as [Hcc Hhc].
    apply IH; try assumption.
    + rewrite contains_app, Hd. cbn [contains]. rewrite Hcd. reflexivity.
    + rewrite contains_app, Hc. cbn [contains]. rewrite Hcc. reflexivity.
Qed.

Lemma before_colon_unique (a : string) :
  forall h b p,
    contains ":" a = false -> contains ":" h = false ->
    a ++ ":" ++ b = h ++ ":" ++ p -> a = h.
Proof.
  induction a as [|x a IH]; intros [|c h] b p Ha Hh Heq.
  - reflexivity.
  - change ("" ++ ":" ++ b) with (String ":" b) in Heq.
    rewrite app_cons in Heq. injection Heq as <- _.
    cbn [contains] in Hh. rewrite Ascii.eqb_refl in Hh. discriminate.
  - change ("" ++ ":" ++ p) with (String ":" p) in Heq.
    rewrite app_cons in Heq. injection Heq as -> _.
    cbn [contains] in Ha. rewrite Ascii.eqb_refl in Ha. discriminate.
  - rewrite !app_cons in Heq. injection Heq as -> Heq.
    cbn [contains] in Ha, Hh.
    apply orb_false_iff in Ha as [_ Ha]. apply orb_false_iff in Hh as [_ Hh].
    f_equal. apply (IH h b p); assumption.
Qed.

(** X16.  A host with a dot never comes back: for every host:port whose
    host contains a dot, the table name exists, but parsing it does not
    return host:port, because the underscores that replaced the dots are
    not turned back (C1 is the instance 0.0.0.0:5000). *)
Theorem table_name_of_dotted_host_never_parses_back (host port : string) :
  contains "." host = true ->
  contains ":" host = false ->
  contains ":" port = false ->
  exists table_name,
    utilities.get_sn_table_name_from_ip (host ++ ":" ++ port) = inr table_name /\
    utilities.get_ip_from_sn_table_name table_name <> inr (host ++ ":" ++ port).
Proof.
  intros Hdot Hcolon Hpcolon.
  destruct (replace_dots host) as (Hnodot & _ & Hnocolon).
  specialize (Hnocolon Hcolon).
  exists ("sn__" ++ replace "." "_" host ++ "__" ++ port). split.
  - unfold utilities.get_sn_table_name_from_ip, split.
    change (host ++ ":" ++ port) with (host ++ String ":" port).
    rewrite split1_field, split1_last by assumption. reflexivity.
  - unfold utilities.get_ip_from_sn_table_name, split.
    change ("sn__" ++ replace "." "_" host ++ "__" ++ port)
      with ("sn" ++ "__" ++ replace "." "_" host ++ "__" ++ port).
    rewrite (split2_field "sn") by reflexivity. cbn [tl].
    destruct (first_field_plain (replace "." "_" host) "" port
                eq_refl eq_refl Hnodot Hnocolon) as (a & l & -> & Had & Hac).
    change ("sn" ++ "") with "sn". cbn [tl utilities.index nth_error].
    destruct l as [|b l]; [discriminate|].
    intros [= Heq].
    apply before_colon_unique in Heq; [|assumption|assumption].
    subst a. rewrite Hdot in Had. discriminate.
Qed.

Lemma table_name_of_dotted_host_never_parses_back_witness :
  exists table_name,
    utilities.get_sn_table_name_from_ip ("172.18.0.2" ++ ":" ++ "5001")
    = inr table_name /\
    utilities.get_ip_from_sn_table_name table_name
    <> inr ("172.18.0.2" ++ ":" ++ "5001").
Proof.
  apply (table_name_of_dotted_host_never_parses_back "172.18.0.2" "5001");
    reflexivity.
Defined.

End Names.

(** ** The integrity verifier, as its callers see it *)

Section Verifier.
Import Py World Spec More.

(** X17.  [calc_file_md5] returns the MD5 digest of the whole content of
    the file, however long it is: feeding the hash object blocks of 4096
    bytes until a read returns nothing feeds it every byte, in order.  It
    raises when the path cannot be opened for reading, and it changes
    nothing. *)
Theorem calc_file_md5_is_digest_of_content (filepath : string) (w : world) :
  utilities.calc_file_md5 filepath w
  = (match open_check filepath w with
     | Some e => inl e
     | None =>
         match files w !! filepath with
         | Some content => inr (MD5.hexdigest content)
         | None => inl (ENOENT filepath)
         end
     end, w).
Proof.
  unfold utilities.calc_file_md5, bind, open_rb.
  destruct (open_check filepath w); [reflexivity|].
  destruct (files w !! filepath) as [content|]; [|reflexivity].
  unfold ret. rewrite md5_update_blocks_all by lia. reflexivity.
Qed.

(** X18.  [is_file_integrity_matched] never returns False: it returns True
    exactly when the file can be read and its digest is the expected hash,
    and raises otherwise; in both cases it changes nothing. *)
Theorem integrity_check_returns_true_or_raises (filepath recvd_hash : string)
    (w : world) :
  match utilities.is_file_integrity_matched filepath recvd_hash w with
  | (inr b, w') =>
      b = true /\ w' = w /\
      exists content,
        files w !! filepath = Some content /\ MD5.hexdigest content = recvd_hash
  | (inl _, w') =>
      w' = w /\
      forall content,
        open_check filepath w = None ->
        files w !! filepath = Some content ->
        MD5.hexdigest content <> recvd_hash
  end.
Proof.
  unfold utilities.is_file_integrity_matched, bind at 1.
  unfold utilities.calc_file_md5, bind, open_rb.
  destruct (open_check filepath w) as [e|].
  { split; [reflexivity|]. intros content Hc. discriminate Hc. }
  destruct (files w !! filepath) as [content|].
  - unfold ret. rewrite md5_update_blocks_all by lia.
    change ("" ++ content) with content.
    destruct (String.eqb (MD5.hexdigest content) recvd_hash) eqn:E;
      cbn [negb]; unfold raise, ret.
    + apply String.eqb_eq in E. eauto.
    + apply String.eqb_neq in E. split; [reflexivity|].
      intros c _ [= <-]. exact E.
  - split; [reflexivity|]. intros content _ Hf. discriminate Hf.
Qed.

End Verifier.

(** ** The node list of machines.cfg *)

Section Config.
Import Py World More utilities_config.

Lemma digits_no_colon (s : string) :
  all_chars is_digit s = true -> contains ":" s = false.
Proof.
  induction s as [|c s IH]; [reflexivity|].
  cbn [all_chars contains]. intros H. apply andb_prop in H as [Hc Hs].
  rewrite (IH Hs), orb_false_r.
  destruct (Ascii.eqb c ":") eqn:E; [|reflexivity].
  apply Ascii.eqb_eq in E. subst c. discriminate Hc.
Qed.


(** An entry written as host, colon, port splits into the two. *)
Lemma split_entry (host : string) (port : Z) :
  contains ":" host = false -> 0 <= port ->
  split ":" (host ++ ":" ++ str_of_int port) = [host; str_of_int port].
Proof.
  intros Hh Hp. unfold split.
  change (host ++ ":" ++ str_of_int port)
    with (host ++ String ":" (str_of_int port)).
  rewrite split1_field by assumption.
  rewrite split1_last by (apply digits_no_colon, str_of_int_digits; assumption).
  reflexivity.
Qed.

Lemma list_getitem_in_range (l : list string) (k : nat) (x : string) :
  l !! k = Some x ->
  list_getitem l (Z.of_nat k) = inr x /\
  list_getitem l (Z.of_nat k - Z.of_nat (length l)) = inr x.
Proof.
  intros Hk. pose proof (lookup_lt_Some _ _ _ Hk) as Hlt.
  assert (nth_error l k = Some x) as Hn.
  { revert k Hk Hlt. induction l as [|a l IH]; intros [|k] Hk Hlt;
      cbn in *; try discriminate; try lia; [exact Hk|].
    apply IH; [exact Hk | lia]. }
  unfold list_getitem. split.
  - assert ((Z.of_nat k <? 0) = false) as -> by lia.
    assert ((0 <=? Z.of_nat k) && (Z.of_nat k <? Z.of_nat (length l)) = true)
      as -> by lia.
    rewrite Nat2Z.id, Hn. reflexivity.
  - assert ((Z.of_nat k - Z.of_nat (length l) <? 0) = true) as -> by lia.
    replace (Z.of_nat (length l) + (Z.of_nat k - Z.of_nat (length l)))
      with (Z.of_nat k) by lia.
    assert ((0 <=? Z.of_nat k) && (Z.of_nat k <? Z.of_nat (length l)) = true)
      as -> by lia.
    rewrite Nat2Z.id, Hn. reflexivity.
Qed.

(** X19.  [get_sn_node_port] reads an entry written as host, colon and the
    decimal port back as that host and that port; the same entry is also
    returned for the negative index that counts it from the end of the
    list, which the function does not refuse. *)
Theorem node_entry_is_read_back (cfg : config) (nodes : list string)
    (k : nat) (host : string) (port : Z) :
  get_all_storage_nodes cfg = inr nodes ->
  nodes !! k = Some (host ++ ":" ++ str_of_int port) ->
  contains ":" host = false ->
  0 <= port ->
  get_sn_node_port cfg (Z.of_nat k) = inr (host, port) /\
  get_sn_node_port cfg (Z.of_nat k - Z.of_nat (length nodes)) = inr (host, port).
Proof.
  intros Hcfg Hk Hh Hp.
  destruct (list_getitem_in_range _ _ _ Hk) as [H1 H2].
  unfold get_sn_node_port. rewrite Hcfg, H1, H2.
  rewrite split_entry by assumption.
  rewrite int_str_of_int by assumption. split; reflexivity.
Qed.

Lemma node_entry_is_read_back_witness :
  let cfg : config :=
    {[ "storage_nodes" :=
         {[ "machine_list_docker" :=
              "sn1:5000" ++ String "," (String "010" "sn2:5001") ]} ]} in
  get_sn_node_port cfg 1 = inr ("sn2", 5001) /\
  get_sn_node_port cfg (-1) = inr ("sn2", 5001).
Proof.
  intros cfg.
  exact (node_entry_is_read_back cfg ["sn1:5000"; "sn2:5001"] 1 "sn2" 5001
           eq_refl eq_refl eq_refl ltac:(lia)).
Defined.



End Config.

(** ** The cleanup script *)

Section Cleanup.
Import Py World More utilities_config cleanup.

Variable PROJECT_ROOT : string.

Lemma rmtree_leaves (p : string) (w : world) :
  leaves p w (rmtree_ignore_errors p w).
Proof.
  unfold leaves, rmtree_ignore_errors, is_dir.
  destruct (bool_decide (p ∈ dirs w)) eqn:E.
  - cbn [set_files set_dirs files dirs sock_pos sock_out].
    repeat apply conj.
    + rewrite elem_of_filter. intros [[H _] _]. apply H. reflexivity.
    + intros q Hq. apply elem_of_filter in Hq as [_ Hq]. exact Hq.
    + intros q c Hq. apply map_lookup_filter_Some in Hq as [Hq _]. exact Hq.
    + intros q c Hq Hb. apply map_lookup_filter_Some. split; assumption.
    + intros q Hq Hne Hb. apply elem_of_filter. repeat split; assumption.
    + reflexivity.
    + reflexivity.
  - apply bool_decide_eq_false in E. repeat apply conj; auto.
Qed.

(** The lines printed and the world left by the loop over entries that are
    written as host, colon and decimal port. *)
Lemma clean_sn_loop_entries (hps : list (string * Z)) :
  Forall (fun hp => contains ":" hp.1 = false /\ 0 <= hp.2) hps ->
  forall w,
  exists w',
    clean_sn_loop PROJECT_ROOT (map entry hps) w
    = (None,
       map (fun hp => "Deleting dir: " ++ handler_dir PROJECT_ROOT hp.2) hps,
       w') /\
    (forall hp, hp ∈ hps -> handler_dir PROJECT_ROOT hp.2 ∉ dirs w') /\
    dirs w' ⊆ dirs w /\
    (forall q c, files w' !! q = Some c -> files w !! q = Some c) /\
    (forall q c,
        files w !! q = Some c ->
        (forall hp, hp ∈ hps -> beneath (handler_dir PROJECT_ROOT hp.2) q = false) ->
        files w' !! q = Some c) /\
    (forall q,
        q ∈ dirs w ->
        (forall hp, hp ∈ hps ->
                    q <> handler_dir PROJECT_ROOT hp.2 /\
                    beneath (handler_dir PROJECT_ROOT hp.2) q = false) ->
        q ∈ dirs w') /\
    sock_pos w' = sock_pos w /\ sock_out w' = sock_out w.
Proof.
  induction 1 as [|[host port] hps [Hh Hp] _ IH]; intros w.
  - exists w. cbn [map clean_sn_loop]. repeat apply conj; auto.
    intros hp Hin. apply elem_of_nil in Hin. contradiction.
  - cbn [map clean_sn_loop]. unfold entry at 1. cbn [fst snd].
    rewrite split_entry by assumption.
    unfold utilities.index. cbn [nth_error]. unfold silent_dir_delete.
    change (os_path_join PROJECT_ROOT (STORAGE_DIR SN_HOST (str_of_int port)))
      with (handler_dir PROJECT_ROOT port).
    pose proof (rmtree_leaves (handler_dir PROJECT_ROOT port) w)
      as (Hgone & Hsub & Hold & Hkeep & Hdkeep & Hpos & Hout).
    destruct (IH (rmtree_ignore_errors (handler_dir PROJECT_ROOT port) w))
      as (w' & -> & Hgone' & Hsub' & Hold' & Hkeep' & Hdkeep' & Hpos' & Hout').
    exists w'. repeat apply conj.
    + reflexivity.
    + intros hp Hin. apply elem_of_cons in Hin as [-> | Hin].
      * cbn [snd]. intros Hd. apply Hgone, Hsub', Hd.
      * apply Hgone', Hin.
    + intros q Hq. apply Hsub, Hsub', Hq.
    + intros q c Hq. apply Hold, Hold', Hq.
    + intros q c Hq Hall. apply Hkeep'.
      * apply Hkeep; [exact Hq|]. apply (Hall (host, port)), list_elem_of_here.
      * intros hp Hin. apply Hall, list_elem_of_further, Hin.
    + intros q Hq Hall. apply Hdkeep'.
      * destruct (Hall (host, port)) as [Hne Hb]; [apply list_elem_of_here|].
        apply Hdkeep; assumption.
      * intros hp Hin. apply Hall, list_elem_of_further, Hin.
    + congruence.
    + congruence.
Qed.


(** X22.  Under the same condition [clean_all_sn_files] touches nothing
    else: it creates no file and no directory, every file and directory
    that is neither one of the handler directories nor beneath one is kept
    as it was, and nothing is read from or sent to a socket. *)
Theorem cleanup_keeps_everything_else (cfg : config)
    (hps : list (string * Z)) (w : world) :
  get_all_storage_nodes cfg = inr (map entry hps) ->
  Forall (fun hp => contains ":" hp.1 = false /\ 0 <= hp.2) hps ->
  let w' := (clean_all_sn_files PROJECT_ROOT cfg w).2 in
  dirs w' ⊆ dirs w /\
  (forall q c, files w' !! q = Some c -> files w !! q = Some c) /\
  (forall q c,
      files w !! q = Some c ->
      (forall hp, hp ∈ hps -> beneath (handler_dir PROJECT_ROOT hp.2) q = false) ->
      files w' !! q = Some c) /\
  (forall q,
      q ∈ dirs w ->
      (forall hp, hp ∈ hps ->
                  q <> handler_dir PROJECT_ROOT hp.2 /\
                  beneath (handler_dir PROJECT_ROOT hp.2) q = false) ->
      q ∈ dirs w') /\
  sock_pos w' = sock_pos w /\ sock_out w' = sock_out w.
Proof.
  intros Hcfg Hok. unfold clean_all_sn_files. rewrite Hcfg.
  destruct (clean_sn_loop_entries hps Hok w) as (w' & -> & _ & H).
  exact H.
Qed.

(** The loop over a list that continues after [pre] does first what the
    loop over [pre] does. *)
Lemma clean_sn_loop_app (pre rest : list string) :
  forall w out w1,
    clean_sn_loop PROJECT_ROOT pre w = (None, out, w1) ->
    clean_sn_loop PROJECT_ROOT (pre ++ rest)%list w
    = (let '(r, out', w2) := clean_sn_loop PROJECT_ROOT rest w1 in
       (r, (out ++ out')%list, w2)).
Proof.
  induction pre as [|sn pre IH]; intros w out w1 Hrun.
  - cbn [clean_sn_loop] in Hrun. injection Hrun as <- <-.
    cbn [app]. destruct (clean_sn_loop PROJECT_ROOT rest w) as [[r o] w2].
    reflexivity.
  - cbn [app clean_sn_loop] in Hrun |- *.
    destruct (utilities.index (split ":" sn) 1) as [e|port]; [discriminate|].
    unfold silent_dir_delete in Hrun |- *.
    destruct (clean_sn_loop PROJECT_ROOT pre _) as [[r o] w2] eqn:Epre.
    injection Hrun as Hr Ho Hw. subst r out w2.
    rewrite (IH _ _ _ Epre).
    destruct (clean_sn_loop PROJECT_ROOT rest w1) as [[r' o'] w3].
    cbn [app]. reflexivity.
Qed.

(** X23.  An entry without a colon stops [clean_all_sn_files] with
    IndexError: the directories of the entries before it have been deleted
    by then and stay deleted, those of the entries after it are not
    looked at. *)
Theorem cleanup_stops_at_entry_without_colon (cfg : config)
    (pre post : list string) (bad : string) (w w1 : world)
    (out : list string) :
  get_all_storage_nodes cfg = inr (pre ++ bad :: post)%list ->
  clean_sn_loop PROJECT_ROOT pre w = (None, out, w1) ->
  contains ":" bad = false ->
  clean_all_sn_files PROJECT_ROOT cfg w
  = (Some (Exc (IndexError "list index out of range")), out, w1).
Proof.
  intros Hcfg Hpre Hbad. unfold clean_all_sn_files. rewrite Hcfg.
  rewrite (clean_sn_loop_app pre (bad :: post) w out w1 Hpre).
  cbn [clean_sn_loop]. unfold split. rewrite split1_last by assumption.
  unfold utilities.index. cbn [nth_error]. rewrite app_nil_r. reflexivity.
Qed.

End Cleanup.


Lemma cleanup_keeps_everything_else_witness :
  let cfg : utilities_config.config :=
    {[ "storage_nodes" := {[ "machine_list_docker" := "sn1:5000" ]} ]} in
  let w := {| World.files := {[ "/dfs/storage_0.0.0.0_5000/a.txt" := "abc";
                                "/dfs/logs/node.log" := "started" ]};
              World.dirs := {[ "/dfs"; "/dfs/logs"; "/dfs/storage_0.0.0.0_5000" ]};
              World.sock_in := fun _ => ""; World.sock_pos := 0;
              World.sock_out := [] |} in
  World.files (cleanup.clean_all_sn_files "/dfs" cfg w).2 !! "/dfs/logs/node.log"
  = Some "started".
Proof.
  intros cfg w.
  pose proof (cleanup_keeps_everything_else "/dfs" cfg [("sn1", 5000)] w eq_refl
                ltac:(constructor; [split; [reflexivity | cbn [snd]; lia] | constructor]))
    as (_ & _ & Hkeep & _).
  apply Hkeep; [reflexivity|].
  intros hp Hin. apply list_elem_of_singleton in Hin. subst hp. reflexivity.
Defined.

Lemma cleanup_stops_at_entry_without_colon_witness :
  let cfg : utilities_config.config :=
    {[ "storage_nodes" :=
         {[ "machine_list_docker" :=
              "sn1:5000" ++ String "," (String "010" "sn2") ]} ]} in
  let w := {| World.files := ∅; World.dirs := {[ "/dfs" ]};
              World.sock_in := fun _ => ""; World.sock_pos := 0;
              World.sock_out := [] |} in
  cleanup.clean_all_sn_files "/dfs" cfg w
  = (Some (utilities_config.Exc (Py.IndexError "list index out of range")),
     ["Deleting dir: /dfs/storage_0.0.0.0_5000"], w).
Proof.
  intros cfg w.
  apply (cleanup_stops_at_entry_without_colon "/dfs" cfg ["sn1:5000"] [] "sn2"
           w w _ eq_refl); reflexivity.
Defined.

(** ** Sending with a server response *)

Section Reply.
Import Py World More.

(** X24.  With [want_server_response] set, [send_file] does what it does
    without it and then reads one message: the result is that message
    decoded, a string and not a pair, and the verdict of the sending loop
    is dropped.  An error of the sending part is raised before anything is
    read. *)
Theorem send_file_returns_what_the_server_says (src : string) (w : world) :
  utilities.send_file src true w
  = match utilities.send_file src false w with
    | (inl e, w1) => (inl e, w1)
    | (inr _, w1) =>
        (match decode (sock_in w1 (sock_pos w1)) with
         | inl e => inl e
         | inr text => inr (utilities.Text text)
         end,
         (recv utilities.BUFFER_SIZE w1).2)
    end.
Proof.
  unfold utilities.send_file, bind.
  destruct (os_path_getsize src w) as [[e|file_size] w1]; [reflexivity|].
  destruct (utilities.calc_file_md5 src w1) as [[e|file_hash] w2];
    [reflexivity|].
  destruct (encode _) as [e|header]; [reflexivity|].
  change (lift (inr header) w2) with (inr header : exception + string, w2).
  cbv beta iota.
  destruct (sendall header w2) as [[e|u] w3]; [reflexivity|].
  destruct (lift (tqdm_range file_size) w3) as [[e|progress] w4];
    [reflexivity|].
  destruct (open_rb src w4) as [[e|content] w5]; [reflexivity|].
  destruct (utilities.send_loop _ _ _ _ _ _ w5) as [[e|r] w6]; [reflexivity|].
  unfold ret, recv, lift. cbn [snd fst sock_in sock_pos].
  destruct (decode (sock_in w6 (sock_pos w6))); reflexivity.
Qed.

End Reply.

(** ** Names without a UTF-8 encoding *)

Section Encoding.
Import Py World More.

Lemma low_not_between (lo hi c : Z) :
  128 <= lo -> c <= 127 -> between lo hi c = false.
Proof.
  intros Hlo Hc. unfold between. apply andb_false_iff. left. lia.
Qed.

Lemma low_not_cont (c : Z) : c <= 127 -> cont c = false.
Proof. intros Hc. apply low_not_between; [lia | assumption]. Qed.

(** Bytes below 128 cannot complete what is not well-formed. *)
Lemma utf8_invalid_app (n : nat) :
  forall l1 l2 : list Z,
    (length l1 <= n)%nat -> utf8_valid l1 = false ->
    Forall (fun b => b <= 127) l2 ->
    utf8_valid (l1 ++ l2) = false.
Proof.
  induction n as [|n IH]; intros l1 l2 Hlen Hinv Hlow.
  - destruct l1; [discriminate | cbn in Hlen; lia].
  - destruct l1 as [|b0 l1]; [discriminate|].
    rewrite <- app_comm_cons. cbn [utf8_valid] in *. cbn [length] in Hlen.
    destruct (b0 <=? 127); [apply IH; [lia | assumption | assumption]|].
    destruct (between 194 223 b0).
    { destruct l1 as [|b1 l1].
      - destruct l2 as [|c l2]; [reflexivity|].
        inversion Hlow as [|? ? Hc _]; subst. cbn [app].
        rewrite (low_not_cont c Hc). reflexivity.
      - rewrite <- app_comm_cons. cbn [length] in Hlen.
        destruct (cont b1); [|reflexivity]. cbn [andb] in *.
        apply IH; [lia | assumption | assumption]. }
    destruct (between 224 239 b0).
    { destruct l1 as [|b1 [|b2 l1]].
      - destruct l2 as [|c [|d l2]]; try reflexivity.
        inversion Hlow as [|? ? Hc _]; subst. cbn [app].
        assert ((if b0 =? 224 then between 160 191 c
                 else if b0 =? 237 then between 128 159 c else cont c) = false)
          as ->; [|reflexivity].
        destruct (b0 =? 224); [apply low_not_between; lia|].
        destruct (b0 =? 237); [apply low_not_between; lia|].
        apply low_not_cont. assumption.
      - destruct l2 as [|c l2]; [reflexivity|].
        inversion Hlow as [|? ? Hc _]; subst. cbn [app].
        rewrite (low_not_cont c Hc), andb_false_r. reflexivity.
      - rewrite <- !app_comm_cons. cbn [length] in Hlen.
        destruct (_ && cont b2); [|reflexivity]. cbn [andb] in *.
        apply IH; [lia | assumption | assumption]. }
    destruct (between 240 244 b0); [|reflexivity].
    destruct l1 as [|b1 [|b2 [|b3 l1]]].
    + destruct l2 as [|c [|d [|e l2]]]; try reflexivity.
      inversion Hlow as [|? ? Hc _]; subst. cbn [app].
      assert ((if b0 =? 240 then between 144 191 c
               else if b0 =? 244 then between 128 143 c else cont c) = false)
        as ->; [|reflexivity].
      destruct (b0 =? 240); [apply low_not_between; lia|].
      destruct (b0 =? 244); [apply low_not_between; lia|].
      apply low_not_cont. assumption.
    + destruct l2 as [|c [|d l2]]; try reflexivity.
      inversion Hlow as [|? ? Hc _]; subst. cbn [app].
      rewrite (low_not_cont c Hc), andb_false_r. reflexivity.
    + destruct l2 as [|c l2]; [reflexivity|].
      inversion Hlow as [|? ? Hc _]; subst. cbn [app].
      rewrite (low_not_cont c Hc), andb_false_r. reflexivity.
    + rewrite <- !app_comm_cons. cbn [length] in Hlen.
      destruct (_ && cont b3); [|reflexivity]. cbn [andb] in *.
      apply IH; [lia | assumption | assumption].
Qed.

Lemma plain_low (s : string) :
  all_chars is_plain s = true -> Forall (fun b => b <= 127) (byte_values s).
Proof.
  induction s as [|c s IH]; [constructor|].
  cbn [all_chars]. intros H. apply andb_prop in H as [Hc Hs].
  unfold byte_values in *. cbn [list_ascii_of_string map].
  constructor; [|apply IH; assumption].
  unfold is_plain in Hc. apply andb_prop in Hc as [Hc _]. lia.
Qed.

(** A text keeps a part without encoding that stands between an encoded
    beginning and an end of plain characters. *)
Lemma utf8_invalid_between (a name b : string) :
  utf8_valid (byte_values a) = true ->
  utf8_valid (byte_values name) = false ->
  Forall (fun x => x <= 127) (byte_values b) ->
  utf8_valid (byte_values (a ++ name ++ b)) = false.
Proof.
  intros Ha Hname Hb. rewrite !byte_values_app.
  rewrite (utf8_valid_app _ (length (byte_values a))); [|lia|assumption].
  apply (utf8_invalid_app (length (byte_values name))); [lia | assumption | assumption].
Qed.

(** X25.  A path whose base name has no UTF-8 encoding (a file name with
    surrogate escapes) is refused before anything is sent: [receive_file]
    raises UnicodeEncodeError when it encodes the GET request, and
    [send_file] raises too, UnicodeEncodeError if the file can be read;
    the socket and the file system are as they were. *)
Theorem name_without_encoding_is_refused (sockname path : string)
    (want_server_response : bool) (w : world) :
  utf8_valid (byte_values (basename path)) = false ->
  utilities.receive_file sockname path w
  = (inl (UnicodeEncodeError
            "'utf-8' codec can't encode characters: surrogates not allowed"), w) /\
  exists e,
    utilities.send_file path want_server_response w = (inl e, w) /\
    forall content,
      files w !! path = Some content -> open_check path w = None ->
      e = UnicodeEncodeError
            "'utf-8' codec can't encode characters: surrogates not allowed".
Proof.
  intros Hname. split.
  - unfold utilities.receive_file, bind at 1, lift, encode.
    assert (utf8_valid
              (byte_values (utilities.GET_REQUEST ++ utilities.SEPARATOR
                            ++ basename path)) = false) as ->; [|reflexivity].
    rewrite <- (app_empty_r (basename path)).
    change (utilities.GET_REQUEST ++ utilities.SEPARATOR ++ basename path ++ "")
      with ("<GET_REQUEST><>" ++ basename path ++ "").
    apply utf8_invalid_between; [reflexivity | assumption | constructor].
  - assert (forall size data,
              0 <= size ->
              encode (utilities.PUT_REQUEST ++ utilities.SEPARATOR
                      ++ basename path ++ utilities.SEPARATOR
                      ++ str_of_int size ++ utilities.SEPARATOR
                      ++ MD5.hexdigest data)
              = inl (UnicodeEncodeError
                       "'utf-8' codec can't encode characters: surrogates not allowed"))
      as Henc.
    { intros size data Hsize. unfold encode.
      assert (utf8_valid
                (byte_values
                   ("<PUT_REQUEST><>" ++ basename path
                    ++ "<>" ++ str_of_int size ++ "<>" ++ MD5.hexdigest data))
              = false) as Hinv.
      { apply utf8_invalid_between; [reflexivity | assumption|].
        rewrite !byte_values_app.
        apply Forall_app; split;
          [|apply Forall_app; split; [|apply Forall_app; split]].
        - change (byte_values "<>") with [60; 62].
          constructor; [lia|]. constructor; [lia|]. constructor.
        - apply plain_low. eapply all_chars_impl; [apply digit_is_plain|].
          apply str_of_int_digits. assumption.
        - change (byte_values "<>") with [60; 62].
          constructor; [lia|]. constructor; [lia|]. constructor.
        - apply plain_low, hexdigest_plain. }
      change (utilities.PUT_REQUEST ++ utilities.SEPARATOR ++ basename path
              ++ utilities.SEPARATOR ++ str_of_int size
              ++ utilities.SEPARATOR ++ MD5.hexdigest data)
        with ("<PUT_REQUEST><>" ++ basename path
              ++ "<>" ++ str_of_int size ++ "<>" ++ MD5.hexdigest data).
      rewrite Hinv. reflexivity. }
    unfold utilities.send_file, bind at 1, os_path_getsize.
    destruct (files w !! path) as [content|] eqn:Hf.
    + unfold bind at 1, utilities.calc_file_md5, bind at 1, open_rb. rewrite Hf.
      destruct (open_check path w) as [e|] eqn:Hc.
      * exists e. split; [reflexivity|]. intros c _ Hn. discriminate Hn.
      * unfold ret. rewrite md5_update_blocks_all by lia.
        unfold bind at 1, lift. rewrite (Henc _ _ (len_nonneg content)).
        eexists. split; [reflexivity|]. intros; reflexivity.
    + destruct (is_dir w path).
      * unfold bind at 1, utilities.calc_file_md5, bind at 1, open_rb. rewrite Hf.
        destruct (open_check path w) as [e|]; eexists;
          (split; [reflexivity|]); intros c Hn; discriminate Hn.
      * eexists. split; [reflexivity|]. intros c Hn. discriminate Hn.
Qed.

Lemma name_without_encoding_is_refused_witness :
  utilities.receive_file "('0.0.0.0', 6000)" ("received_files/" ++ String "255" ".bin")
    (incoming ["<NOTIFY_FAILURE><>No such file"])
  = (inl (UnicodeEncodeError
            "'utf-8' codec can't encode characters: surrogates not allowed"),
     incoming ["<NOTIFY_FAILURE><>No such file"]).
Proof.
  exact (proj1 (name_without_encoding_is_refused "('0.0.0.0', 6000)"
                  ("received_files/" ++ String "255" ".bin") false
                  (incoming ["<NOTIFY_FAILURE><>No such file"]) eq_refl)).
Defined.

End Encoding.
